(** * Leitor Fiscal (app.py): CT-e and NF-e extraction, tabulation and join

    A shallow embedding of [app.py].  The functions of the script keep
    their names ([xml_float], [br_money], [br_weight], [str_to_float_br],
    [frete_tipo], [parse_cte], [parse_nfe], [load_files]); what the script
    gets from its libraries (libxml2 behind [etree.fromstring], [datetime],
    the iteration order of a [set], [zipfile], [pandas.merge]) is either
    modelled here next to the call that uses it or taken as a field of the
    record [Lib].

    Conventions.
    - A Python [str] is a [string] holding its UTF-8 bytes.  Where the
      script looks at characters rather than bytes, in [str.strip] and
      [float], the bytes are read back as code points: white space and
      decimal digits are those of Unicode, not only those of ASCII.
    - A Python [float] is an IEEE 754 binary64 value, [spec_float] at
      precision 53 and maximal exponent 1024, with the operations of
      [SpecFloat] (round to nearest, ties to even).
    - A call that may raise returns a [result]; the exception classes
      that can occur are the constructors of [exn]. *)

From Stdlib Require Import ZArith NArith PArith List String Ascii Bool Lia.
From Stdlib Require Import Permutation DecimalString DecimalN DecimalPos.
From Stdlib Require Import SpecFloat.
Import ListNotations.

Open Scope string_scope.
Open Scope Z_scope.

(* ================================================================= *)
(** * Exceptions *)

Inductive exn : Type :=
| AttributeError      (* attribute access on [None] *)
| ValueError          (* [float], [datetime.fromisoformat], [pd.to_datetime] *)
| ZeroDivisionError   (* float division *)
| KeyError            (* [ZipFile.read], [pd.merge] on a missing column *)
| BadZipFile          (* [zipfile.ZipFile] on bytes that are no archive,
                         [ZipFile.read] on a bad checksum *)
| RuntimeError        (* [ZipFile.read] on an encrypted member *)
| NotImplementedError. (* [zipfile] on a format or a compression that it
                          does not know *)

Inductive result (A : Type) : Type :=
| Ok (a : A)
| Raise (e : exn).
Arguments Ok {A} a.
Arguments Raise {A} e.

Definition bind {A B : Type} (r : result A) (k : A -> result B) : result B :=
  match r with
  | Ok a => k a
  | Raise e => Raise e
  end.

Declare Scope py_scope.
Delimit Scope py_scope with py.
Notation "x <- r ;; k" := (bind r (fun x => k))
  (at level 61, r at next level, right associativity) : py_scope.
Open Scope py_scope.

(** A comprehension whose element expression may raise: elements are
    evaluated left to right and the first exception ends it. *)
Fixpoint mapM {A B : Type} (f : A -> result B) (l : list A) : result (list B) :=
  match l with
  | [] => Ok []
  | a :: l' => b <- f a ;; bs <- mapM f l' ;; Ok (b :: bs)
  end.

(** [x.attr] where [x] may be [None]. *)
Definition deref {A : Type} (o : option A) : result A :=
  match o with
  | Some a => Ok a
  | None => Raise AttributeError
  end.

(* ================================================================= *)
(** * Strings *)

Module Str.

(** ** Characters

    A [str] is carried as its UTF-8 bytes.  [chars s] is the list of
    the characters of [s], each as its bytes; a byte that starts no
    well-formed sequence stands alone. *)

(** A continuation byte, [10xxxxxx]. *)
Definition is_cont (b : ascii) : bool :=
  let n := N_of_ascii b in ((128 <=? n) && (n <=? 191))%N.

(** The second byte after the first bytes [E0], [ED], [F0] and [F4]:
    no overlong form, no surrogate, nothing beyond [U+10FFFF]. *)
Definition second_ok (a b : ascii) : bool :=
  let n := N_of_ascii a in
  let m := N_of_ascii b in
  (if n =? 224 then 160 <=? m
   else if n =? 237 then m <=? 159
   else if n =? 240 then 144 <=? m
   else if n =? 244 then m <=? 143
   else true)%N.

Fixpoint chars (s : string) : list string :=
  match s with
  | EmptyString => []
  | String a r1 =>
      let n := N_of_ascii a in
      let alone := String a EmptyString :: chars r1 in
      match r1 with
      | String b r2 =>
          if ((194 <=? n) && (n <=? 223))%N && is_cont b
          then String a (String b EmptyString) :: chars r2
          else
            match r2 with
            | String c r3 =>
                if ((224 <=? n) && (n <=? 239))%N && is_cont b && is_cont c
                   && second_ok a b
                then String a (String b (String c EmptyString)) :: chars r3
                else
                  match r3 with
                  | String d r4 =>
                      if ((240 <=? n) && (n <=? 244))%N
                         && is_cont b && is_cont c && is_cont d && second_ok a b
                      then String a (String b (String c (String d EmptyString))) :: chars r4
                      else alone
                  | EmptyString => alone
                  end
            | EmptyString => alone
            end
      | EmptyString => alone
      end
  end.

(** The code point of a character; [U+FFFD] for a byte that stands
    alone outside ASCII. *)
Definition code_point (t : string) : N :=
  match t with
  | String a EmptyString =>
      if (N_of_ascii a <? 128)%N then N_of_ascii a else 65533%N
  | String a (String b EmptyString) =>
      ((N_of_ascii a - 192) * 64 + (N_of_ascii b - 128))%N
  | String a (String b (String c EmptyString)) =>
      ((N_of_ascii a - 224) * 4096 + (N_of_ascii b - 128) * 64 + (N_of_ascii c - 128))%N
  | String a (String b (String c (String d EmptyString))) =>
      ((N_of_ascii a - 240) * 262144 + (N_of_ascii b - 128) * 4096
       + (N_of_ascii c - 128) * 64 + (N_of_ascii d - 128))%N
  | _ => 65533%N
  end.

(** The bytes of the character with code point [n]. *)
Definition encode (n : N) : string :=
  (if n <? 128 then String (ascii_of_N n) EmptyString
   else if n <? 2048 then
     String (ascii_of_N (192 + n / 64)) (String (ascii_of_N (128 + n mod 64)) EmptyString)
   else if n <? 65536 then
     String (ascii_of_N (224 + n / 4096))
       (String (ascii_of_N (128 + (n / 64) mod 64))
          (String (ascii_of_N (128 + n mod 64)) EmptyString))
   else
     String (ascii_of_N (240 + n / 262144))
       (String (ascii_of_N (128 + (n / 4096) mod 64))
          (String (ascii_of_N (128 + (n / 64) mod 64))
             (String (ascii_of_N (128 + n mod 64)) EmptyString))))%N.

(** White space for [str.strip]: the code points for which
    [str.isspace] holds.  Below 128: tab to carriage return, the four
    separators 28 to 31, and the space. *)
Definition white_space : list N :=
  [ 9; 10; 11; 12; 13; 28; 29; 30; 31; 32; 133; 160; 5760;
    8192; 8193; 8194; 8195; 8196; 8197; 8198; 8199; 8200; 8201; 8202;
    8232; 8233; 8239; 8287; 12288 ]%N.

Definition is_space (n : N) : bool := existsb (N.eqb n) white_space.

Definition is_space_char (t : string) : bool := is_space (code_point t).

(** White space for the numeric parser behind [float]: it does not
    count the separators 28 to 31. *)
Definition is_c_space (c : ascii) : bool :=
  let n := N_of_ascii c in
  ((9 <=? n) && (n <=? 13) || (n =? 32))%N.

Definition is_digit (c : ascii) : bool :=
  let n := N_of_ascii c in ((48 <=? n) && (n <=? 57))%N.

Definition is_empty (s : string) : bool :=
  match s with EmptyString => true | _ => false end.

(** [s.replace(old, new)] for a one-character [old], which is how
    app.py always calls it. *)
Fixpoint replace (old : ascii) (new : string) (s : string) : string :=
  match s with
  | EmptyString => EmptyString
  | String c s' =>
      if Ascii.eqb c old then new ++ replace old new s'
      else String c (replace old new s')
  end.

(** Stripping the characters that satisfy [p] from each end. *)
Fixpoint lstrip_by (p : ascii -> bool) (s : string) : string :=
  match s with
  | String c s' => if p c then lstrip_by p s' else s
  | EmptyString => EmptyString
  end.

Fixpoint rstrip_by (p : ascii -> bool) (s : string) : string :=
  match s with
  | EmptyString => EmptyString
  | String c s' =>
      let r := rstrip_by p s' in
      if is_empty r && p c then EmptyString else String c r
  end.

Definition strip_by (p : ascii -> bool) (s : string) : string :=
  rstrip_by p (lstrip_by p s).

(** Stripping the characters that satisfy [p] from each end of a list
    of characters. *)
Fixpoint lstrip_list (p : string -> bool) (l : list string) : list string :=
  match l with
  | t :: l' => if p t then lstrip_list p l' else l
  | [] => []
  end.

Fixpoint rstrip_list (p : string -> bool) (l : list string) : list string :=
  match l with
  | [] => []
  | t :: l' =>
      match rstrip_list p l' with
      | [] => if p t then [] else [t]
      | r => t :: r
      end
  end.

Fixpoint join (l : list string) : string :=
  match l with
  | [] => EmptyString
  | t :: l' => t ++ join l'
  end.

(** [s.strip()] *)
Definition strip (s : string) : string :=
  join (rstrip_list is_space_char (lstrip_list is_space_char (chars s))).

Fixpoint mem (c : ascii) (chars : string) : bool :=
  match chars with
  | EmptyString => false
  | String d chars' => Ascii.eqb c d || mem c chars'
  end.

(** [s.lstrip(chars)]: drops leading characters while they belong to
    the set [chars]. *)
Fixpoint lstrip_chars (chars : string) (s : string) : string :=
  match s with
  | String c s' => if mem c chars then lstrip_chars chars s' else s
  | EmptyString => EmptyString
  end.

Definition lower_char (c : ascii) : ascii :=
  let n := N_of_ascii c in
  if ((65 <=? n) && (n <=? 90))%N then ascii_of_N (n + 32) else c.

(** [s.lower()] as far as ASCII goes: the letters [A] to [Z] are
    lowered, every other byte is kept.  The script compares the result
    with [".xml"] and [float] with ["inf"], ["infinity"] and ["nan"];
    no character outside ASCII lowers to a character of these words. *)
Fixpoint lower (s : string) : string :=
  match s with
  | EmptyString => EmptyString
  | String c s' => String (lower_char c) (lower s')
  end.

(** [s.endswith(suffix)] *)
Definition endswith (s suffix : string) : bool :=
  let n := String.length s in
  let k := String.length suffix in
  (k <=? n)%nat && String.eqb (substring (n - k) k s) suffix.

(** [a or b] on strings. *)
Definition or_else (a b : string) : string :=
  if is_empty a then b else a.

End Str.

(* ================================================================= *)
(** * Floats *)

Module PyFloat.

Definition float : Type := spec_float.

Definition prec : Z := 53.
Definition emax : Z := 1024.

(** [x + y] *)
Definition add (x y : float) : float := SFadd prec emax x y.

(** [x == y] *)
Definition eqb (x y : float) : bool := SFeqb x y.

Definition is_zero (x : float) : bool :=
  match x with S754_zero _ => true | _ => false end.

(** [bool(x)], the test behind [if x] and [x or y]. *)
Definition truthy (x : float) : bool := negb (is_zero x).

Definition is_finite (x : float) : bool :=
  match x with S754_zero _ | S754_finite _ _ _ => true | _ => false end.

Definition signbit (x : float) : bool :=
  match x with
  | S754_zero s | S754_infinity s | S754_finite s _ _ => s
  | S754_nan => false
  end.

(** [float(n)] for an integer [n] within range. *)
Definition of_Z (n : Z) : float := binary_normalize prec emax n 0 false.

(** [x / y]: Python raises on a zero divisor, of either sign, before
    any IEEE rule applies. *)
Definition truediv (x y : float) : result float :=
  if is_zero y then Raise ZeroDivisionError else Ok (SFdiv prec emax x y).

(** [sum(xs)]: the items are added from left to right to the start
    value, the integer [0]; [0 + x] is [0.0 + x].  (CPython 3.12 and
    later also carry a compensation term through a sum of floats; it is
    zero as long as every addition is exact.) *)
Definition sum (xs : list float) : float :=
  fold_left add xs (S754_zero false).

(** ** Decimal to binary

    The binary64 value nearest to [(-1)^s * m * 10^e], ties to even:
    what [float(str)] returns for a decimal literal. *)
Definition of_decimal (s : bool) (m : N) (e : Z) : float :=
  match m with
  | N0 => S754_zero s
  | Npos p =>
      match e with
      | Zneg k =>
          let '(q, e', l) :=
            SFdiv_core_binary prec emax (Zpos p) 0 (Zpos (10 ^ k)) 0 in
          binary_round_aux prec emax s q e' l
      | _ => binary_round prec emax s (p * Z.to_pos (10 ^ e)) 0
      end
  end.

(** ** Reading a literal: the grammar of [float(str)]

<<
    floatvalue  ::= [sign] (floatnumber | "inf" | "infinity" | "nan")
    floatnumber ::= number [("e" | "E") [sign] digitpart]
    number      ::= [digitpart] "." digitpart | digitpart ["."]
    digitpart   ::= digit (["_"] digit)*
>>
    with surrounding white space ignored and the words read without
    regard to case. *)

Fixpoint digitpart_tail (s : string) : string * string :=
  match s with
  | String c s' =>
      if Str.is_digit c then
        let (ds, r) := digitpart_tail s' in (String c ds, r)
      else if Ascii.eqb c "_" then
        match s' with
        | String d s'' =>
            if Str.is_digit d then
              let (ds, r) := digitpart_tail s'' in (String d ds, r)
            else (EmptyString, s)
        | EmptyString => (EmptyString, s)
        end
      else (EmptyString, s)
  | EmptyString => (EmptyString, EmptyString)
  end.

(** The longest [digitpart] at the head of [s], without its
    underscores, and what follows it; no digit at the head gives the
    empty string. *)
Definition digitpart (s : string) : string * string :=
  match s with
  | String c s' =>
      if Str.is_digit c then
        let (ds, r) := digitpart_tail s' in (String c ds, r)
      else (EmptyString, s)
  | EmptyString => (EmptyString, EmptyString)
  end.

Definition digit_val (c : ascii) : N := (N_of_ascii c - 48)%N.

Fixpoint digits_val (acc : N) (ds : string) : N :=
  match ds with
  | EmptyString => acc
  | String c ds' => digits_val (10 * acc + digit_val c)%N ds'
  end.

Definition read_sign (s : string) : bool * string :=
  match s with
  | String x t =>
      if Ascii.eqb x "-" then (true, t)
      else if Ascii.eqb x "+" then (false, t)
      else (false, s)
  | EmptyString => (false, EmptyString)
  end.

Definition read_exponent (s : string) : option (Z * string) :=
  match s with
  | String c s' =>
      if Ascii.eqb c "e" || Ascii.eqb c "E" then
        let (neg, s1) := read_sign s' in
        let (ds, r) := digitpart s1 in
        if Str.is_empty ds then None
        else
          let v := Z.of_N (digits_val 0 ds) in
          Some (if neg then - v else v, r)
      else Some (0, s)
  | EmptyString => Some (0, EmptyString)
  end.

Definition read_fraction (s : string) : string * string :=
  match s with
  | String x t => if Ascii.eqb x "." then digitpart t else (EmptyString, s)
  | EmptyString => (EmptyString, EmptyString)
  end.

(** Mantissa and decimal exponent of a [floatnumber]. *)
Definition read_number (s : string) : option (N * Z) :=
  let (ip, r1) := digitpart s in
  let (fp, r2) := read_fraction r1 in
  if Str.is_empty ip && Str.is_empty fp then None
  else
    match read_exponent r2 with
    | Some (e, r3) =>
        if Str.is_empty r3
        then Some (digits_val 0 (ip ++ fp), e - Z.of_nat (String.length fp))
        else None
    | None => None
    end.

(** [float(s)] on a string of ASCII characters. *)
Definition of_ascii (s : string) : result float :=
  let (neg, body) := read_sign (Str.strip_by Str.is_c_space s) in
  let word := Str.lower body in
  if String.eqb word "inf" || String.eqb word "infinity"
  then Ok (S754_infinity neg)
  else if String.eqb word "nan" then Ok S754_nan
  else
    match read_number body with
    | Some (m, e) => Ok (of_decimal neg m e)
    | None => Raise ValueError
    end.

(** ** Characters outside ASCII in a literal

    [float] first rewrites a string that has a character outside
    ASCII: a white-space character becomes a space, a decimal digit of
    any script becomes the ASCII digit of its value, and at the first
    other character from code point 127 on the text ends, in a question
    mark.  A string of ASCII characters is read as it is. *)

(** The code points of the digits zero: those of Unicode 14.0, the
    database of CPython 3.11.  The nine code points after each are its
    digits one to nine. *)
Definition decimal_zeros : list N :=
  [ 48; 1632; 1776; 1984; 2406; 2534; 2662; 2790; 2918; 3046;
    3174; 3302; 3430; 3558; 3664; 3792; 3872; 4160; 4240; 6112;
    6160; 6470; 6608; 6784; 6800; 6992; 7088; 7232; 7248; 42528;
    43216; 43264; 43472; 43504; 43600; 44016; 65296; 66720; 68912;
    69734; 69872; 69942; 70096; 70384; 70736; 70864; 71248; 71360;
    71472; 71904; 72016; 72784; 73040; 73120; 92768; 92864; 93008;
    120782; 120792; 120802; 120812; 120822; 123200; 123632;
    125264; 130032 ]%N.

Definition to_decimal (n : N) : option N :=
  match List.find (fun z => (z <=? n) && (n <? z + 10))%N decimal_zeros with
  | Some z => Some (n - z)%N
  | None => None
  end.

Fixpoint is_ascii_text (s : string) : bool :=
  match s with
  | EmptyString => true
  | String a r => (N_of_ascii a <? 128)%N && is_ascii_text r
  end.

Fixpoint transform (l : list string) : string :=
  match l with
  | [] => EmptyString
  | t :: l' =>
      let n := Str.code_point t in
      if (n <? 127)%N then String (ascii_of_N n) (transform l')
      else if Str.is_space n then String " " (transform l')
      else
        match to_decimal n with
        | Some d => String (ascii_of_N (48 + d)) (transform l')
        | None => "?"
        end
  end.

Definition to_ascii (s : string) : string :=
  if is_ascii_text s then s else transform (Str.chars s).

(** [float(s)] *)
Definition of_string (s : string) : result float := of_ascii (to_ascii s).

(** ** Binary to decimal: the format specification [",.2f"]

    [cents m e] is [m * 2^e * 100] rounded to the nearest integer, ties
    to even: the hundredths that two-fraction-digit formatting shows.
    The rounding is done once, on the exact binary value. *)
Definition cents (m : positive) (e : Z) : N :=
  match e with
  | Zneg k =>
      let d := Npos (2 ^ k) in
      let n := (Npos m * 100)%N in
      let q := (n / d)%N in
      match (2 * (n mod d) ?= d)%N with
      | Lt => q
      | Gt => (q + 1)%N
      | Eq => if N.even q then q else (q + 1)%N
      end
  | _ => (Npos m * 100 * 2 ^ Z.to_N e)%N
  end.

Definition cents_of (x : float) : N :=
  match x with
  | S754_finite _ m e => cents m e
  | _ => 0%N
  end.

(** Decimal digits of a natural number, most significant first. *)
Definition decimal (n : N) : string :=
  NilEmpty.string_of_uint (N.to_uint n).

(** A group boundary lies before the last [k] digits when [k] is a
    positive multiple of three. *)
Definition boundary (k : nat) : bool := (0 <? k)%nat && (k mod 3 =? 0)%nat.
Arguments boundary : simpl never.

(** The separator [sep] before every group of three digits, counted
    from the right. *)
Fixpoint group3 (sep : ascii) (s : string) : string :=
  match s with
  | EmptyString => EmptyString
  | String c s' =>
      String c (if boundary (String.length s')
                then String sep (group3 sep s') else group3 sep s')
  end.

Definition digit_char (d : N) : ascii := ascii_of_N (48 + d).

Definition two_digits (n : N) : string :=
  String (digit_char (n / 10)) (String (digit_char (n mod 10)) EmptyString).

Definition sign_text (s : bool) : string := if s then "-" else "".

(** A finite [x] rounded to two decimal places, as [round(x, 2)] does
    it: the float nearest to the decimal number that has [cents_of x]
    hundredths and the sign of [x]. *)
Definition round2 (x : float) : float :=
  of_decimal (signbit x) (cents_of x) (-2).

(** The text of the two-decimal value with sign [s] and [k]
    hundredths: the digits of the integer part in groups of three
    separated by [sep], the mark [pt], two fraction digits. *)
Definition money_text (sep pt : ascii) (s : bool) (k : N) : string :=
  sign_text s ++ group3 sep (decimal (k / 100)) ++ String pt (two_digits (k mod 100)).

(** The text of [s], [n] hundredths under [",.2f"]. *)
Definition fixed2 (s : bool) (n : N) : string := money_text "," "." s n.

(** [f"{x:,.2f}"] *)
Definition format_comma_2f (x : float) : string :=
  match x with
  | S754_nan => "nan"
  | S754_infinity s => sign_text s ++ "inf"
  | S754_zero s => fixed2 s 0
  | S754_finite s m e => fixed2 s (cents m e)
  end.

End PyFloat.

Import PyFloat.

(* ================================================================= *)
(** * Field formatters (app.py, lines 17 to 33) *)

Definition float_zero : float := S754_zero false.

(** The float [1234.5], that is [2469 * 2^-1]. *)
Definition float_1234_5 : float := binary_normalize prec emax 2469 (-1) false.

(** [xml_float(t)]: [t] is [None], or a string. *)
Definition xml_float (t : option string) : result float :=
  match t with
  | None => Ok float_zero
  | Some s =>
      if Str.is_empty s then Ok float_zero
      else of_string (Str.replace "," "." s)
  end.

(** The three replacements that turn ["1,234.50"] into ["1.234,50"]. *)
Definition swap_separators (s : string) : string :=
  Str.replace "_" "." (Str.replace "." "," (Str.replace "," "_" s)).

(** [br_money(v)]: [v] is a float or a string. *)
Definition br_money (v : float + string) : result string :=
  x <- match v with
       | inl x => Ok x
       | inr s => of_string (Str.replace "," "." s)
       end ;;
  Ok (swap_separators (format_comma_2f x)).

(** [br_weight(kg)] *)
Definition br_weight (kg : float) : string :=
  swap_separators (format_comma_2f kg).

(** [str_to_float_br(s)] *)
Definition str_to_float_br (s : string) : result float :=
  if Str.is_empty s then Ok float_zero
  else of_string (Str.replace "," "." (Str.replace "." "" s)).

(** The dictionary literal of [frete_tipo], in source order. *)
Definition frete_tipo_table : list (string * string) :=
  [ ("0", "CIF (Emitente)"); ("1", "FOB (Destinat.)");
    ("2", "Terceiros");      ("3", "Sem frete");
    ("4", "Sem frete");      ("9", "Sem frete") ].

(** [d.get(key, default)] on a dictionary with string keys. *)
Fixpoint dict_get {V : Type} (d : list (string * V)) (key : string) (default : V) : V :=
  match d with
  | [] => default
  | (k, v) :: d' => if String.eqb k key then v else dict_get d' key default
  end.

(** [frete_tipo(code)]: the key looked up is [code.strip()], the
    default is built from [code] as given. *)
Definition frete_tipo (code : string) : string :=
  dict_get frete_tipo_table (Str.strip code) (Str.or_else code "--").

(* ================================================================= *)
(** * Element trees and the path language of [find], [findall], [findtext] *)

Module Xml.

(** A tag ["{namespace}localname"], as [etree.QName] splits it.
    [etree.QName] checks the local name and raises [ValueError] on one
    that is no XML name without a colon; the trees of this model carry
    tags that it accepts. *)
Record QName : Type := mkQName { namespace : string; localname : string }.

Definition qname_eqb (a b : QName) : bool :=
  String.eqb (namespace a) (namespace b) &&
  String.eqb (localname a) (localname b).

#[warnings="-register-all"]
Inductive Element : Type :=
| Elem (tag : QName) (attrib : list (string * string))
       (text : option string) (children : list Element).

Definition tag (e : Element) : QName :=
  match e with Elem t _ _ _ => t end.
Definition attrib (e : Element) : list (string * string) :=
  match e with Elem _ a _ _ => a end.
Definition text (e : Element) : option string :=
  match e with Elem _ _ x _ => x end.
Definition children (e : Element) : list Element :=
  match e with Elem _ _ _ cs => cs end.

(** Every element below [e], in document order; [e] itself is not
    among them. *)
Fixpoint descendants (e : Element) : list Element :=
  match e with
  | Elem _ _ _ cs => flat_map (fun c => c :: descendants c) cs
  end.

(** One step of a path: ["q"] selects children, [".//q"] selects
    descendants. *)
Inductive step : Type :=
| Child (q : QName)
| Descendant (q : QName).

Definition has_tag (q : QName) (e : Element) : bool := qname_eqb (tag e) q.

Definition select (s : step) (e : Element) : list Element :=
  match s with
  | Child q => filter (has_tag q) (children e)
  | Descendant q => filter (has_tag q) (descendants e)
  end.

(** [e.findall(path)] *)
Fixpoint findall (path : list step) (e : Element) : list Element :=
  match path with
  | [] => [e]
  | s :: path' => flat_map (findall path') (select s e)
  end.

(** [e.find(path)] *)
Definition find (path : list step) (e : Element) : option Element :=
  hd_error (findall path e).

(** [e.findtext(path, default)]: the text of the first match, the
    empty string when that element has no text. *)
Definition findtext (path : list step) (default : string) (e : Element) : string :=
  match find path e with
  | None => default
  | Some el => match text el with Some t => t | None => "" end
  end.

(** [e.get(key, default)] *)
Definition get (key default : string) (e : Element) : string :=
  dict_get (attrib e) key default.

(** [bool(e)]: an element is true when it has children. *)
Definition truthy (e : Element) : bool :=
  match children e with [] => false | _ => true end.

(** Induction on an element with the property known of its children. *)
Section ElementInduction.
Variable P : Element -> Prop.
Hypothesis step_case :
  forall q attrs x cs, Forall P cs -> P (Elem q attrs x cs).

End ElementInduction.

(** What [etree.fromstring(raw, PARSER)] can do with [recover=True]:
    raise, return [None] (a document without a root element), or
    return the root element. *)
Inductive parsed : Type :=
| Broken
| NoRoot
| Root (e : Element).

End Xml.

Import Xml.

(* ================================================================= *)
(** * What the script takes from its libraries *)

Definition bytes : Type := list Byte.byte.

(** The behaviour of the libraries that the script calls and that is
    not modelled above.  Every theorem below holds for all of them. *)
Record Lib : Type := mkLib {
  (** [etree.fromstring(raw, PARSER)] *)
  fromstring : bytes -> parsed;
  (** [datetime.fromisoformat(s).strftime("%d/%m/%Y")]; [None] when
      [fromisoformat] raises [ValueError]. *)
  iso_to_dmY : string -> option string;
  (** [pd.to_datetime(s, format="%d/%m/%Y").strftime("%Y-%m")]; [None]
      when [to_datetime] raises (a [ValueError]). *)
  dmY_to_Ym : string -> option string;
  (** The order in which a [set] of floats is iterated, given its
      elements in insertion order. *)
  set_order : list float -> list float;
  (** [zipfile.ZipFile(path)] on a file of these bytes: the exception
      that the constructor raises ([BadZipFile] when the bytes are not
      an archive), or the members of the archive in directory order,
      each with its name and with what reading it gives: its content,
      or the exception raised ([RuntimeError] on an encrypted member,
      [BadZipFile] on a bad checksum). *)
  ZipFile : bytes -> result (list (string * result bytes))
}.

Definition of_option {A : Type} (e : exn) (o : option A) : result A :=
  match o with
  | Some a => Ok a
  | None => Raise e
  end.

(** A set built by inserting the elements of [l] from left to right: an
    element equal ([==]) to one already present is not added.  The
    elements are distinct objects, so a NaN, which equals nothing, is
    always added. *)
Fixpoint set_insert (x : float) (s : list float) : list float :=
  match s with
  | [] => [x]
  | y :: s' => if PyFloat.eqb y x then s else y :: set_insert x s'
  end.

Definition set_add_all (s : list float) (l : list float) : list float :=
  fold_left (fun s x => set_insert x s) l s.

Definition py_set (l : list float) : list float := set_add_all [] l.

(* ================================================================= *)
(** * CT-e extractor (app.py, lines 38 to 79) *)

Definition NS_CTE : string := "http://www.portalfiscal.inf.br/cte".
Definition NS_NFE : string := "http://www.portalfiscal.inf.br/nfe".

(** ["c:name"] under [NS_CTE] and ["n:name"] under [NS_NFE]. *)
Definition c (name : string) : QName := mkQName NS_CTE name.
Definition n (name : string) : QName := mkQName NS_NFE name.

(** One row of the CT-e table: the dictionary built at lines 65 to 78,
    a field per key, in key order. *)
Record cte_row : Type := mk_cte_row {
  cte_Data : string;          (* "Data" *)
  cte_Mes_Ano : string;       (* "Mês-Ano" *)
  cte_Numero : string;        (* "Número CT-e" *)
  cte_Emitente : string;      (* "Emitente" *)
  cte_UF_Orig : string;       (* "UF Orig" *)
  cte_UF_Dest : string;       (* "UF Dest" *)
  cte_Cidade_Dest : string;   (* "Cidade Dest" *)
  cte_Frete : string;         (* "Frete (R$)" *)
  cte_Peso : string;          (* "Peso (kg)" *)
  cte_R_ton : string;         (* "R$/ton" *)
  cte_Chave_NF : string;      (* "Chave NF" *)
  cte_Arquivo : string        (* "Arquivo" *)
}.

(** Line 52: [sum({xml_float(n.text) for n in root.findall(".//c:qCarga")})] *)
Definition cte_peso (L : Lib) (root : Element) : result float :=
  ws <- mapM (fun q => xml_float (text q)) (findall [Descendant (c "qCarga")] root) ;;
  Ok (PyFloat.sum (set_order L (py_set ws))).

(** Lines 60 and 61: the keys, or [[""]] when there is none. *)
Definition cte_chaves (root : Element) : list string :=
  match map (findtext [Child (c "chave")] "")
            (findall [Descendant (c "infNFe")] root) with
  | [] => [""]
  | ks => ks
  end.

(** Line 75: [br_money(frete/(peso/1000)) if peso else ""] *)
Definition cte_r_ton (frete peso : float) : result string :=
  if PyFloat.truthy peso then
    tons <- truediv peso (of_Z 1000) ;;
    q <- truediv frete tons ;;
    br_money (inl q)
  else Ok "".

(** Lines 65 to 78: the dictionary of one row; its values are
    evaluated in key order. *)
Definition cte_linha (L : Lib) (data n_cte emit uf_o uf_d cidade : string)
    (frete peso : float) (fname chave : string) : result cte_row :=
  mes <- of_option ValueError (dmY_to_Ym L data) ;;
  v_frete <- br_money (inl frete) ;;
  v_ton <- cte_r_ton frete peso ;;
  Ok {| cte_Data := data; cte_Mes_Ano := mes; cte_Numero := n_cte;
        cte_Emitente := emit; cte_UF_Orig := uf_o; cte_UF_Dest := uf_d;
        cte_Cidade_Dest := cidade; cte_Frete := v_frete;
        cte_Peso := br_weight peso; cte_R_ton := v_ton;
        cte_Chave_NF := chave; cte_Arquivo := fname |}.

Definition parse_cte (L : Lib) (raw : bytes) (fname : string) : result (list cte_row) :=
  match fromstring L raw with
  | Broken => Ok []
  | NoRoot => Raise AttributeError
  | Root root =>
      match find [Descendant (c "infCte")] root with
      | None => Ok []
      | Some inf =>
          data <- of_option ValueError
                    (iso_to_dmY L (findtext [Child (c "ide"); Child (c "dhEmi")] "" inf)) ;;
          frete <- xml_float (Some (findtext [Descendant (c "vTPrest")] "0" inf)) ;;
          peso <- cte_peso L root ;;
          let emit := findtext [Descendant (c "emit"); Child (c "xNome")] "" root in
          let uf_o := findtext [Descendant (c "enderEmit"); Child (c "UF")] "" root in
          let uf_d :=
            findtext [Descendant (c "dest"); Child (c "enderDest"); Child (c "UF")] "" root in
          let cidade :=
            findtext [Descendant (c "dest"); Child (c "enderDest"); Child (c "xMun")] "" root in
          let n_cte := findtext [Child (c "ide"); Child (c "nCT")] "" inf in
          mapM (cte_linha L data n_cte emit uf_o uf_d cidade frete peso fname)
               (cte_chaves root)
      end
  end.

(* ================================================================= *)
(** * NF-e extractor (app.py, lines 82 to 116) *)

(** The dictionary returned at lines 104 to 116. *)
Record nfe_row : Type := mk_nfe_row {
  nfe_Data : string;            (* "Data" *)
  nfe_Numero : string;          (* "Número NF" *)
  nfe_Chave_NF : string;        (* "Chave NF" *)
  nfe_Emitente : string;        (* "Emitente NF" *)
  nfe_Destinatario : string;    (* "Destinatário" *)
  nfe_Valor : string;           (* "Valor NF (R$)" *)
  nfe_ICMS : string;            (* "ICMS (R$)" *)
  nfe_Transportadora : string;  (* "Transportadora" *)
  nfe_CNPJ_Transp : string;     (* "CNPJ Transp" *)
  nfe_Tipo_Frete : string;      (* "Tipo Frete" *)
  nfe_Arquivo : string          (* "Arquivo" *)
}.

(** Lines 85 and 86: under a root named [nfeProc], the first [NFe]
    element below it when that element is true, else the root. *)
Definition nfe_start (rt : Element) : Element :=
  if String.eqb (localname (tag rt)) "nfeProc" then
    match find [Descendant (n "NFe")] rt with
    | Some e => if truthy e then e else rt
    | None => rt
    end
  else rt.

(** Line 100: [inf.get("Id","").lstrip("NFe")] *)
Definition nfe_chave (inf : Element) : string :=
  Str.lstrip_chars "NFe" (get "Id" "" inf).

(** [x if e else ""] where [e] is an element or [None]. *)
Definition if_element (e : option Element) (x : Element -> string) : string :=
  match e with
  | Some el => if truthy el then x el else ""
  | None => ""
  end.

Definition parse_nfe (L : Lib) (raw : bytes) (fname : string) : result (option nfe_row) :=
  match fromstring L raw with
  | Broken => Ok None
  | NoRoot => Raise AttributeError
  | Root root =>
      let rt := nfe_start root in
      match find [Descendant (n "infNFe")] rt with
      | None => Ok None
      | Some inf =>
          let ide := find [Child (n "ide")] inf in
          let emit := find [Child (n "emit")] inf in
          let dest := find [Child (n "dest")] inf in
          let tot := find [Descendant (n "ICMSTot")] inf in
          ide' <- deref ide ;;
          data <- of_option ValueError
                    (iso_to_dmY L (Str.or_else (findtext [Child (n "dhEmi")] "" ide')
                                               (findtext [Child (n "dEmi")] "" ide'))) ;;
          let chave := nfe_chave inf in
          let transp := find [Child (n "transp")] inf in
          let tnode :=
            match transp with
            | Some t => find [Child (n "transporta")] t
            | None => None
            end in
          emit' <- deref emit ;;
          dest' <- deref dest ;;
          tot' <- deref tot ;;
          vNF <- xml_float (Some (findtext [Child (n "vNF")] "0" tot')) ;;
          valor <- br_money (inl vNF) ;;
          vICMS <- xml_float (Some (findtext [Child (n "vICMS")] "0" tot')) ;;
          icms <- br_money (inl vICMS) ;;
          Ok (Some
            {| nfe_Data := data;
               nfe_Numero := findtext [Child (n "nNF")] "" ide';
               nfe_Chave_NF := chave;
               nfe_Emitente := findtext [Child (n "xNome")] "" emit';
               nfe_Destinatario := findtext [Child (n "xNome")] "" dest';
               nfe_Valor := valor;
               nfe_ICMS := icms;
               nfe_Transportadora := if_element tnode (findtext [Child (n "xNome")] "");
               nfe_CNPJ_Transp := if_element tnode (findtext [Child (n "CNPJ")] "");
               nfe_Tipo_Frete :=
                 if_element transp (fun t => frete_tipo (findtext [Child (n "modFrete")] "" t));
               nfe_Arquivo := fname |})
      end
  end.

(* ================================================================= *)
(** * Loader (app.py, lines 121 to 138) *)

Record upload : Type := mk_upload { up_name : string; up_read : bytes }.

(** [n.lower().endswith(".xml")] *)
Definition is_xml_name (name : string) : bool :=
  Str.endswith (Str.lower name) ".xml".

(** [zf.getinfo(name)]: the member of that name, the last one when
    several members share it. *)
Fixpoint zf_getinfo (members : list (string * result bytes)) (name : string)
    : option (result bytes) :=
  match members with
  | [] => None
  | (k, r) :: members' =>
      match zf_getinfo members' name with
      | Some r' => Some r'
      | None => if String.eqb k name then Some r else None
      end
  end.

(** [zf.read(name)]: what reading that member gives. *)
Definition zf_read (members : list (string * result bytes)) (name : string) : result bytes :=
  match zf_getinfo members name with
  | Some r => r
  | None => Raise KeyError
  end.

(** Lines 134 to 137: the loop over [zf.namelist()]. *)
Definition zip_xml_members (members : list (string * result bytes))
    : result (list (string * bytes)) :=
  mapM (fun name => b <- zf_read members name ;; Ok (name, b))
       (filter is_xml_name (map fst members)).

(** Lines 128 to 137: what one upload appends to [files]. *)
Definition expand (L : Lib) (f : upload) : result (list (string * bytes)) :=
  if is_xml_name (up_name f) then Ok [(up_name f, up_read f)]
  else
    members <- ZipFile L (up_read f) ;;
    zip_xml_members members.

(** [load_files]: [up] is what the upload widget returned. *)
Definition load_files (L : Lib) (up : list upload) : result (list (string * bytes)) :=
  parts <- mapM (expand L) up ;;
  Ok (List.concat parts).

(** Lines 155 to 157 and 171 to 174: the rows gathered from the loaded
    files. *)
Definition rows_cte (L : Lib) (files : list (string * bytes)) : result (list cte_row) :=
  parts <- mapM (fun f => parse_cte L (snd f) (fst f)) files ;;
  Ok (List.concat parts).

Definition rows_nfe (L : Lib) (files : list (string * bytes)) : result (list nfe_row) :=
  parts <- mapM (fun f => d <- parse_nfe L (snd f) (fst f) ;;
                          Ok match d with Some r => [r] | None => [] end) files ;;
  Ok (List.concat parts).

(* ================================================================= *)
(** * Tables and the join (app.py, lines 159, 176, 194 and 195) *)

(** A table of text cells: column names, and one list of cells per row. *)
Record DataFrame : Type := mk_DataFrame {
  columns : list string;
  rows : list (list string)
}.

Definition cte_columns : list string :=
  [ "Data"; "Mês-Ano"; "Número CT-e"; "Emitente"; "UF Orig"; "UF Dest";
    "Cidade Dest"; "Frete (R$)"; "Peso (kg)"; "R$/ton"; "Chave NF"; "Arquivo" ].

Definition cte_cells (r : cte_row) : list string :=
  [ cte_Data r; cte_Mes_Ano r; cte_Numero r; cte_Emitente r; cte_UF_Orig r;
    cte_UF_Dest r; cte_Cidade_Dest r; cte_Frete r; cte_Peso r; cte_R_ton r;
    cte_Chave_NF r; cte_Arquivo r ].

Definition nfe_columns : list string :=
  [ "Data"; "Número NF"; "Chave NF"; "Emitente NF"; "Destinatário";
    "Valor NF (R$)"; "ICMS (R$)"; "Transportadora"; "CNPJ Transp";
    "Tipo Frete"; "Arquivo" ].

Definition nfe_cells (r : nfe_row) : list string :=
  [ nfe_Data r; nfe_Numero r; nfe_Chave_NF r; nfe_Emitente r;
    nfe_Destinatario r; nfe_Valor r; nfe_ICMS r; nfe_Transportadora r;
    nfe_CNPJ_Transp r; nfe_Tipo_Frete r; nfe_Arquivo r ].

(** [pd.DataFrame(rows_cte)] and [pd.DataFrame(rows_nfe)] *)
Definition df_cte (rs : list cte_row) : DataFrame :=
  mk_DataFrame cte_columns (map cte_cells rs).
Definition df_nfe (rs : list nfe_row) : DataFrame :=
  mk_DataFrame nfe_columns (map nfe_cells rs).

Fixpoint index_of (x : string) (l : list string) : option nat :=
  match l with
  | [] => None
  | y :: l' => if String.eqb y x then Some O else option_map S (index_of x l')
  end.

Definition mem_string (x : string) (l : list string) : bool :=
  existsb (String.eqb x) l.

Definition drop_nth {A : Type} (i : nat) (l : list A) : list A :=
  (firstn i l ++ skipn (S i) l)%list.

Definition cell (i : nat) (row : list string) : string := nth i row "".

(** [pd.merge(left, right, on=on, how="inner", suffixes=(ls, rs))] on
    tables of text cells: a row for every pair of a left and a right
    row whose key cells are the same string; the columns of the left
    table, then those of the right table without the key; a column
    name, other than the key, that both tables have gets the suffix of
    its side. *)
Definition merge (left right : DataFrame) (on ls rs : string) : result DataFrame :=
  match index_of on (columns left), index_of on (columns right) with
  | Some i, Some j =>
      let rename (other : list string) (suffix : string) (col : string) :=
        if negb (String.eqb col on) && mem_string col other
        then col ++ suffix else col in
      Ok {| columns :=
              (map (rename (columns right) ls) (columns left) ++
               map (rename (columns left) rs) (drop_nth j (columns right)))%list;
            rows :=
              flat_map (fun l =>
                flat_map (fun r =>
                  if String.eqb (cell i l) (cell j r)
                  then [(l ++ drop_nth j r)%list] else [])
                  (rows right))
                (rows left) |}
  | _, _ => Raise KeyError
  end.

(** Lines 194 and 195. *)
Definition tab_merge (cte : list cte_row) (nfe : list nfe_row) : result DataFrame :=
  merge (df_cte cte) (df_nfe nfe) "Chave NF" "_CTE" "_NFE".

(* ================================================================= *)
(** * A reference library and sample documents

    One inhabitant of [Lib], used to run the extractors on concrete
    documents.  Its XML parser knows the sample documents below, given
    as the text that [to_xml] writes for their trees. *)

Module Sample.

(** The text of an element: every element declares its namespace. *)
Fixpoint to_xml (e : Element) : string :=
  match e with
  | Elem q attrs x cs =>
      "<" ++ localname q ++ " xmlns='" ++ namespace q ++ "'" ++
      String.concat "" (map (fun kv => " " ++ fst kv ++ "='" ++ snd kv ++ "'") attrs) ++
      ">" ++ match x with Some t => t | None => "" end ++
      String.concat "" (map to_xml cs) ++
      "</" ++ localname q ++ ">"
  end.

Definition node (q : QName) (cs : list Element) : Element := Elem q [] None cs.
Definition leaf (q : QName) (t : string) : Element := Elem q [] (Some t) [].

(** The manifest-info element of a manifest with the given emission
    date, weight declarations and invoice keys. *)
Definition manifest_info (dhEmi : string) (weights keys : list string) : Element :=
  node (c "infCte")
    [ node (c "ide") [ leaf (c "nCT") "1001"; leaf (c "dhEmi") dhEmi ];
      node (c "emit")
        [ leaf (c "xNome") "Transportes Alfa";
          node (c "enderEmit") [ leaf (c "UF") "SP" ] ];
      node (c "dest")
        [ node (c "enderDest") [ leaf (c "xMun") "Curitiba"; leaf (c "UF") "PR" ] ];
      node (c "vPrest") [ leaf (c "vTPrest") "1500.00" ];
      node (c "infCTeNorm")
        [ node (c "infCarga")
            (map (fun w => node (c "infQ") [ leaf (c "qCarga") w ]) weights);
          node (c "infDoc")
            (map (fun k => node (c "infNFe") [ leaf (c "chave") k ]) keys) ] ].

Definition manifest (dhEmi : string) (weights keys : list string) : Element :=
  node (c "CTe") [ manifest_info dhEmi weights keys ].

Definition date1 : string := "2024-03-15T10:30:00-03:00".

Definition cte_two_keys : Element := manifest date1 ["100.0"; "50.0"] ["A"; "B"].
Definition cte_no_key : Element := manifest date1 ["100.0"; "100.0"] [].
Definition cte_tiny_weight : Element := manifest date1 ["1e-323"] ["A"].
(** A manifest-info element with nothing in it. *)
Definition cte_incomplete : Element := node (c "CTe") [ node (c "infCte") [] ].
(** A document of another kind. *)
Definition other_kind : Element := node (mkQName "" "nota") [ leaf (mkQName "" "item") "1" ].

(** An invoice whose invoice-info element has the identifier [id]. *)
Definition invoice (id : string) : Element :=
  node (n "nfeProc")
    [ node (n "NFe")
        [ Elem (n "infNFe") [("Id", id)] None
            [ node (n "ide") [ leaf (n "nNF") "77"; leaf (n "dhEmi") date1 ];
              node (n "emit") [ leaf (n "xNome") "Fabrica Beta" ];
              node (n "dest") [ leaf (n "xNome") "Loja Gama" ];
              node (n "total")
                [ node (n "ICMSTot") [ leaf (n "vICMS") "12.00"; leaf (n "vNF") "1234.50" ] ];
              node (n "transp")
                [ leaf (n "modFrete") "1";
                  node (n "transporta")
                    [ leaf (n "CNPJ") "00000000000191"; leaf (n "xNome") "Transportes Alfa" ] ] ] ] ].

Definition nfe_official : Element :=
  invoice "NFe35240312345678000190550010000000771000000779".
Definition nfe_odd_id : Element := invoice "NFeFe42".
(** An invoice-info element with nothing in it. *)
Definition nfe_incomplete : Element := node (n "NFe") [ node (n "infNFe") [] ].

Definition documents : list Element :=
  [ cte_two_keys; cte_no_key; cte_tiny_weight; cte_incomplete; other_kind;
    nfe_official; nfe_odd_id; nfe_incomplete ].

Definition raw_of (e : Element) : bytes := list_byte_of_string (to_xml e).

(** The empty input, on which the parser raises ("Document is empty"). *)
Definition empty_input : bytes := [].

(** The parser on the inputs used below: the empty input and the text
    of the sample documents.  What this instance answers elsewhere
    plays no part. *)
Definition ref_fromstring (raw : bytes) : parsed :=
  match raw with
  | [] => Broken
  | _ =>
      match List.find (fun d => String.eqb (to_xml d) (string_of_list_byte raw)) documents with
      | Some d => Root d
      | None => NoRoot
      end
  end.

Definition pair_of (a b : ascii) : string := String a (String b EmptyString).

Definition num2 (a b : ascii) : option N :=
  if Str.is_digit a && Str.is_digit b
  then Some (10 * digit_val a + digit_val b)%N else None.

Definition below (o : option N) (bound : N) : bool :=
  match o with Some v => (v <? bound)%N | None => false end.

Definition offset_ok (tz : string) : bool :=
  match tz with
  | EmptyString => true
  | String sg (String h1 (String h2 (String ":" (String m1 (String m2 EmptyString))))) =>
      (Ascii.eqb sg "+" || Ascii.eqb sg "-") && below (num2 h1 h2) 24 && below (num2 m1 m2) 60
  | _ => false
  end.

Definition time_ok (rest : string) : bool :=
  match rest with
  | EmptyString => true
  | String _ (String h1 (String h2 (String ":" (String m1 (String m2
      (String ":" (String s1 (String s2 tz)))))))) =>
      below (num2 h1 h2) 24 && below (num2 m1 m2) 60 && below (num2 s1 s2) 60 && offset_ok tz
  | _ => false
  end.

Definition days_in_month (y m : N) : N :=
  (if (m =? 2) then
     if ((y mod 4 =? 0) && negb (y mod 100 =? 0)) || (y mod 400 =? 0) then 29 else 28
   else if (m =? 4) || (m =? 6) || (m =? 9) || (m =? 11) then 30 else 31)%N.

(** Dates of the shape the fiscal documents carry: [YYYY-MM-DD],
    alone or followed by a separator, [HH:MM:SS] and optionally an
    offset [+HH:MM] or [-HH:MM]. *)
Definition ref_iso_to_dmY (s : string) : option string :=
  match s with
  | String y1 (String y2 (String y3 (String y4 (String "-" (String m1 (String m2
      (String "-" (String d1 (String d2 rest))))))))) =>
      match num2 y1 y2, num2 y3 y4, num2 m1 m2, num2 d1 d2 with
      | Some yh, Some yl, Some m, Some d =>
          let y := (100 * yh + yl)%N in
          if ((1 <=? y) && (1 <=? m) && (m <=? 12) && (1 <=? d)
              && (d <=? days_in_month y m))%N && time_ok rest
          then Some (pair_of d1 d2 ++ "/" ++ pair_of m1 m2 ++ "/" ++
                     pair_of y1 y2 ++ pair_of y3 y4)
          else None
      | _, _, _, _ => None
      end
  | _ => None
  end.

(** [dd/mm/yyyy] to [yyyy-mm], for the years 1678 to 2261, which every
    timestamp resolution of the table library holds. *)
Definition ref_dmY_to_Ym (s : string) : option string :=
  match s with
  | String d1 (String d2 (String "/" (String m1 (String m2 (String "/"
      (String y1 (String y2 (String y3 (String y4 EmptyString))))))))) =>
      match num2 y1 y2, num2 y3 y4, num2 m1 m2, num2 d1 d2 with
      | Some yh, Some yl, Some m, Some d =>
          let y := (100 * yh + yl)%N in
          if ((1678 <=? y) && (y <=? 2261) && (1 <=? m) && (m <=? 12) && (1 <=? d)
              && (d <=? days_in_month y m))%N
          then Some (pair_of y1 y2 ++ pair_of y3 y4 ++ "-" ++ pair_of m1 m2)
          else None
      | _, _, _, _ => None
      end
  | _ => None
  end.

Definition b (s : string) : bytes := list_byte_of_string s.

(** An archive with two XML members and one that is not. *)
Definition archive_members : list (string * result bytes) :=
  [ ("a.xml", Ok (raw_of cte_two_keys)); ("leia-me.txt", Ok (b "notas"));
    ("pasta/B.XML", Ok (raw_of cte_no_key)) ].
Definition archive : bytes := b "PK:a.xml,leia-me.txt,pasta/B.XML".

(** An archive whose second member is encrypted. *)
Definition locked_members : list (string * result bytes) :=
  [ ("a.xml", Ok (raw_of cte_two_keys)); ("b.xml", Raise RuntimeError) ].
Definition locked : bytes := b "PK:a.xml,b.xml(encrypted)".

Definition ref_ZipFile (raw : bytes) : result (list (string * result bytes)) :=
  if String.eqb (string_of_list_byte raw) (string_of_list_byte archive)
  then Ok archive_members
  else if String.eqb (string_of_list_byte raw) (string_of_list_byte locked)
  then Ok locked_members
  else Raise BadZipFile.

(** Rows of the two tables that carry the key [k]. *)
Definition cte_row_of (k : string) : cte_row :=
  {| cte_Data := "15/03/2024"; cte_Mes_Ano := "2024-03"; cte_Numero := "1001";
     cte_Emitente := "Transportes Alfa"; cte_UF_Orig := "SP"; cte_UF_Dest := "PR";
     cte_Cidade_Dest := "Curitiba"; cte_Frete := "1.500,00"; cte_Peso := "150,00";
     cte_R_ton := "10.000,00"; cte_Chave_NF := k; cte_Arquivo := "a.xml" |}.

Definition nfe_row_of (k : string) : nfe_row :=
  {| nfe_Data := "15/03/2024"; nfe_Numero := "77"; nfe_Chave_NF := k;
     nfe_Emitente := "Fabrica Beta"; nfe_Destinatario := "Loja Gama";
     nfe_Valor := "1.234,50"; nfe_ICMS := "12,00";
     nfe_Transportadora := "Transportes Alfa"; nfe_CNPJ_Transp := "00000000000191";
     nfe_Tipo_Frete := "FOB (Destinat.)"; nfe_Arquivo := "n.xml" |}.

(** Sets iterated in insertion order. *)
Definition lib : Lib :=
  {| fromstring := ref_fromstring;
     iso_to_dmY := ref_iso_to_dmY;
     dmY_to_Ym := ref_dmY_to_Ym;
     set_order := fun l => l;
     ZipFile := ref_ZipFile |}.

End Sample.


(* ================================================================= *)
(** * Notions used in the statements *)




(** The text made of the characters with the code points [ps]. *)
Fixpoint spaces (ps : list N) : string :=
  match ps with
  | [] => EmptyString
  | p :: ps' => Str.encode p ++ spaces ps'
  end.

(** ** The money text in the words of the specification

    "Thousands-dot, decimal-comma, two-fraction-digit text", written
    without the functions that [br_money] is made of. *)







(* ================================================================= *)
(** * The page script (app.py, lines 153 to 202)

    Every interaction runs the script from top to bottom: the CT-e tab,
    the NF-e tab, then the join tab.  What outlives a run is the session
    state, two entries that each hold a table or nothing.  The display
    calls and the spreadsheet export are left out.  A run that raises
    stops there; what the session holds after such a run is not
    followed. *)

Record session : Type := mk_session {
  st_df_cte : option DataFrame;   (* st.session_state.get("df_cte") *)
  st_df_nfe : option DataFrame    (* st.session_state.get("df_nfe") *)
}.

Definition new_session : session := mk_session None None.

(** Lines 155 to 166.  The second component is the table shown, or
    [None] for the notice that nothing is loaded. *)
Definition run_tab_cte (L : Lib) (s : session) (up : list upload)
    : result (session * option DataFrame) :=
  files <- load_files L up ;;
  rs <- rows_cte L files ;;
  match rs with
  | [] => Ok (s, None)
  | _ => Ok (mk_session (Some (df_cte rs)) (st_df_nfe s), Some (df_cte rs))
  end.

(** Lines 171 to 183. *)
Definition run_tab_nfe (L : Lib) (s : session) (up : list upload)
    : result (session * option DataFrame) :=
  files <- load_files L up ;;
  rs <- rows_nfe L files ;;
  match rs with
  | [] => Ok (s, None)
  | _ => Ok (mk_session (st_df_cte s) (Some (df_nfe rs)), Some (df_nfe rs))
  end.

(** What the join tab shows: the notice that both tables are needed,
    or the merged table with the count of its rows. *)
Inductive join_view : Type :=
| NeedBoth
| Matched (merged : DataFrame) (count : nat).

(** Lines 188 to 197. *)
Definition run_tab_merge (s : session) : result join_view :=
  match st_df_cte s, st_df_nfe s with
  | Some cte, Some nfe =>
      merged <- merge cte nfe "Chave NF" "_CTE" "_NFE" ;;
      Ok (Matched merged (List.length (rows merged)))
  | _, _ => Ok NeedBoth
  end.

Record page : Type := mk_page {
  shown_cte : option DataFrame;
  shown_nfe : option DataFrame;
  shown_join : join_view
}.

(** One run of the script, with the files that the two upload widgets
    hold. *)
Definition run_script (L : Lib) (s : session) (up_cte up_nfe : list upload)
    : result (session * page) :=
  r1 <- run_tab_cte L s up_cte ;;
  r2 <- run_tab_nfe L (fst r1) up_nfe ;;
  v <- run_tab_merge (fst r2) ;;
  Ok (fst r2, mk_page (snd r1) (snd r2) v).

(** The sessions that runs can lead to from a new session; the state
    between two tabs of a run is counted as well. *)
Inductive reachable (L : Lib) : session -> Prop :=
| reach_new : reachable L new_session
| reach_cte (s s' : session) (up : list upload) (v : option DataFrame) :
    reachable L s -> run_tab_cte L s up = Ok (s', v) -> reachable L s'
| reach_nfe (s s' : session) (up : list upload) (v : option DataFrame) :
    reachable L s -> run_tab_nfe L s up = Ok (s', v) -> reachable L s'.

(** A stored table is the table of a list of rows that is not empty. *)
Definition session_ok (s : session) : Prop :=
  (forall d, st_df_cte s = Some d -> exists rs, rs <> [] /\ d = df_cte rs) /\
  (forall d, st_df_nfe s = Some d -> exists rs, rs <> [] /\ d = df_nfe rs).

(* ================================================================= *)
(** * Further notions used in the statements *)

(** The row [r] with another file name. *)
Definition cte_with_arquivo (fname : string) (r : cte_row) : cte_row :=
  {| cte_Data := cte_Data r; cte_Mes_Ano := cte_Mes_Ano r; cte_Numero := cte_Numero r;
     cte_Emitente := cte_Emitente r; cte_UF_Orig := cte_UF_Orig r;
     cte_UF_Dest := cte_UF_Dest r; cte_Cidade_Dest := cte_Cidade_Dest r;
     cte_Frete := cte_Frete r; cte_Peso := cte_Peso r; cte_R_ton := cte_R_ton r;
     cte_Chave_NF := cte_Chave_NF r; cte_Arquivo := fname |}.

Definition nfe_with_arquivo (fname : string) (r : nfe_row) : nfe_row :=
  {| nfe_Data := nfe_Data r; nfe_Numero := nfe_Numero r; nfe_Chave_NF := nfe_Chave_NF r;
     nfe_Emitente := nfe_Emitente r; nfe_Destinatario := nfe_Destinatario r;
     nfe_Valor := nfe_Valor r; nfe_ICMS := nfe_ICMS r;
     nfe_Transportadora := nfe_Transportadora r; nfe_CNPJ_Transp := nfe_CNPJ_Transp r;
     nfe_Tipo_Frete := nfe_Tipo_Frete r; nfe_Arquivo := fname |}.


(** The library of [Sample] with a parser that knows the documents
    [docs] instead. *)
Definition lib_of (docs : list Element) : Lib :=
  {| fromstring := fun raw =>
       match raw with
       | [] => Broken
       | _ =>
           match List.find (fun d => String.eqb (Sample.to_xml d) (string_of_list_byte raw))
                           docs with
           | Some d => Root d
           | None => NoRoot
           end
       end;
     iso_to_dmY := Sample.ref_iso_to_dmY;
     dmY_to_Ym := Sample.ref_dmY_to_Ym;
     set_order := fun l => l;
     ZipFile := Sample.ref_ZipFile |}.

(** The first child of [e], or [e] when it has none. *)
Definition first_child (e : Element) : Element := hd e (children e).

(** A session in which the tables of the rows [cte] and [nfe] are
    stored. *)
Definition session_of (cte : list cte_row) (nfe : list nfe_row) : session :=
  mk_session (Some (df_cte cte)) (Some (df_nfe nfe)).

(** An upload per pair of a name and a content. *)
Definition as_uploads (pairs : list (string * bytes)) : list upload :=
  map (fun m => mk_upload (fst m) (snd m)) pairs.

(** The members of an archive that have an XML name can be read. *)
Definition xml_members_readable (members : list (string * result bytes)) : Prop :=
  forall name r, In (name, r) members -> is_xml_name name = true ->
                 exists content, r = Ok content.

(** A manifest that declares no weight and no freight value. *)
Definition cte_bare : Element :=
  Sample.node (c "CTe")
    [ Sample.node (c "infCte")
        [ Sample.node (c "ide")
            [ Sample.leaf (c "nCT") "1002"; Sample.leaf (c "dhEmi") Sample.date1 ] ] ].

(** The number of occurrences of [c] in [s]. *)
Fixpoint count_char (c : ascii) (s : string) : nat :=
  match s with
  | EmptyString => O
  | String x s' => ((if Ascii.eqb x c then 1 else 0) + count_char c s')%nat
  end.

(** The number of the elements of [l] that satisfy [p]. *)
Definition count_if {A : Type} (p : A -> bool) (l : list A) : nat :=
  List.length (filter p l).


(** The session after a run on a new session with [Sample.cte_two_keys]
    uploaded in the first tab and [Sample.nfe_official] in the second. *)
Definition loaded_session : session :=
  match run_script Sample.lib new_session
          [mk_upload "a.xml" (Sample.raw_of Sample.cte_two_keys)]
          [mk_upload "n.xml" (Sample.raw_of Sample.nfe_official)] with
  | Ok (s, _) => s
  | Raise _ => new_session
  end.

(* ================================================================= *)
(** * Facts about strings *)

Module StrFacts.
Import Str.

(** [avoids c s]: the character [c] does not occur in [s]. *)
Fixpoint avoids (c : ascii) (s : string) : bool :=
  match s with
  | EmptyString => true
  | String d s' => negb (Ascii.eqb d c) && avoids c s'
  end.

Fixpoint all_digits (s : string) : bool :=
  match s with
  | EmptyString => true
  | String d s' => is_digit d && all_digits s'
  end.

Lemma append_assoc (a b d : string) : (a ++ b) ++ d = a ++ (b ++ d).
Proof. induction a as [|x a IH]; simpl; [reflexivity | now rewrite IH]. Qed.

Lemma append_nil_r (a : string) : a ++ "" = a.
Proof. induction a as [|x a IH]; simpl; [reflexivity | now rewrite IH]. Qed.

Lemma length_append (a b : string) :
  String.length (a ++ b) = (String.length a + String.length b)%nat.
Proof. induction a as [|x a IH]; simpl; [reflexivity | now rewrite IH]. Qed.

Lemma replace_app (o : ascii) (nw a b : string) :
  replace o nw (a ++ b) = replace o nw a ++ replace o nw b.
Proof.
  induction a as [|x a IH]; simpl; [reflexivity|].
  destruct (Ascii.eqb x o); rewrite IH; [now rewrite append_assoc | reflexivity].
Qed.

Lemma replace_avoids (o : ascii) (nw s : string) :
  avoids o s = true -> replace o nw s = s.
Proof.
  induction s as [|x s IH]; simpl; [reflexivity|].
  intros H. apply andb_true_iff in H as [Hx Hs].
  apply negb_true_iff in Hx. rewrite Hx. now rewrite IH.
Qed.

Lemma avoids_app (o : ascii) (a b : string) :
  avoids o (a ++ b) = avoids o a && avoids o b.
Proof.
  induction a as [|x a IH]; simpl; [reflexivity|].
  now rewrite IH, andb_assoc.
Qed.

Lemma digits_avoid (o : ascii) (s : string) :
  is_digit o = false -> all_digits s = true -> avoids o s = true.
Proof.
  intros Ho. induction s as [|x s IH]; simpl; [reflexivity|].
  intros H. apply andb_true_iff in H as [Hx Hs].
  rewrite (IH Hs), andb_true_r. apply negb_true_iff.
  destruct (Ascii.eqb_spec x o) as [->|]; [congruence | reflexivity].
Qed.

(** Replacing the separator of a grouped digit string by another
    character regroups it with that character. *)
Lemma replace_group3 (a b : ascii) (s : string) :
  avoids a s = true ->
  replace a (String b "") (group3 a s) = group3 b s.
Proof.
  induction s as [|x s IH]; simpl; [reflexivity|].
  intros H. apply andb_true_iff in H as [Hx Hs].
  apply negb_true_iff in Hx. rewrite Hx.
  destruct (boundary (String.length s)); simpl.
  - rewrite Ascii.eqb_refl. simpl. now rewrite IH.
  - now rewrite IH.
Qed.

(** Deleting the separator gives the digits back. *)
Lemma remove_group3 (a : ascii) (s : string) :
  avoids a s = true -> replace a "" (group3 a s) = s.
Proof.
  induction s as [|x s IH]; simpl; [reflexivity|].
  intros H. apply andb_true_iff in H as [Hx Hs].
  apply negb_true_iff in Hx. rewrite Hx.
  destruct (boundary (String.length s)); simpl.
  - rewrite Ascii.eqb_refl. simpl. now rewrite IH.
  - now rewrite IH.
Qed.

Lemma avoids_group3 (o sep : ascii) (s : string) :
  Ascii.eqb sep o = false -> avoids o s = true -> avoids o (group3 sep s) = true.
Proof.
  intros Hsep. induction s as [|x s IH]; simpl; [reflexivity|].
  intros H. apply andb_true_iff in H as [Hx Hs]. rewrite Hx. simpl.
  destruct (boundary (String.length s)); simpl.
  - rewrite Hsep. simpl. now apply IH.
  - now apply IH.
Qed.

Lemma lstrip_by_head (p : ascii -> bool) (x : ascii) (s : string) :
  p x = false -> lstrip_by p (String x s) = String x s.
Proof. intros H. simpl. now rewrite H. Qed.

(** A string whose last character is kept by [p] loses nothing on the
    right. *)
Lemma rstrip_by_last (p : ascii -> bool) (s : string) (x : ascii) :
  p x = false -> rstrip_by p (s ++ String x "") = s ++ String x "".
Proof.
  intros H. induction s as [|y s IH]; simpl.
  - now rewrite H.
  - rewrite IH. destruct s; reflexivity.
Qed.

End StrFacts.

(* ================================================================= *)
(** * Facts about decimal digits *)

Module DigitFacts.
Import Str StrFacts.

Lemma all_digits_uint (u : Decimal.uint) :
  all_digits (NilEmpty.string_of_uint u) = true.
Proof. induction u; simpl; auto. Qed.

Lemma all_digits_decimal (k : N) : all_digits (decimal k) = true.
Proof. apply all_digits_uint. Qed.

Lemma digit_vals :
  digit_val "0" = 0%N /\ digit_val "1" = 1%N /\ digit_val "2" = 2%N /\
  digit_val "3" = 3%N /\ digit_val "4" = 4%N /\ digit_val "5" = 5%N /\
  digit_val "6" = 6%N /\ digit_val "7" = 7%N /\ digit_val "8" = 8%N /\
  digit_val "9" = 9%N.
Proof. repeat split. Qed.

Lemma digits_val_uint_acc (u : Decimal.uint) (acc : positive) :
  digits_val (Npos acc) (NilEmpty.string_of_uint u) = Npos (Pos.of_uint_acc u acc).
Proof.
  revert acc. induction u; intros acc;
    cbn [NilEmpty.string_of_uint digits_val Pos.of_uint_acc]; try reflexivity;
    rewrite <- IHu; f_equal;
    destruct digit_vals as (E0 & E1 & E2 & E3 & E4 & E5 & E6 & E7 & E8 & E9);
    rewrite ?E0, ?E1, ?E2, ?E3, ?E4, ?E5, ?E6, ?E7, ?E8, ?E9; lia.
Qed.

Lemma digits_val_uint (u : Decimal.uint) :
  digits_val 0 (NilEmpty.string_of_uint u) = N.of_uint u.
Proof.
  unfold N.of_uint.
  induction u; cbn [NilEmpty.string_of_uint digits_val Pos.of_uint];
    try reflexivity; try exact IHu;
    rewrite <- digits_val_uint_acc; reflexivity.
Qed.

(** Reading the digits of [k] gives [k] back. *)
Lemma digits_val_decimal (k : N) : digits_val 0 (decimal k) = k.
Proof.
  unfold decimal. rewrite digits_val_uint. apply DecimalN.Unsigned.of_to.
Qed.

Lemma digits_val_app (acc : N) (a b : string) :
  digits_val acc (a ++ b) = digits_val (digits_val acc a) b.
Proof. revert acc. induction a as [|x a IH]; intros acc; simpl; auto. Qed.

Lemma below_ten (d : N) :
  (d < 10)%N ->
  (d = 0 \/ d = 1 \/ d = 2 \/ d = 3 \/ d = 4 \/ d = 5 \/ d = 6 \/ d = 7 \/ d = 8 \/ d = 9)%N.
Proof. lia. Qed.

Lemma digit_val_char (d : N) : (d < 10)%N -> digit_val (digit_char d) = d.
Proof.
  intros H. destruct (below_ten d H) as [E|[E|[E|[E|[E|[E|[E|[E|[E|E]]]]]]]]];
    subst d; reflexivity.
Qed.

Lemma is_digit_char (d : N) : (d < 10)%N -> is_digit (digit_char d) = true.
Proof.
  intros H. destruct (below_ten d H) as [E|[E|[E|[E|[E|[E|[E|[E|[E|E]]]]]]]]];
    subst d; reflexivity.
Qed.

Lemma all_digits_two (f : N) : (f < 100)%N -> all_digits (two_digits f) = true.
Proof.
  intros H. unfold two_digits. cbn [all_digits].
  rewrite !is_digit_char; [reflexivity | |].
  - apply N.mod_lt. lia.
  - apply N.Div0.div_lt_upper_bound. lia.
Qed.

Lemma digits_val_two (acc f : N) :
  (f < 100)%N -> digits_val acc (two_digits f) = (100 * acc + f)%N.
Proof.
  intros H. unfold two_digits. cbn [digits_val].
  rewrite !digit_val_char.
  - pose proof (N.div_mod f 10). lia.
  - apply N.mod_lt. lia.
  - apply N.Div0.div_lt_upper_bound. lia.
Qed.

(** The digits of a number start with a digit: they are not empty. *)
Lemma decimal_head (k : N) :
  exists d rest, decimal k = String d rest /\ is_digit d = true.
Proof.
  pose proof (all_digits_decimal k) as H.
  destruct (decimal k) as [|d rest] eqn:E.
  - exfalso. unfold decimal in E.
    assert (Hn : N.to_uint k <> Decimal.Nil).
    { destruct k; simpl; [discriminate | apply DecimalPos.Unsigned.to_uint_nonnil]. }
    destruct (N.to_uint k); simpl in E; congruence.
  - exists d, rest. split; [reflexivity|].
    simpl in H. now apply andb_true_iff in H as [H _].
Qed.

(** A run of digits followed by a character that is neither a digit
    nor an underscore is read whole. *)
Lemma digitpart_tail_stop (ds : string) (x : ascii) (rest : string) :
  all_digits ds = true -> is_digit x = false -> Ascii.eqb x "_" = false ->
  digitpart_tail (ds ++ String x rest) = (ds, String x rest).
Proof.
  intros Hds Hx Hu. induction ds as [|d ds IH]; simpl.
  - now rewrite Hx, Hu.
  - simpl in Hds. apply andb_true_iff in Hds as [Hd Hds].
    rewrite Hd, (IH Hds). reflexivity.
Qed.

Lemma digitpart_tail_end (ds : string) :
  all_digits ds = true -> digitpart_tail ds = (ds, "").
Proof.
  induction ds as [|d ds IH]; simpl; [reflexivity|].
  intros H. apply andb_true_iff in H as [Hd Hds].
  now rewrite Hd, (IH Hds).
Qed.

Lemma digitpart_stop (ds : string) (x : ascii) (rest : string) :
  all_digits ds = true -> is_digit x = false -> Ascii.eqb x "_" = false ->
  digitpart (ds ++ String x rest) = (ds, String x rest).
Proof.
  intros Hds Hx Hu. destruct ds as [|d ds]; simpl.
  - now rewrite Hx.
  - simpl in Hds. apply andb_true_iff in Hds as [Hd Hds].
    now rewrite Hd, (digitpart_tail_stop ds x rest Hds Hx Hu).
Qed.

Lemma digitpart_end (ds : string) :
  all_digits ds = true -> digitpart ds = (ds, "").
Proof.
  destruct ds as [|d ds]; simpl; [reflexivity|].
  intros H. apply andb_true_iff in H as [Hd Hds].
  now rewrite Hd, (digitpart_tail_end ds Hds).
Qed.

End DigitFacts.

(* ================================================================= *)
(** * Facts about the formatters *)

Module FormatFacts.
Import Str StrFacts DigitFacts.

Lemma avoids_sign (o : ascii) (s : bool) :
  Ascii.eqb "-" o = false -> avoids o (sign_text s) = true.
Proof.
  intros H. destruct s; [|reflexivity].
  unfold sign_text, avoids. now rewrite H.
Qed.

(** Replacing the one occurrence of [o] that stands between two texts
    without it. *)
Lemma replace_between (o : ascii) (nw pre post : string) :
  avoids o pre = true -> avoids o post = true ->
  replace o nw (pre ++ String o post) = pre ++ nw ++ post.
Proof.
  intros Hpre Hpost. rewrite replace_app, (replace_avoids o nw pre Hpre).
  simpl. now rewrite Ascii.eqb_refl, (replace_avoids o nw post Hpost).
Qed.

Lemma regroup_between (a b : ascii) (pre ds post : string) :
  avoids a pre = true -> avoids a ds = true -> avoids a post = true ->
  replace a (String b "") (pre ++ group3 a ds ++ post) = pre ++ group3 b ds ++ post.
Proof.
  intros Hpre Hds Hpost.
  now rewrite !replace_app, (replace_avoids a _ pre Hpre), (replace_group3 a b ds Hds),
    (replace_avoids a _ post Hpost).
Qed.

Lemma ungroup_between (a : ascii) (pre ds post : string) :
  avoids a pre = true -> avoids a ds = true -> avoids a post = true ->
  replace a "" (pre ++ group3 a ds ++ post) = pre ++ ds ++ post.
Proof.
  intros Hpre Hds Hpost.
  now rewrite !replace_app, (replace_avoids a _ pre Hpre), (remove_group3 a ds Hds),
    (replace_avoids a _ post Hpost).
Qed.

Lemma two_digits_ok (k : N) : all_digits (two_digits (k mod 100)) = true.
Proof. apply all_digits_two, N.mod_lt. discriminate. Qed.

(** [swap_separators] turns the comma-grouped, dot-marked text into
    the dot-grouped, comma-marked one. *)
Lemma swap_money_text (s : bool) (k : N) :
  swap_separators (money_text "," "." s k) = money_text "." "," s k.
Proof.
  unfold swap_separators, money_text.
  pose proof (all_digits_decimal (k / 100)) as HD.
  pose proof (two_digits_ok k) as HF.
  remember (decimal (k / 100)) as D eqn:ED.
  remember (two_digits (k mod 100)) as F eqn:EF. clear ED EF.
  rewrite (regroup_between "," "_" (sign_text s) D (String "." F));
    [ | now apply avoids_sign | now apply digits_avoid
      | simpl; now apply digits_avoid ].
  rewrite <- append_assoc.
  rewrite (replace_between "." "," (sign_text s ++ group3 "_" D) F);
    [ | rewrite avoids_app, avoids_sign by reflexivity;
        apply avoids_group3; [reflexivity | now apply digits_avoid]
      | now apply digits_avoid ].
  rewrite append_assoc.
  rewrite (regroup_between "_" "." (sign_text s) D ("," ++ F));
    [ reflexivity | now apply avoids_sign | now apply digits_avoid
      | simpl; now apply digits_avoid ].
Qed.

(** What [str_to_float_br] hands to [float]: the plain decimal
    literal. *)
Lemma undo_money_text (s : bool) (k : N) :
  replace "," "." (replace "." "" (money_text "." "," s k)) =
  sign_text s ++ decimal (k / 100) ++ String "." (two_digits (k mod 100)).
Proof.
  unfold money_text.
  pose proof (all_digits_decimal (k / 100)) as HD.
  pose proof (two_digits_ok k) as HF.
  remember (decimal (k / 100)) as D eqn:ED.
  remember (two_digits (k mod 100)) as F eqn:EF. clear ED EF.
  rewrite (ungroup_between "." (sign_text s) D (String "," F));
    [ | now apply avoids_sign | now apply digits_avoid
      | simpl; now apply digits_avoid ].
  rewrite <- append_assoc.
  rewrite (replace_between "," "." (sign_text s ++ D) F);
    [ now rewrite append_assoc
    | rewrite avoids_app, avoids_sign by reflexivity; now apply digits_avoid
    | now apply digits_avoid ].
Qed.

Lemma money_text_nonempty (sep pt : ascii) (s : bool) (k : N) :
  is_empty (money_text sep pt s k) = false.
Proof.
  unfold money_text. destruct s; [reflexivity|]. simpl.
  destruct (decimal_head (k / 100)) as (d & rest & E & _). now rewrite E.
Qed.

Lemma format_finite (x : float) :
  is_finite x = true -> format_comma_2f x = fixed2 (signbit x) (cents_of x).
Proof. destruct x; simpl; try discriminate; reflexivity. Qed.

Lemma digit_not_c_space (x : ascii) : is_digit x = true -> is_c_space x = false.
Proof.
  unfold is_digit, is_c_space. intros H.
  apply andb_true_iff in H as [H1 H2]. apply N.leb_le in H1, H2.
  apply orb_false_iff; split.
  - apply andb_false_iff; right. apply N.leb_gt. lia.
  - apply N.eqb_neq. lia.
Qed.

Lemma digit_neq (d x : ascii) :
  is_digit d = true -> is_digit x = false -> Ascii.eqb d x = false.
Proof.
  intros Hd Hx. destruct (Ascii.eqb_spec d x) as [->|]; [congruence | reflexivity].
Qed.

Lemma lower_digit (d : ascii) : is_digit d = true -> lower_char d = d.
Proof.
  unfold is_digit, lower_char. intros H.
  apply andb_true_iff in H as [H1 H2]. apply N.leb_le in H1, H2.
  replace (65 <=? N_of_ascii d)%N with false; [reflexivity|].
  symmetry. apply N.leb_gt. lia.
Qed.

Lemma strip_by_ends (p : ascii -> bool) (x y : ascii) (mid : string) :
  p x = false -> p y = false ->
  strip_by p (String x (mid ++ String y "")) = String x (mid ++ String y "").
Proof.
  intros Hx Hy. unfold strip_by. rewrite lstrip_by_head by exact Hx.
  change (String x (mid ++ String y "")) with (String x mid ++ String y "").
  now apply rstrip_by_last.
Qed.

(** A literal that starts with a digit is not one of the words. *)
Lemma not_a_word (d : ascii) (t : string) :
  is_digit d = true ->
  (String.eqb (lower (String d t)) "inf" || String.eqb (lower (String d t)) "infinity") = false
  /\ String.eqb (lower (String d t)) "nan" = false.
Proof.
  intros Hd. cbn [lower]. rewrite (lower_digit d Hd).
  cbn [String.eqb].
  rewrite (digit_neq d "i" Hd eq_refl), (digit_neq d "n" Hd eq_refl).
  split; reflexivity.
Qed.

(** Reading digits, a dot and two digits. *)
Lemma read_number_plain (D : string) (a b : ascii) :
  all_digits D = true -> is_empty D = false ->
  is_digit a = true -> is_digit b = true ->
  read_number (D ++ String "." (String a (String b ""))) =
  Some (digits_val 0 (D ++ String a (String b "")), -2).
Proof.
  intros HD HE Ha Hb. unfold read_number.
  rewrite (digitpart_stop D "." _ HD eq_refl eq_refl).
  cbn [read_fraction]. rewrite Ascii.eqb_refl.
  rewrite (digitpart_end (String a (String b ""))) by (cbn [all_digits]; now rewrite Ha, Hb).
  rewrite HE. reflexivity.
Qed.

(** The reader on the plain two-decimal literal of [k] hundredths. *)
Lemma of_ascii_plain (s : bool) (k : N) :
  of_ascii (sign_text s ++ decimal (k / 100) ++ String "." (two_digits (k mod 100))) =
  Ok (of_decimal s k (-2)).
Proof.
  pose proof (all_digits_decimal (k / 100)) as HD.
  destruct (decimal_head (k / 100)) as (d & rest & ED & Hd).
  assert (Hval : digits_val 0 (decimal (k / 100) ++ two_digits (k mod 100)) = k).
  { rewrite digits_val_app, digits_val_decimal, digits_val_two by (apply N.mod_lt; discriminate).
    pose proof (N.div_mod k 100). lia. }
  assert (Ha : is_digit (digit_char (k mod 100 / 10)) = true).
  { apply is_digit_char, N.Div0.div_lt_upper_bound.
    pose proof (N.mod_lt k 100). lia. }
  assert (Hb : is_digit (digit_char ((k mod 100) mod 10)) = true).
  { apply is_digit_char, N.mod_lt. discriminate. }
  unfold two_digits in *.
  remember (digit_char (k mod 100 / 10)) as a eqn:Ea.
  remember (digit_char ((k mod 100) mod 10)) as b eqn:Eb. clear Ea Eb.
  remember (decimal (k / 100)) as D eqn:EqD. clear EqD. subst D.
  assert (Hstrip :
    rest ++ String "." (String a (String b "")) =
    (rest ++ String "." (String a "")) ++ String b "").
  { now rewrite append_assoc. }
  assert (Hread :
    read_number (String d (rest ++ String "." (String a (String b "")))) = Some (k, -2)).
  { rewrite <- Hval. exact (read_number_plain (String d rest) a b HD eq_refl Ha Hb). }
  remember (rest ++ String "." (String a "")) as mid eqn:Emid.
  destruct (not_a_word d (mid ++ String b "") Hd) as [W1 W2].
  unfold of_ascii.
  destruct s; cbn [sign_text append]; rewrite Hstrip.
  - change (String "-" (String d (mid ++ String b "")))
      with (String "-" (String d mid ++ String b "")).
    rewrite (strip_by_ends is_c_space "-" b) by
      (reflexivity || now apply digit_not_c_space).
    cbn [read_sign append]. rewrite Ascii.eqb_refl.
    rewrite W1, W2, <- Hstrip, Hread. reflexivity.
  - rewrite (strip_by_ends is_c_space d b) by now apply digit_not_c_space.
    cbn [read_sign].
    rewrite (digit_neq d "-" Hd eq_refl), (digit_neq d "+" Hd eq_refl).
    rewrite W1, W2, <- Hstrip, Hread. reflexivity.
Qed.

Lemma is_ascii_text_app (a b : string) :
  is_ascii_text (a ++ b) = is_ascii_text a && is_ascii_text b.
Proof.
  induction a as [|x a IH]; [reflexivity|]. cbn [append is_ascii_text].
  now rewrite IH, andb_assoc.
Qed.

Lemma digits_are_ascii (ds : string) : all_digits ds = true -> is_ascii_text ds = true.
Proof.
  induction ds as [|x ds IH]; [reflexivity|].
  cbn [all_digits is_ascii_text]. intros H. apply andb_true_iff in H as [Hx Hds].
  rewrite (IH Hds), andb_true_r. unfold is_digit in Hx.
  apply andb_true_iff in Hx as [_ Hx]. apply N.leb_le in Hx. apply N.ltb_lt. lia.
Qed.

Lemma to_ascii_ascii (s : string) : is_ascii_text s = true -> to_ascii s = s.
Proof. intros H. unfold to_ascii. now rewrite H. Qed.

(** [float] on the plain two-decimal literal of [k] hundredths. *)
Lemma of_string_plain (s : bool) (k : N) :
  of_string (sign_text s ++ decimal (k / 100) ++ String "." (two_digits (k mod 100))) =
  Ok (of_decimal s k (-2)).
Proof.
  unfold of_string. rewrite to_ascii_ascii; [apply of_ascii_plain|].
  rewrite !is_ascii_text_app.
  rewrite (digits_are_ascii _ (all_digits_decimal (k / 100))).
  cbn [is_ascii_text]. rewrite (digits_are_ascii _ (two_digits_ok k)).
  destruct s; reflexivity.
Qed.

End FormatFacts.

(* ================================================================= *)
(** * Facts about rounding: the float nearest to a two-decimal number *)

Module RoundFacts.

Lemma digits2_pos_size (p : positive) : digits2_pos p = Pos.size p.
Proof. induction p; simpl; congruence. Qed.

Lemma Zdigits2_log2 (p : positive) : Zdigits2 (Zpos p) = Z.log2 (Zpos p) + 1.
Proof.
  cbn [Zdigits2]. rewrite digits2_pos_size.
  destruct p as [p|p|]; cbn [Pos.size Z.log2]; try reflexivity; lia.
Qed.

(** The number of binary digits of a positive number between two
    consecutive powers of two. *)
Lemma Zdigits2_between (p : positive) (d : Z) :
  0 < d -> 2 ^ (d - 1) <= Zpos p < 2 ^ d -> Zdigits2 (Zpos p) = d.
Proof.
  intros Hd H. rewrite Zdigits2_log2.
  rewrite (Z.log2_unique (Zpos p) (d - 1)); [lia | lia |].
  replace (Z.succ (d - 1)) with d by lia. exact H.
Qed.

Lemma Zdigits2_bounds (p : positive) :
  2 ^ (Zdigits2 (Zpos p) - 1) <= Zpos p < 2 ^ Zdigits2 (Zpos p).
Proof.
  rewrite Zdigits2_log2. replace (Z.log2 (Zpos p) + 1 - 1) with (Z.log2 (Zpos p)) by lia.
  replace (Z.log2 (Zpos p) + 1) with (Z.succ (Z.log2 (Zpos p))) by lia.
  apply Z.log2_spec. lia.
Qed.

Lemma loc_of_record_of_loc (m : Z) (l : location) :
  loc_of_shr_record (shr_record_of_loc m l) = l.
Proof. destruct l as [|[]]; reflexivity. Qed.

Lemma shr_m_record_of_loc (m : Z) (l : location) : shr_m (shr_record_of_loc m l) = m.
Proof. destruct l as [|[]]; reflexivity. Qed.

(** Rounding a 53-bit mantissa: no shift, one rounding step, and a
    carry into the next binade when the mantissa overflows. *)
Lemma binary_round_aux_53 (sx : bool) (mx ex : Z) (lx : location) :
  2 ^ 52 <= mx < 2 ^ 53 -> -1074 <= ex <= 970 ->
  binary_round_aux prec emax sx mx ex lx =
  let m1 := round_nearest_even mx lx in
  if m1 <? 2 ^ 53 then S754_finite sx (Z.to_pos m1) ex
  else S754_finite sx (Z.to_pos (2 ^ 52)) (ex + 1).
Proof.
  intros Hm He.
  destruct mx as [|mp|mp]; try lia.
  unfold binary_round_aux, shr_fexp.
  rewrite (Zdigits2_between mp 53) by lia.
  replace (fexp prec emax (53 + ex) - ex) with 0
    by (unfold fexp, emin, prec, emax; lia).
  cbn [shr]. rewrite loc_of_record_of_loc, shr_m_record_of_loc.
  cbv zeta.
  assert (Hr : round_nearest_even (Z.pos mp) lx = Z.pos mp \/
               round_nearest_even (Z.pos mp) lx = Z.pos mp + 1).
  { destruct lx as [|[]]; cbn [round_nearest_even]; auto.
    destruct (Z.even (Z.pos mp)); auto. }
  remember (round_nearest_even (Z.pos mp) lx) as m1 eqn:Em1. clear Em1.
  destruct (Z.ltb_spec m1 (2 ^ 53)) as [Hlt|Hge].
  - destruct m1 as [|m1p|m1p]; try lia.
    rewrite (Zdigits2_between m1p 53) by lia.
    replace (fexp prec emax (53 + ex) - ex) with 0
      by (unfold fexp, emin, prec, emax; lia).
    cbn [shr shr_record_of_loc shr_m].
    replace (ex <=? emax - prec) with true
      by (symmetry; apply Z.leb_le; unfold emax, prec; lia).
    reflexivity.
  - assert (E : m1 = 2 ^ 53) by lia. subst m1.
    replace (fexp prec emax (Zdigits2 (2 ^ 53) + ex) - ex) with 1
      by (change (Zdigits2 (2 ^ 53)) with 54; unfold fexp, emin, prec, emax; lia).
    cbn -[Z.leb emax prec].
    replace (ex + 1 <=? emax - prec) with true
      by (symmetry; apply Z.leb_le; unfold emax, prec; lia).
    reflexivity.
Qed.

Lemma half_xI (p : positive) : Z.pos p~1 / 2 = Z.pos p.
Proof. rewrite Pos2Z.inj_xI. symmetry. apply (Z.div_unique _ 2 _ 1); lia. Qed.

Lemma half_xO (p : positive) : Z.pos p~0 / 2 = Z.pos p.
Proof. rewrite Pos2Z.inj_xO. symmetry. apply (Z.div_unique _ 2 _ 0); lia. Qed.

Lemma shr_1_of_loc (p : positive) (l : location) :
  1 < Z.pos p ->
  shr_1 (shr_record_of_loc (Z.pos p) l) =
  {| shr_m := Z.pos p / 2; shr_r := Z.odd (Z.pos p);
     shr_s := match l with loc_Exact => false | _ => true end |}.
Proof.
  intros Hp. destruct p as [p|p|]; [| |lia].
  - rewrite half_xI. destruct l as [|[]]; reflexivity.
  - rewrite half_xO. destruct l as [|[]]; reflexivity.
Qed.

(** Rounding a 54-bit mantissa: the last bit is shifted out first. *)
Lemma binary_round_aux_54 (sx : bool) (mx ex : Z) (lx : location) :
  2 ^ 53 <= mx < 2 ^ 54 -> -1075 <= ex <= 969 ->
  binary_round_aux prec emax sx mx ex lx =
  binary_round_aux prec emax sx (mx / 2) (ex + 1)
    (loc_of_shr_record
       {| shr_m := mx / 2; shr_r := Z.odd mx;
          shr_s := match lx with loc_Exact => false | _ => true end |}).
Proof.
  intros Hm He.
  destruct mx as [|mp|mp]; try lia.
  assert (Hhalf : 2 ^ 52 <= Z.pos mp / 2 < 2 ^ 53).
  { split; [apply Z.div_le_lower_bound | apply Z.div_lt_upper_bound]; lia. }
  unfold binary_round_aux at 1 2. unfold shr_fexp at 1 3.
  rewrite (Zdigits2_between mp 54) by lia.
  replace (fexp prec emax (54 + ex) - ex) with 1
    by (unfold fexp, emin, prec, emax; lia).
  destruct (Z.pos mp / 2) as [|hp|hp] eqn:Eh; try lia.
  rewrite (Zdigits2_between hp 53) by lia.
  replace (fexp prec emax (53 + (ex + 1)) - (ex + 1)) with 0
    by (unfold fexp, emin, prec, emax; lia).
  cbn [shr iter_pos].
  rewrite shr_1_of_loc by lia. rewrite Eh.
  now rewrite shr_m_record_of_loc, loc_of_record_of_loc.
Qed.


(** The hundredths shown for a float that lies within half a unit of
    [k] hundredths. *)
Lemma cents_nearest (m p : positive) (k : Z) :
  0 <= k ->
  2 * Z.abs (100 * Z.pos m - k * Z.pos (2 ^ p)) < Z.pos (2 ^ p) ->
  cents m (Z.neg p) = Z.to_N k.
Proof.
  intros Hk Hnear. unfold cents.
  remember (2 ^ p)%positive as P eqn:EP. clear EP.
  pose proof (N.div_mod (N.pos m * 100) (N.pos P) ltac:(discriminate)) as Hdm.
  pose proof (N.mod_lt (N.pos m * 100) (N.pos P) ltac:(discriminate)) as Hlt.
  remember ((N.pos m * 100) / N.pos P)%N as q eqn:Eq.
  remember ((N.pos m * 100) mod N.pos P)%N as r eqn:Er.
  clear Eq Er.
  assert (Hz : 100 * Z.pos m = Z.pos P * Z.of_N q + Z.of_N r) by lia.
  assert (Hr : 0 <= Z.of_N r < Z.pos P) by lia.
  assert (Hnear' : - Z.pos P < 2 * (Z.pos P * (Z.of_N q - k) + Z.of_N r) < Z.pos P) by lia.
  assert (Hq : Z.of_N q - k <= -1 \/ Z.of_N q - k = 0 \/ 1 <= Z.of_N q - k) by lia.
  assert (Hlo : Z.of_N q - k <= -1 -> Z.pos P * (Z.of_N q - k) <= - Z.pos P) by nia.
  assert (Hlo2 : Z.of_N q - k <= -2 -> Z.pos P * (Z.of_N q - k) <= - 2 * Z.pos P) by nia.
  assert (Hhi : 1 <= Z.of_N q - k -> Z.pos P <= Z.pos P * (Z.of_N q - k)) by nia.
  assert (Hm1 : Z.of_N q - k = -1 -> Z.pos P * (Z.of_N q - k) = - Z.pos P) by nia.
  assert (H0 : Z.of_N q - k = 0 -> Z.pos P * (Z.of_N q - k) = 0) by nia.
  remember (Z.pos P * (Z.of_N q - k)) as prod eqn:Eprod. clear Eprod Hz Hdm.
  destruct (N.compare_spec (2 * r) (N.pos P)) as [E|E|E].
  - exfalso. lia.
  - assert (Z.of_N q = k) by lia. lia.
  - assert (Z.of_N q + 1 = k) by lia. lia.
Qed.

(** The quotient [k * 2^s / 100] that the division prepares, for
    [s = 60 - digits k]. *)
Lemma div_core_hundred (k : positive) :
  Z.pos k < 2 ^ 52 ->
  let s := 60 - Zdigits2 (Z.pos k) in
  8 <= s <= 59 /\
  2 ^ 59 <= Z.pos k * 2 ^ s < 2 ^ 60 /\
  SFdiv_core_binary prec emax (Z.pos k) 0 100 0 =
  (Z.pos k * 2 ^ s / 100, - s, new_location 100 ((Z.pos k * 2 ^ s) mod 100)).
Proof.
  intros Hk. cbv zeta.
  pose proof (Zdigits2_bounds k) as Hb.
  assert (Hd : 1 <= Zdigits2 (Z.pos k) <= 52).
  { split.
    - cbn [Zdigits2]. lia.
    - assert (H : Zdigits2 (Z.pos k) - 1 < 52); [|lia].
      apply (Z.pow_lt_mono_r_iff 2); lia. }
  remember (Zdigits2 (Z.pos k)) as d1 eqn:Ed1.
  split; [lia|]. split.
  - assert (E59 : 2 ^ (d1 - 1) * 2 ^ (60 - d1) = 2 ^ 59)
      by (rewrite <- Z.pow_add_r by lia; f_equal; lia).
    assert (E60 : 2 ^ d1 * 2 ^ (60 - d1) = 2 ^ 60)
      by (rewrite <- Z.pow_add_r by lia; f_equal; lia).
    assert (0 < 2 ^ (60 - d1)) by (apply Z.pow_pos_nonneg; lia).
    rewrite <- E59, <- E60.
    split; [apply Z.mul_le_mono_nonneg_r | apply Z.mul_lt_mono_pos_r]; lia.
  - unfold SFdiv_core_binary. rewrite <- Ed1.
    change (Zdigits2 100) with 7.
    replace (Z.min (fexp prec emax (d1 + 0 - (7 + 0))) (0 - 0)) with (d1 - 60)
      by (unfold fexp, emin, prec, emax; lia).
    replace (0 - 0 - (d1 - 60)) with (60 - d1) by lia.
    replace (- (60 - d1)) with (d1 - 60) by lia.
    destruct (60 - d1) as [|sp|sp] eqn:Es; try lia.
    rewrite Z.shiftl_mul_pow2 by lia.
    unfold Z.div, Z.modulo.
    destruct (Z.div_eucl (Z.pos k * 2 ^ Z.pos sp) 100) as [q r]. reflexivity.
Qed.

Lemma cents_nearest_Z (m : positive) (e k : Z) :
  e < 0 -> 0 <= k ->
  2 * Z.abs (100 * Z.pos m - k * 2 ^ (- e)) < 2 ^ (- e) ->
  cents m e = Z.to_N k.
Proof.
  intros He Hk H. destruct e as [|p|p]; try lia.
  apply cents_nearest; [exact Hk|].
  rewrite Pos2Z.inj_pow. exact H.
Qed.

Lemma new_location_hundred (r : Z) :
  new_location 100 r =
  if r =? 0 then loc_Exact else loc_Inexact (2 * r ?= 100).
Proof. reflexivity. Qed.

(** The float nearest to [k] hundredths shows [k] hundredths, for [k]
    below [2^52]. *)
Lemma cents_of_decimal (sgn : bool) (k : positive) :
  Z.pos k < 2 ^ 52 ->
  exists m e,
    of_decimal sgn (N.pos k) (-2) = S754_finite sgn m e /\ cents m e = N.pos k.
Proof.
  intros Hk. unfold of_decimal.
  change (Z.pos (10 ^ 2)) with 100.
  destruct (div_core_hundred k Hk) as (Hs & Hrange & Hcore).
  rewrite Hcore. clear Hcore.
  remember (60 - Zdigits2 (Z.pos k)) as s eqn:Es. clear Es.
  pose proof (Z.div_mod (Z.pos k * 2 ^ s) 100 ltac:(lia)) as Hdm.
  pose proof (Z.mod_pos_bound (Z.pos k * 2 ^ s) 100 ltac:(lia)) as Hr.
  assert (HS : 256 <= 2 ^ s) by (apply (Z.pow_le_mono_r 2 8 s); lia).
  assert (HS' : 2 ^ s = 2 * 2 ^ (s - 1)).
  { replace s with (Z.succ (s - 1)) at 1 by lia. apply Z.pow_succ_r. lia. }
  rewrite new_location_hundred.
  remember (Z.pos k * 2 ^ s / 100) as q eqn:Eq.
  remember ((Z.pos k * 2 ^ s) mod 100) as r eqn:Er.
  clear Eq Er.
  remember (2 ^ s) as S eqn:ES. remember (2 ^ (s - 1)) as S' eqn:ES'.
  assert (Hq : 2 ^ 52 <= q < 2 ^ 54) by (clear ES ES'; lia).
  destruct (Z.ltb_spec q (2 ^ 53)) as [H53|H54].
  - rewrite binary_round_aux_53 by lia. cbv zeta.
    set (l := if r =? 0 then loc_Exact else loc_Inexact (2 * r ?= 100)).
    assert (Hm1 : 2 * Z.abs (100 * round_nearest_even q l - Z.pos k * S) <= 100 /\
                  q <= round_nearest_even q l <= q + 1).
    { clear ES ES'. subst l. destruct (Z.eqb_spec r 0) as [->|Hr0].
      - cbn [round_nearest_even]. lia.
      - destruct (Z.compare_spec (2 * r) 100); cbn [round_nearest_even];
          [destruct (Z.even q)| |]; lia. }
    remember (round_nearest_even q l) as m1 eqn:Em1. clear Em1 l.
    destruct (Z.ltb_spec m1 (2 ^ 53)) as [Hlt|Hge].
    + exists (Z.to_pos m1), (- s). split; [reflexivity|].
      rewrite (cents_nearest_Z (Z.to_pos m1) (- s) (Z.pos k)); [reflexivity | lia | lia |].
      rewrite Z2Pos.id, Z.opp_involutive, <- ES by lia. clear ES ES'. lia.
    + exists (Z.to_pos (2 ^ 52)), (- s + 1). split; [reflexivity|].
      rewrite (cents_nearest_Z (Z.to_pos (2 ^ 52)) (- s + 1) (Z.pos k)); [reflexivity | lia | lia |].
      replace (- (- s + 1)) with (s - 1) by lia. rewrite <- ES'.
      change (Z.pos (Z.to_pos (2 ^ 52))) with (2 ^ 52).
      assert (E : m1 = 2 ^ 53) by lia. subst m1. clear ES ES'. lia.
  - rewrite binary_round_aux_54 by lia.
    assert (Hhalf : q = 2 * (q / 2) + (if Z.odd q then 1 else 0)).
    { rewrite (Z.div2_odd q) at 1. rewrite Z.div2_div. destruct (Z.odd q); reflexivity. }
    remember (q / 2) as m0 eqn:Em0. clear Em0.
    assert (Hm0 : 2 ^ 52 <= m0 < 2 ^ 53 - 1).
    { clear ES ES'. destruct (Z.odd q); lia. }
    rewrite binary_round_aux_53 by lia. cbv zeta.
    set (l' := loc_of_shr_record
                 {| shr_m := m0; shr_r := Z.odd q;
                    shr_s := match (if r =? 0 then loc_Exact else loc_Inexact (2 * r ?= 100)) with
                             | loc_Exact => false
                             | loc_Inexact _ => true
                             end |}).
    assert (Hm1 : 2 * Z.abs (100 * round_nearest_even m0 l' - Z.pos k * S') <= 100 /\
                  m0 <= round_nearest_even m0 l' <= m0 + 1).
    { clear ES ES'. subst l'. destruct (Z.eqb_spec r 0) as [->|Hr0];
        destruct (Z.odd q); cbn [loc_of_shr_record round_nearest_even];
        try destruct (Z.even m0); lia. }
    remember (round_nearest_even m0 l') as m1 eqn:Em1. clear Em1 l'.
    replace (m1 <? 2 ^ 53) with true by (symmetry; apply Z.ltb_lt; lia).
    exists (Z.to_pos m1), (- s + 1). split; [reflexivity|].
    rewrite (cents_nearest_Z (Z.to_pos m1) (- s + 1) (Z.pos k)); [reflexivity | lia | lia |].
    replace (- (- s + 1)) with (s - 1) by lia. rewrite <- ES'.
    rewrite Z2Pos.id by lia. clear ES ES'. lia.
Qed.

End RoundFacts.

(* ================================================================= *)
(** * Properties of the field formatters *)

Import Str StrFacts DigitFacts FormatFacts RoundFacts.

Lemma br_money_float (x : float) :
  br_money (inl x) = Ok (swap_separators (format_comma_2f x)).
Proof. reflexivity. Qed.

Lemma br_money_finite (x : float) :
  is_finite x = true ->
  br_money (inl x) = Ok (money_text "." "," (signbit x) (cents_of x)).
Proof.
  intros H. rewrite br_money_float, (format_finite x H).
  unfold fixed2. now rewrite swap_money_text.
Qed.

Lemma str_to_float_br_money_text (s : bool) (k : N) :
  str_to_float_br (money_text "." "," s k) = Ok (of_decimal s k (-2)).
Proof.
  unfold str_to_float_br. rewrite money_text_nonempty, undo_money_text.
  apply of_string_plain.
Qed.




Lemma dict_get_absent {V : Type} (d : list (string * V)) (key : string) (default : V) :
  (forall v, ~ In (key, v) d) -> dict_get d key default = default.
Proof.
  induction d as [|[k v] d IH]; intros H; simpl; [reflexivity|].
  destruct (String.eqb_spec k key) as [->|_].
  - exfalso. apply (H v). now left.
  - apply IH. intros v' Hin. apply (H v'). now right.
Qed.

(** White space at the two ends of a code. *)

Lemma chars_ascii_head (a : ascii) (s : string) :
  (N_of_ascii a < 128)%N -> chars (String a s) = String a "" :: chars s.
Proof.
  intros H. cbn [chars]. cbv zeta.
  replace (194 <=? N_of_ascii a)%N with false by (symmetry; apply N.leb_gt; lia).
  replace (224 <=? N_of_ascii a)%N with false by (symmetry; apply N.leb_gt; lia).
  replace (240 <=? N_of_ascii a)%N with false by (symmetry; apply N.leb_gt; lia).
  destruct s as [|b [|c0 [|d r]]]; reflexivity.
Qed.

Lemma chars_two_head (a b : ascii) (s : string) :
  ((194 <=? N_of_ascii a) && (N_of_ascii a <=? 223))%N && is_cont b = true ->
  chars (String a (String b s)) = String a (String b "") :: chars s.
Proof. intros H. cbn [chars]. cbv zeta. now rewrite H. Qed.

Lemma chars_three_head (a b c0 : ascii) (s : string) :
  ((194 <=? N_of_ascii a) && (N_of_ascii a <=? 223))%N && is_cont b = false ->
  ((224 <=? N_of_ascii a) && (N_of_ascii a <=? 239))%N
    && is_cont b && is_cont c0 && second_ok a b = true ->
  chars (String a (String b (String c0 s))) =
  String a (String b (String c0 "")) :: chars s.
Proof. intros H2 H3. cbn [chars]. cbv zeta. now rewrite H2, H3. Qed.

Lemma chars_space_head (p : N) (s : string) :
  In p white_space -> chars (encode p ++ s) = encode p :: chars s.
Proof.
  intros Hin. unfold white_space in Hin. cbn [In] in Hin.
  repeat (destruct Hin as [<-|Hin];
          [match goal with
           | |- chars (encode ?q ++ _) = _ =>
               let t := eval vm_compute in (encode q) in
               change (encode q) with t; cbn [append];
               first [ apply chars_ascii_head; reflexivity
                     | apply chars_two_head; reflexivity
                     | apply chars_three_head; reflexivity ]
           end|]).
  contradiction.
Qed.

Lemma is_space_encode (p : N) : In p white_space -> is_space_char (encode p) = true.
Proof.
  intros Hin. unfold white_space in Hin. cbn [In] in Hin.
  repeat (destruct Hin as [<-|Hin]; [reflexivity|]). contradiction.
Qed.

Lemma chars_spaces (ps : list N) (s : string) :
  Forall (fun p => In p white_space) ps ->
  chars (spaces ps ++ s) = (map encode ps ++ chars s)%list.
Proof.
  induction 1 as [|p ps Hp _ IH]; [reflexivity|].
  cbn [spaces map app]. rewrite append_assoc, chars_space_head by exact Hp.
  now rewrite IH.
Qed.

Lemma lstrip_list_spaces (ps : list N) (l : list string) :
  Forall (fun p => In p white_space) ps ->
  lstrip_list is_space_char (map encode ps ++ l)%list = lstrip_list is_space_char l.
Proof.
  induction 1 as [|p ps Hp _ IH]; [reflexivity|].
  cbn [map app lstrip_list]. now rewrite is_space_encode.
Qed.

Lemma rstrip_list_spaces (ps : list N) :
  Forall (fun p => In p white_space) ps ->
  rstrip_list is_space_char (map encode ps) = [].
Proof.
  induction 1 as [|p ps Hp _ IH]; [reflexivity|].
  cbn [map rstrip_list]. now rewrite IH, is_space_encode.
Qed.

(** A character that is no white space, with white space before and
    after it, is what [strip] leaves. *)
Lemma strip_padded (pre post : list N) (k : ascii) :
  (N_of_ascii k < 128)%N -> is_space (N_of_ascii k) = false ->
  Forall (fun p => In p white_space) pre ->
  Forall (fun p => In p white_space) post ->
  strip (spaces pre ++ String k (spaces post)) = String k "".
Proof.
  intros Hk Hs Hpre Hpost. unfold strip.
  rewrite chars_spaces by exact Hpre.
  rewrite chars_ascii_head by exact Hk.
  rewrite <- (append_nil_r (spaces post)), chars_spaces by exact Hpost.
  cbn [chars]. rewrite app_nil_r.
  rewrite lstrip_list_spaces by exact Hpre.
  assert (Hp : is_space_char (String k "") = false).
  { unfold is_space_char. cbn [code_point].
    replace (N_of_ascii k <? 128)%N with true by (symmetry; apply N.ltb_lt; exact Hk).
    exact Hs. }
  cbn [lstrip_list]. rewrite Hp.
  change (rstrip_list is_space_char (String k "" :: map encode post))
    with (match rstrip_list is_space_char (map encode post) with
          | [] => if is_space_char (String k "") then [] else [String k ""]
          | t :: r => String k "" :: t :: r
          end).
  rewrite rstrip_list_spaces by exact Hpost. rewrite Hp. reflexivity.
Qed.

(** C9, as amended.  The freight-term formatter looks the code up with
    the white space at its two ends set aside, so that a code of the
    table with white space around it, that of any script, gets the
    label of the table; a code whose stripped form the table does not
    have is returned as it was given, with its white space, when it is
    not empty, and the empty code gives ["--"], which is also what a
    transport section without a freight-term element gets. *)
Theorem frete_tipo_table_or_verbatim (code : string) :
  (forall label, In (strip code, label) frete_tipo_table -> frete_tipo code = label) /\
  ((forall label, ~ In (strip code, label) frete_tipo_table) ->
     code <> "" -> frete_tipo code = code) /\
  (forall (pre post : list N) (key label : string),
     Forall (fun p => In p white_space) pre ->
     Forall (fun p => In p white_space) post ->
     In (key, label) frete_tipo_table ->
     frete_tipo (spaces pre ++ key ++ spaces post) = label) /\
  frete_tipo "" = "--" /\
  (forall transp, find [Child (n "modFrete")] transp = None ->
     frete_tipo (findtext [Child (n "modFrete")] "" transp) = "--") /\
  frete_tipo "0" = "CIF (Emitente)" /\ frete_tipo "1" = "FOB (Destinat.)" /\
  frete_tipo "2" = "Terceiros" /\ frete_tipo "3" = "Sem frete" /\
  frete_tipo "4" = "Sem frete" /\ frete_tipo "9" = "Sem frete" /\
  frete_tipo "7" = "7".
Proof.
  split; [|split; [|split; [|repeat split]]];
    [ | | | intros transp Ht; unfold findtext; now rewrite Ht ].
  - intros label Hin. unfold frete_tipo.
    unfold frete_tipo_table in Hin. simpl in Hin.
    repeat (destruct Hin as [Hin|Hin];
            [injection Hin as <- <-; reflexivity|]).
    contradiction.
  - intros Habs Hne. unfold frete_tipo.
    rewrite dict_get_absent by exact Habs.
    destruct code; [congruence | reflexivity].
  - intros pre post key label Hpre Hpost Hin.
    unfold frete_tipo_table in Hin. cbn [In] in Hin.
    repeat (destruct Hin as [Hin|Hin];
            [injection Hin as <- <-; cbn [append]; unfold frete_tipo;
             rewrite strip_padded by (reflexivity || assumption); reflexivity|]).
    contradiction.
Qed.

Lemma frete_tipo_table_or_verbatim_witness :
  frete_tipo " 2 " = "Terceiros" /\ frete_tipo " 7" = " 7" /\
  frete_tipo (spaces [160; 8195] ++ "1" ++ spaces [12288; 32])%N = "FOB (Destinat.)".
Proof.
  split; [|split].
  - apply (proj1 (frete_tipo_table_or_verbatim " 2 ")). vm_compute. tauto.
  - apply (proj1 (proj2 (frete_tipo_table_or_verbatim " 7"))).
    + intros label H. vm_compute in H. intuition discriminate.
    + discriminate.
  - apply (proj1 (proj2 (proj2 (frete_tipo_table_or_verbatim "")))).
    + repeat constructor; vm_compute; tauto.
    + repeat constructor; vm_compute; tauto.
    + right. now left.
Defined.

(** C9, the claim as stated fails: the code ["1 "], with a space after
    the digit, is not one of the codes of the table, and it is not
    returned as it was given: it gets the label of ["1"]. *)
Lemma padded_code_gets_the_label :
  (forall label, ~ In ("1 ", label) frete_tipo_table) /\
  frete_tipo "1 " = "FOB (Destinat.)" /\ frete_tipo "1 " <> "1 ".
Proof.
  split; [|split].
  - intros label H. simpl in H. intuition discriminate.
  - reflexivity.
  - discriminate.
Qed.

(* ================================================================= *)
(** * Facts about element trees *)

Module XmlFacts.




Lemma findall_descendant (q : QName) (e : Element) :
  findall [Descendant q] e = filter (has_tag q) (descendants e).
Proof.
  cbn [findall select]. induction (filter (has_tag q) (descendants e)) as [|d l IH];
    simpl; [reflexivity | now rewrite IH].
Qed.



End XmlFacts.


(* ================================================================= *)
(** * Properties of the extractors *)

Import XmlFacts.





Lemma cte_r_ton_zero (frete peso : float) :
  PyFloat.truthy peso = false -> cte_r_ton frete peso = Ok "".
Proof. intros H. unfold cte_r_ton. now rewrite H. Qed.

Lemma cte_r_ton_nonzero (frete peso : float) :
  PyFloat.truthy peso = true ->
  PyFloat.is_zero (SFdiv prec emax peso (of_Z 1000)) = false ->
  cte_r_ton frete peso =
  br_money (inl (SFdiv prec emax frete (SFdiv prec emax peso (of_Z 1000)))).
Proof.
  intros Hp Ht. unfold cte_r_ton, truediv. rewrite Hp.
  change (PyFloat.is_zero (of_Z 1000)) with false. cbn [bind].
  now rewrite Ht.
Qed.



(* ================================================================= *)
(** * The set of weights *)









Section Weights.
Variable L : Lib.
(** A set is iterated in some order: each element once. *)
Hypothesis set_order_perm : forall s, Permutation (set_order L s) s.



End Weights.


(* ================================================================= *)
(** * The invoice key and the value per ton *)

(** C2.  The invoice key is computed with [lstrip("NFe")], which drops
    leading characters for as long as they are one of [N], [F], [e]: on
    the identifier [NFeFe42] the extractor returns the key [42], not
    [Fe42], and an identifier that does not start with [NFe], such as
    [eFN42], is changed too. *)
Theorem nfe_chave_strips_a_character_set :
  (exists r,
     parse_nfe Sample.lib (Sample.raw_of Sample.nfe_odd_id) "n.xml" = Ok (Some r) /\
     nfe_Chave_NF r = "42") /\
  nfe_chave (Elem (n "infNFe") [("Id", "NFeFe42")] None []) = "42" /\
  nfe_chave (Elem (n "infNFe") [("Id", "eFN42")] None []) = "42".
Proof.
  split; [|split; reflexivity].
  eexists. split; [vm_compute; reflexivity | reflexivity].
Qed.

(** On an identifier made of [NFe] and a key that is empty or starts
    with a character other than [N], [F] and [e], as the 44 digits of
    an access key do, the key is what remains. *)
Lemma nfe_chave_of_access_key (attrs : list (string * string)) (x : option string)
    (cs : list Element) (key : string) :
  dict_get attrs "Id" "" = "NFe" ++ key ->
  lstrip_chars "NFe" key = key ->
  nfe_chave (Elem (n "infNFe") attrs x cs) = key.
Proof.
  intros Hid Hkey. unfold nfe_chave, get. cbn [attrib]. rewrite Hid.
  exact Hkey.
Qed.

(** C7.  The guard of the value per ton tests the weight in kilograms,
    while the divisor is the weight in tons: a weight of [1e-323] kg is
    not zero, its thousandth is rounded to zero, and the division
    raises [ZeroDivisionError]. *)
Theorem r_ton_divides_by_zero_on_tiny_weight :
  xml_float (Some "1e-323") = Ok (S754_finite false 2 (-1074)) /\
  PyFloat.truthy (S754_finite false 2 (-1074)) = true /\
  truediv (S754_finite false 2 (-1074)) (of_Z 1000) = Ok (S754_zero false) /\
  (forall frete, cte_r_ton frete (S754_finite false 2 (-1074)) = Raise ZeroDivisionError) /\
  parse_cte Sample.lib (Sample.raw_of Sample.cte_tiny_weight) "a.xml" =
    Raise ZeroDivisionError.
Proof.
  split; [vm_compute; reflexivity|].
  split; [reflexivity|].
  split; [vm_compute; reflexivity|].
  split; [|vm_compute; reflexivity].
  intros frete. unfold cte_r_ton.
  change (PyFloat.truthy (S754_finite false 2 (-1074))) with true. cbv iota.
  change (truediv (S754_finite false 2 (-1074)) (of_Z 1000)) with (Ok (S754_zero false)).
  reflexivity.
Qed.

(** The value per ton where the guard does its work: empty for a zero
    weight, and the formatted quotient when the weight in tons is not
    zero. *)
Lemma cte_r_ton_guarded (frete peso : float) :
  (PyFloat.truthy peso = false -> cte_r_ton frete peso = Ok "") /\
  (PyFloat.truthy peso = true ->
   PyFloat.is_zero (SFdiv prec emax peso (of_Z 1000)) = false ->
   cte_r_ton frete peso =
   br_money (inl (SFdiv prec emax frete (SFdiv prec emax peso (of_Z 1000))))).
Proof. split; [apply cte_r_ton_zero | apply cte_r_ton_nonzero]. Qed.

(* ================================================================= *)
(** * Properties of the loader *)

Lemma zf_getinfo_sound (members : list (string * result bytes)) (name : string)
    (r : result bytes) :
  zf_getinfo members name = Some r -> In (name, r) members.
Proof.
  induction members as [|[k v] members IH]; simpl; [discriminate|].
  destruct (zf_getinfo members name) as [r'|].
  - intros H. injection H as <-. right. now apply IH.
  - destruct (String.eqb_spec k name) as [->|_]; [|discriminate].
    intros H. injection H as <-. now left.
Qed.

Lemma zf_getinfo_complete (members : list (string * result bytes)) (name : string) :
  In name (map fst members) -> exists r, zf_getinfo members name = Some r.
Proof.
  induction members as [|[k v] members IH]; simpl; [contradiction|].
  intros H. destruct (zf_getinfo members name) as [r'|] eqn:E.
  - now exists r'.
  - destruct H as [->|H].
    + rewrite String.eqb_refl. now exists v.
    + destruct (IH H) as (r & Hr). discriminate.
Qed.

Lemma zf_read_sound (members : list (string * result bytes)) (name : string)
    (content : bytes) :
  zf_read members name = Ok content -> In (name, Ok content) members.
Proof.
  unfold zf_read. destruct (zf_getinfo members name) as [r|] eqn:E; [|discriminate].
  intros ->. now apply zf_getinfo_sound.
Qed.

Lemma zf_read_in (members : list (string * result bytes)) (name : string) :
  xml_members_readable members ->
  In name (map fst members) -> is_xml_name name = true ->
  exists content, zf_read members name = Ok content /\ In (name, Ok content) members.
Proof.
  intros Hread H Hx. destruct (zf_getinfo_complete members name H) as (r & Hr).
  pose proof (zf_getinfo_sound members name r Hr) as Hin.
  destruct (Hread name r Hin Hx) as (content & ->).
  exists content. split; [|exact Hin]. unfold zf_read. now rewrite Hr.
Qed.

Lemma zip_xml_members_ok (members : list (string * result bytes)) :
  xml_members_readable members ->
  exists pairs,
    zip_xml_members members = Ok pairs /\
    map fst pairs = filter is_xml_name (map fst members) /\
    (forall name content, In (name, content) pairs -> In (name, Ok content) members).
Proof.
  intros Hread. unfold zip_xml_members.
  assert (Hsub : forall name, In name (filter is_xml_name (map fst members)) ->
                              In name (map fst members) /\ is_xml_name name = true).
  { intros name H. now apply filter_In in H. }
  induction (filter is_xml_name (map fst members)) as [|name names IH]; simpl.
  - exists []. repeat split. intros ? ? [].
  - destruct (Hsub name (or_introl eq_refl)) as [Hin Hx].
    destruct (zf_read_in members name Hread Hin Hx) as (v & Hv & Hm).
    destruct IH as (pairs & Hp & Hn & Hc).
    { intros nm H. apply Hsub. now right. }
    rewrite Hv. cbn [bind]. rewrite Hp. cbn [bind].
    exists ((name, v) :: pairs). split; [reflexivity|]. split.
    + simpl. now rewrite Hn.
    + intros nm ct [H|H]; [injection H as <- <-; exact Hm | now apply Hc].
Qed.

(** C6, as amended.  An upload whose name ends in [.xml], in any letter
    case, is passed on as the single pair of its name and bytes.  Any
    other upload is opened as an archive; when its members that have an
    XML name can be read, it gives one pair per member whose name ends
    in [.xml], under the member's name and with the bytes of a member of
    that name, in the order of the archive; the other members give
    nothing.  The pairs of the uploads follow one another in the list
    returned.  An archive with two XML members and one other member
    gives exactly two pairs. *)
Theorem load_files_expands_archives (L : Lib) :
  (forall f, is_xml_name (up_name f) = true ->
     load_files L [f] = Ok [(up_name f, up_read f)]) /\
  (forall f members,
     is_xml_name (up_name f) = false -> ZipFile L (up_read f) = Ok members ->
     xml_members_readable members ->
     exists pairs,
       load_files L [f] = Ok pairs /\
       map fst pairs = filter is_xml_name (map fst members) /\
       (forall name content, In (name, content) pairs -> In (name, Ok content) members) /\
       (List.length (filter is_xml_name (map fst members)) = 2%nat ->
        List.length (filter (fun name => negb (is_xml_name name)) (map fst members)) = 1%nat ->
        List.length pairs = 2%nat)) /\
  (forall f fs p ps,
     load_files L [f] = Ok p -> load_files L fs = Ok ps ->
     load_files L (f :: fs) = Ok (p ++ ps)%list).
Proof.
  split; [|split].
  - intros f H. unfold load_files. cbn [mapM]. unfold expand. rewrite H. reflexivity.
  - intros f members Hx Hz Hread.
    destruct (zip_xml_members_ok members Hread) as (pairs & Hp & Hn & Hc).
    exists pairs. split; [|split; [exact Hn | split; [exact Hc|]]].
    + unfold load_files. cbn [mapM]. unfold expand. rewrite Hx, Hz. cbn [bind].
      rewrite Hp. cbn [bind List.concat]. now rewrite app_nil_r.
    + intros Hxml _. now rewrite <- (length_map fst), Hn.
  - intros f fs p ps. unfold load_files. cbn [mapM].
    destruct (expand L f) as [q|e]; cbn [bind]; [|discriminate].
    intros Hq. injection Hq as <-. rewrite app_nil_r.
    destruct (mapM (expand L) fs) as [qs|e]; cbn [bind]; [|discriminate].
    intros Hqs. injection Hqs as <-. reflexivity.
Qed.

Lemma load_files_expands_archives_witness :
  load_files Sample.lib [mk_upload "cte.XML" Sample.empty_input] = Ok [("cte.XML", Sample.empty_input)] /\
  exists pairs,
    load_files Sample.lib [mk_upload "lote.zip" Sample.archive] = Ok pairs /\
    map fst pairs = ["a.xml"; "pasta/B.XML"] /\ List.length pairs = 2%nat.
Proof.
  split.
  - apply (proj1 (load_files_expands_archives Sample.lib)). reflexivity.
  - destruct (proj1 (proj2 (load_files_expands_archives Sample.lib))
                (mk_upload "lote.zip" Sample.archive) Sample.archive_members
                eq_refl eq_refl) as (pairs & Hp & Hn & _ & Hlen).
    + intros name r [H|[H|[H|[]]]] _; injection H as _ <-; eexists; reflexivity.
    + exists pairs. split; [exact Hp|]. split; [exact Hn|].
      apply Hlen; reflexivity.
Defined.

(** C6, the claim as stated fails: an archive that opens and lists an
    XML member that cannot be read, here an encrypted one, gives no
    pairs; the loader raises what the read raises. *)
Lemma unreadable_member_raises :
  Sample.ref_ZipFile Sample.locked = Ok Sample.locked_members /\
  load_files Sample.lib [mk_upload "lote.zip" Sample.locked] = Raise RuntimeError.
Proof. split; vm_compute; reflexivity. Qed.

(* ================================================================= *)
(** * Properties of the join *)

(** The merged row of a manifest row and an invoice row: the cells of
    the first, then those of the second without its key. *)
Lemma merged_row_cells (l : cte_row) (r : nfe_row) :
  (cte_cells l ++ drop_nth 2 (nfe_cells r))%list =
  [ cte_Data l; cte_Mes_Ano l; cte_Numero l; cte_Emitente l; cte_UF_Orig l;
    cte_UF_Dest l; cte_Cidade_Dest l; cte_Frete l; cte_Peso l; cte_R_ton l;
    cte_Chave_NF l; cte_Arquivo l;
    nfe_Data r; nfe_Numero r; nfe_Emitente r; nfe_Destinatario r; nfe_Valor r;
    nfe_ICMS r; nfe_Transportadora r; nfe_CNPJ_Transp r; nfe_Tipo_Frete r;
    nfe_Arquivo r ].
Proof. reflexivity. Qed.

Lemma tab_merge_rows (cte : list cte_row) (nfe : list nfe_row) :
  tab_merge cte nfe =
  Ok {| columns :=
          [ "Data_CTE"; "Mês-Ano"; "Número CT-e"; "Emitente"; "UF Orig"; "UF Dest";
            "Cidade Dest"; "Frete (R$)"; "Peso (kg)"; "R$/ton"; "Chave NF";
            "Arquivo_CTE";
            "Data_NFE"; "Número NF"; "Emitente NF"; "Destinatário"; "Valor NF (R$)";
            "ICMS (R$)"; "Transportadora"; "CNPJ Transp"; "Tipo Frete"; "Arquivo_NFE" ];
        rows :=
          flat_map (fun l =>
            flat_map (fun r =>
              if String.eqb (cte_Chave_NF l) (nfe_Chave_NF r)
              then [(cte_cells l ++ drop_nth 2 (nfe_cells r))%list] else [])
              nfe)
            cte |}.
Proof.
  unfold tab_merge, merge.
  change (index_of "Chave NF" (columns (df_cte cte))) with (Some 10%nat).
  change (index_of "Chave NF" (columns (df_nfe nfe))) with (Some 2%nat).
  cbv iota. f_equal. f_equal.
  cbn [rows df_cte df_nfe].
  induction cte as [|l cte IH]; [reflexivity|].
  cbn [map flat_map]. rewrite IH. f_equal.
  clear IH. induction nfe as [|r nfe IH]; [reflexivity|].
  cbn [map flat_map]. rewrite IH. reflexivity.
Qed.

(** C5.  The join of the manifest table and the invoice table has a row
    exactly for every pair of a manifest row and an invoice row that
    carry the same key string, so the key of a merged row occurs in
    both tables; the columns [Data] and [Arquivo], which both tables
    have, get the suffixes [_CTE] and [_NFE], and the key column occurs
    once.  Manifest keys [A], [B] against invoice keys [B], [C] give
    exactly one merged row, with key [B]. *)
Theorem tab_merge_inner_join (cte : list cte_row) (nfe : list nfe_row) :
  exists m,
    tab_merge cte nfe = Ok m /\
    columns m =
      [ "Data_CTE"; "Mês-Ano"; "Número CT-e"; "Emitente"; "UF Orig"; "UF Dest";
        "Cidade Dest"; "Frete (R$)"; "Peso (kg)"; "R$/ton"; "Chave NF";
        "Arquivo_CTE";
        "Data_NFE"; "Número NF"; "Emitente NF"; "Destinatário"; "Valor NF (R$)";
        "ICMS (R$)"; "Transportadora"; "CNPJ Transp"; "Tipo Frete"; "Arquivo_NFE" ] /\
    (forall row, In row (rows m) <->
       exists l r, In l cte /\ In r nfe /\ cte_Chave_NF l = nfe_Chave_NF r /\
                   row = (cte_cells l ++ drop_nth 2 (nfe_cells r))%list) /\
    (forall row, In row (rows m) ->
       In (cell 10 row) (map cte_Chave_NF cte) /\
       In (cell 10 row) (map nfe_Chave_NF nfe)) /\
    (map cte_Chave_NF cte = ["A"; "B"] -> map nfe_Chave_NF nfe = ["B"; "C"] ->
       exists row, rows m = [row] /\ cell 10 row = "B").
Proof.
  eexists. split; [apply tab_merge_rows|]. cbn [columns rows].
  split; [reflexivity|].
  assert (Hrows : forall row,
    In row (flat_map (fun l => flat_map (fun r =>
              if String.eqb (cte_Chave_NF l) (nfe_Chave_NF r)
              then [(cte_cells l ++ drop_nth 2 (nfe_cells r))%list] else []) nfe) cte) <->
    exists l r, In l cte /\ In r nfe /\ cte_Chave_NF l = nfe_Chave_NF r /\
                row = (cte_cells l ++ drop_nth 2 (nfe_cells r))%list).
  { intros row. rewrite in_flat_map. split.
    - intros (l & Hl & H). apply in_flat_map in H as (r & Hr & H).
      destruct (String.eqb_spec (cte_Chave_NF l) (nfe_Chave_NF r)) as [E|_]; [|contradiction].
      destruct H as [<-|[]]. exists l, r. auto.
    - intros (l & r & Hl & Hr & E & ->). exists l. split; [exact Hl|].
      apply in_flat_map. exists r. split; [exact Hr|].
      rewrite E, String.eqb_refl. now left. }
  split; [exact Hrows|]. split.
  - intros row H. apply Hrows in H as (l & r & Hl & Hr & E & ->).
    rewrite merged_row_cells. cbn [cell nth]. split.
    + now apply in_map.
    + rewrite E. now apply in_map.
  - intros Hc Hn.
    destruct cte as [|l1 [|l2 [|? ?]]]; try discriminate.
    destruct nfe as [|r1 [|r2 [|? ?]]]; try discriminate.
    injection Hc as Hl1 Hl2. injection Hn as Hr1 Hr2.
    cbn [flat_map app]. rewrite Hl1, Hl2, Hr1, Hr2.
    eexists. split; [reflexivity|].
    rewrite merged_row_cells. cbn [cell nth]. exact Hl2.
Qed.

Lemma tab_merge_inner_join_witness :
  exists m row,
    tab_merge [Sample.cte_row_of "A"; Sample.cte_row_of "B"]
              [Sample.nfe_row_of "B"; Sample.nfe_row_of "C"] = Ok m /\
    rows m = [row] /\ cell 10 row = "B".
Proof.
  destruct (tab_merge_inner_join
              [Sample.cte_row_of "A"; Sample.cte_row_of "B"]
              [Sample.nfe_row_of "B"; Sample.nfe_row_of "C"])
    as (m & Hm & _ & _ & _ & Hex).
  destruct (Hex eq_refl eq_refl) as (row & Hrow & Hkey).
  exists m, row. auto.
Defined.

(* ================================================================= *)
(** * Further properties of the field formatters *)

(** The lookup of [frete_tipo], key by key. *)
Lemma frete_tipo_chain (code : string) :
  frete_tipo code =
  if String.eqb "0" (strip code) then "CIF (Emitente)"
  else if String.eqb "1" (strip code) then "FOB (Destinat.)"
  else if String.eqb "2" (strip code) then "Terceiros"
  else if String.eqb "3" (strip code) then "Sem frete"
  else if String.eqb "4" (strip code) then "Sem frete"
  else if String.eqb "9" (strip code) then "Sem frete"
  else or_else code "--".
Proof. reflexivity. Qed.

(** X1.  The freight label is never the empty string: an empty code
    gives ["--"].  A label is its own label: applying [frete_tipo] to
    its result changes nothing. *)
Theorem frete_tipo_label_fixed :
  (forall code, frete_tipo code <> "") /\
  (forall code, frete_tipo (frete_tipo code) = frete_tipo code).
Proof.
  split; intros code; rewrite (frete_tipo_chain code).
  - destruct (String.eqb "0" (strip code)); [discriminate|].
    destruct (String.eqb "1" (strip code)); [discriminate|].
    destruct (String.eqb "2" (strip code)); [discriminate|].
    destruct (String.eqb "3" (strip code)); [discriminate|].
    destruct (String.eqb "4" (strip code)); [discriminate|].
    destruct (String.eqb "9" (strip code)); [discriminate|].
    destruct code; cbn [or_else is_empty]; discriminate.
  - destruct (String.eqb "0" (strip code)) eqn:E0; [reflexivity|].
    destruct (String.eqb "1" (strip code)) eqn:E1; [reflexivity|].
    destruct (String.eqb "2" (strip code)) eqn:E2; [reflexivity|].
    destruct (String.eqb "3" (strip code)) eqn:E3; [reflexivity|].
    destruct (String.eqb "4" (strip code)) eqn:E4; [reflexivity|].
    destruct (String.eqb "9" (strip code)) eqn:E9; [reflexivity|].
    destruct code as [|a code]; [reflexivity|].
    cbn [or_else is_empty]. rewrite frete_tipo_chain.
    rewrite E0, E1, E2, E3, E4, E9. reflexivity.
Qed.

(** ** Separators in a numeric text *)

Lemma count_char_app (c : ascii) (a b : string) :
  count_char c (a ++ b) = (count_char c a + count_char c b)%nat.
Proof. induction a as [|x a IH]; simpl; [reflexivity | rewrite IH; lia]. Qed.

Lemma count_char_avoids (c : ascii) (s : string) :
  avoids c s = true <-> count_char c s = 0%nat.
Proof.
  induction s as [|x s IH]; simpl; [tauto|].
  destruct (Ascii.eqb x c); simpl; [split; [discriminate | lia] | exact IH].
Qed.

Lemma count_char_lstrip_by (p : ascii -> bool) (c : ascii) (s : string) :
  p c = false -> count_char c (lstrip_by p s) = count_char c s.
Proof.
  intros Hc. induction s as [|x s IH]; [reflexivity|].
  cbn [lstrip_by]. destruct (p x) eqn:Hx; [|reflexivity].
  rewrite IH. cbn [count_char].
  destruct (Ascii.eqb_spec x c) as [->|_]; [congruence | reflexivity].
Qed.

Lemma count_char_rstrip_by (p : ascii -> bool) (c : ascii) (s : string) :
  p c = false -> count_char c (rstrip_by p s) = count_char c s.
Proof.
  intros Hc. induction s as [|x s IH]; [reflexivity|].
  cbn [rstrip_by count_char]. rewrite <- IH.
  destruct (rstrip_by p s) as [|y r]; cbn [is_empty andb]; [|reflexivity].
  destruct (p x) eqn:Hx; [|reflexivity].
  destruct (Ascii.eqb_spec x c) as [->|_]; [congruence | reflexivity].
Qed.

(** What the reader leaves alone.  A character [c] that is no digit, no
    underscore, no sign, no exponent mark, no white space and no letter
    of the words stays in the text that remains to be read; the point
    is such a character but for the one point that a number has. *)
Section Inert.
Variable c : ascii.
Hypothesis c_digit : is_digit c = false.
Hypothesis c_underscore : Ascii.eqb "_" c = false.
Hypothesis c_minus : Ascii.eqb "-" c = false.
Hypothesis c_plus : Ascii.eqb "+" c = false.
Hypothesis c_e : Ascii.eqb "e" c = false.
Hypothesis c_E : Ascii.eqb "E" c = false.
Hypothesis c_space : is_c_space c = false.
Hypothesis c_lower : forall x, Ascii.eqb (lower_char x) c = Ascii.eqb x c.
Hypothesis c_infinity : count_char c "infinity" = 0%nat.
Hypothesis c_nan : count_char c "nan" = 0%nat.

Lemma count_lower (s : string) : count_char c (lower s) = count_char c s.
Proof.
  induction s as [|x s IH]; [reflexivity|].
  cbn [lower count_char]. now rewrite IH, c_lower.
Qed.

Lemma count_digitpart_tail (s : string) :
  count_char c (snd (digitpart_tail s)) = count_char c s /\
  forall d, count_char c (snd (digitpart_tail (String d s))) = count_char c (String d s).
Proof.
  induction s as [|x s [IH1 IH2]].
  - split; [reflexivity|]. intros d. cbn [digitpart_tail].
    destruct (is_digit d) eqn:Hd.
    + cbn [snd count_char]. now rewrite (digit_neq d c Hd c_digit).
    + destruct (Ascii.eqb d "_"); reflexivity.
  - split; [apply IH2|]. intros d.
    cbn [digitpart_tail]. destruct (is_digit d) eqn:Hd.
    + specialize (IH2 x). cbn [digitpart_tail] in IH2.
      destruct (is_digit x) eqn:Hx.
      * destruct (digitpart_tail s) as [ds r]. cbn [snd] in *.
        cbn [count_char] in *. now rewrite (digit_neq d c Hd c_digit).
      * cbn [count_char]. rewrite (digit_neq d c Hd c_digit).
        destruct (Ascii.eqb x "_"); [|exact IH2].
        destruct s as [|y s]; [exact IH2|].
        destruct (is_digit y); [|exact IH2].
        destruct (digitpart_tail s) as [ds r]. exact IH2.
    + destruct (Ascii.eqb_spec d "_") as [->|_]; [|reflexivity].
      destruct (is_digit x) eqn:Hx; [|reflexivity].
      destruct (digitpart_tail s) as [ds r]. cbn [snd] in *.
      cbn [count_char]. rewrite (digit_neq x c Hx c_digit), c_underscore.
      exact IH1.
Qed.

Lemma count_digitpart (s : string) :
  count_char c (snd (digitpart s)) = count_char c s.
Proof.
  destruct s as [|x s]; [reflexivity|]. cbn [digitpart].
  destruct (is_digit x) eqn:Hx; [|reflexivity].
  pose proof (proj1 (count_digitpart_tail s)) as H.
  destruct (digitpart_tail s) as [ds r]. cbn [snd] in *.
  cbn [count_char]. now rewrite (digit_neq x c Hx c_digit).
Qed.

Lemma count_read_sign (s : string) :
  count_char c (snd (read_sign s)) = count_char c s.
Proof.
  destruct s as [|x s]; [reflexivity|]. cbn [read_sign].
  destruct (Ascii.eqb_spec x "-") as [->|_];
    [cbn [snd count_char]; now rewrite c_minus|].
  destruct (Ascii.eqb_spec x "+") as [->|_];
    [cbn [snd count_char]; now rewrite c_plus | reflexivity].
Qed.

Lemma count_read_exponent (s r : string) (e : Z) :
  read_exponent s = Some (e, r) -> count_char c r = count_char c s.
Proof.
  destruct s as [|x s]; cbn [read_exponent].
  - intros H. now injection H as _ <-.
  - destruct (Ascii.eqb x "e" || Ascii.eqb x "E") eqn:Hx.
    + pose proof (count_read_sign s) as Hs.
      destruct (read_sign s) as [neg s1]. cbn [snd] in Hs.
      pose proof (count_digitpart s1) as Hd.
      destruct (digitpart s1) as [ds r1]. cbn [snd] in Hd.
      destruct (is_empty ds); [discriminate|].
      intros H. injection H as _ <-. cbn [count_char].
      replace (Ascii.eqb x c) with false; [now rewrite Hd, Hs|].
      apply orb_true_iff in Hx as [Hx|Hx]; apply Ascii.eqb_eq in Hx; subst x;
        [now rewrite c_e | now rewrite c_E].
    + intros H. now injection H as _ <-.
Qed.

Lemma count_read_fraction (s : string) :
  (count_char c s <=
   (if Ascii.eqb "." c then 1 else 0) + count_char c (snd (read_fraction s)))%nat.
Proof.
  destruct s as [|x s]; [simpl; lia|]. cbn [read_fraction].
  destruct (Ascii.eqb_spec x ".") as [->|_].
  - rewrite count_digitpart. cbn [count_char]. lia.
  - cbn [snd]. lia.
Qed.

Lemma read_number_inert (s : string) :
  ((if Ascii.eqb "." c then 2 else 1) <= count_char c s)%nat -> read_number s = None.
Proof.
  intros H. unfold read_number.
  pose proof (count_digitpart s) as H1.
  destruct (digitpart s) as [ip r1]. cbn [snd] in H1.
  pose proof (count_read_fraction r1) as H2.
  destruct (read_fraction r1) as [fp r2]. cbn [snd] in H2.
  destruct (is_empty ip && is_empty fp); [reflexivity|].
  destruct (read_exponent r2) as [[e r3]|] eqn:E; [|reflexivity].
  apply count_read_exponent in E.
  destruct r3 as [|y r3]; [|reflexivity].
  simpl in E. destruct (Ascii.eqb "." c); lia.
Qed.

Lemma of_ascii_inert (s : string) :
  ((if Ascii.eqb "." c then 2 else 1) <= count_char c s)%nat ->
  of_ascii s = Raise ValueError.
Proof.
  intros H. unfold of_ascii.
  assert (Hs : count_char c (strip_by is_c_space s) = count_char c s).
  { unfold strip_by.
    now rewrite count_char_rstrip_by, count_char_lstrip_by by exact c_space. }
  pose proof (count_read_sign (strip_by is_c_space s)) as Hb.
  destruct (read_sign (strip_by is_c_space s)) as [neg body]. cbn [snd] in Hb.
  pose proof (count_lower body) as Hl.
  assert (Hpos : (1 <= count_char c body)%nat)
    by (destruct (Ascii.eqb "." c); lia).
  assert (c_inf : count_char c "inf" = 0%nat).
  { revert c_infinity. cbn [count_char].
    destruct (Ascii.eqb "i" c), (Ascii.eqb "n" c), (Ascii.eqb "f" c); simpl; lia. }
  destruct (String.eqb_spec (lower body) "inf") as [E|_];
    [rewrite E in Hl; lia|].
  destruct (String.eqb_spec (lower body) "infinity") as [E|_];
    [rewrite E in Hl; lia|].
  destruct (String.eqb_spec (lower body) "nan") as [E|_];
    [rewrite E in Hl; lia|].
  cbn [orb]. rewrite read_number_inert by lia. reflexivity.
Qed.

End Inert.

Lemma lower_char_point (x : ascii) : Ascii.eqb (lower_char x) "." = Ascii.eqb x ".".
Proof. destruct x as [[] [] [] [] [] [] [] []]; reflexivity. Qed.

Lemma lower_char_question (x : ascii) : Ascii.eqb (lower_char x) "?" = Ascii.eqb x "?".
Proof. destruct x as [[] [] [] [] [] [] [] []]; reflexivity. Qed.

(** A number has at most one point. *)
Lemma of_ascii_two_dots (s : string) :
  (2 <= count_char "." s)%nat -> of_ascii s = Raise ValueError.
Proof.
  intros H.
  apply (of_ascii_inert "."); first [reflexivity | exact lower_char_point | exact H].
Qed.

(** A number has no question mark. *)
Lemma of_ascii_question (s : string) :
  (1 <= count_char "?" s)%nat -> of_ascii s = Raise ValueError.
Proof.
  intros H.
  apply (of_ascii_inert "?"); first [reflexivity | exact lower_char_question | exact H].
Qed.

(** The first character of a text that is not empty: a single byte, or
    the bytes of a character outside ASCII, none of them below 128. *)
Lemma chars_cases (s : string) :
  s = "" \/
  exists tok rest,
    s = tok ++ rest /\ chars s = tok :: chars rest /\
    (String.length rest < String.length s)%nat /\
    ((exists a, tok = String a "") \/
     ((128 <= code_point tok)%N /\
      forall x, (N_of_ascii x < 128)%N -> count_char x tok = 0%nat)).
Proof.
  destruct s as [|a r1]; [now left | right].
  assert (Hne : forall y x, (N_of_ascii x < 128)%N -> (128 <= N_of_ascii y)%N ->
                            Ascii.eqb y x = false).
  { intros y x Hx Hy. destruct (Ascii.eqb_spec y x) as [->|_]; [lia | reflexivity]. }
  assert (Hcont : forall y, is_cont y = true -> (128 <= N_of_ascii y <= 191)%N).
  { intros y H. unfold is_cont in H. apply andb_true_iff in H as [H1 H2].
    apply N.leb_le in H1, H2. lia. }
  assert (Halone : exists tok rest,
            String a r1 = tok ++ rest /\ String a "" :: chars r1 = tok :: chars rest /\
            (String.length rest < String.length (String a r1))%nat /\
            ((exists a0, tok = String a0 "") \/
             ((128 <= code_point tok)%N /\
              forall x, (N_of_ascii x < 128)%N -> count_char x tok = 0%nat))).
  { exists (String a ""), r1. split; [reflexivity|]. split; [reflexivity|].
    split; [simpl; lia | left; now exists a]. }
  cbn [chars]. cbv zeta.
  destruct r1 as [|b r2]; [exact Halone|].
  destruct (((194 <=? N_of_ascii a) && (N_of_ascii a <=? 223))%N && is_cont b) eqn:C2.
  { apply andb_true_iff in C2 as [C2 Cb]. apply andb_true_iff in C2 as [Ca1 Ca2].
    apply N.leb_le in Ca1, Ca2. apply Hcont in Cb.
    exists (String a (String b "")), r2.
    split; [reflexivity|]. split; [reflexivity|]. split; [simpl; lia|]. right. split.
    - cbn [code_point]. lia.
    - intros x Hx. cbn [count_char]. rewrite !Hne by lia. reflexivity. }
  destruct r2 as [|c0 r3]; [exact Halone|].
  destruct (((224 <=? N_of_ascii a) && (N_of_ascii a <=? 239))%N
            && is_cont b && is_cont c0 && second_ok a b) eqn:C3.
  { apply andb_true_iff in C3 as [C3 Cs]. apply andb_true_iff in C3 as [C3 Cc].
    apply andb_true_iff in C3 as [C3 Cb]. apply andb_true_iff in C3 as [Ca1 Ca2].
    apply N.leb_le in Ca1, Ca2. apply Hcont in Cb, Cc.
    exists (String a (String b (String c0 ""))), r3.
    split; [reflexivity|]. split; [reflexivity|]. split; [simpl; lia|]. right. split.
    - cbn [code_point]. unfold second_ok in Cs.
      destruct (N.eqb_spec (N_of_ascii a) 224) as [E|E].
      + apply N.leb_le in Cs. lia.
      + lia.
    - intros x Hx. cbn [count_char]. rewrite !Hne by lia. reflexivity. }
  destruct r3 as [|d r4]; [exact Halone|].
  destruct (((240 <=? N_of_ascii a) && (N_of_ascii a <=? 244))%N
            && is_cont b && is_cont c0 && is_cont d && second_ok a b) eqn:C4;
    [|exact Halone].
  apply andb_true_iff in C4 as [C4 Cs]. apply andb_true_iff in C4 as [C4 Cd].
  apply andb_true_iff in C4 as [C4 Cc]. apply andb_true_iff in C4 as [C4 Cb].
  apply andb_true_iff in C4 as [Ca1 Ca2].
  apply N.leb_le in Ca1, Ca2. apply Hcont in Cb, Cc, Cd.
  exists (String a (String b (String c0 (String d "")))), r4.
  split; [reflexivity|]. split; [reflexivity|]. split; [simpl; lia|]. right. split.
  - cbn [code_point]. unfold second_ok in Cs.
    destruct (N.eqb_spec (N_of_ascii a) 224) as [E|_]; [lia|].
    destruct (N.eqb_spec (N_of_ascii a) 237) as [E|_]; [lia|].
    destruct (N.eqb_spec (N_of_ascii a) 240) as [E|E].
    + apply N.leb_le in Cs. lia.
    + lia.
  - intros x Hx. cbn [count_char]. rewrite !Hne by lia. reflexivity.
Qed.

Lemma to_decimal_digit (n d : N) : to_decimal n = Some d -> (d < 10)%N.
Proof.
  unfold to_decimal.
  destruct (List.find _ decimal_zeros) as [z|] eqn:E; [|discriminate].
  apply find_some in E as [_ E]. apply andb_true_iff in E as [E1 E2].
  apply N.leb_le in E1. apply N.ltb_lt in E2.
  intros H. injection H as <-. lia.
Qed.

(** The text rewritten has the points of the text, or a question
    mark. *)
Lemma transform_points (s : string) :
  (1 <= count_char "?" (transform (chars s)))%nat \/
  count_char "." (transform (chars s)) = count_char "." s.
Proof.
  remember (String.length s) as k eqn:Ek.
  assert (Hk : (String.length s <= k)%nat) by lia. clear Ek.
  revert s Hk. induction k as [|k IH]; intros s Hk.
  - destruct s; [now right | simpl in Hk; lia].
  - destruct (chars_cases s) as [->|(tok & rest & -> & Hc & Hlen & Htok)]; [now right|].
    rewrite Hc. cbn [transform].
    rewrite length_append in Hlen, Hk.
    specialize (IH rest ltac:(lia)).
    rewrite count_char_app.
    destruct (N.ltb_spec (code_point tok) 127) as [Hn|Hn].
    + destruct Htok as [(a & ->)|[Hhigh _]]; [|lia].
      cbn [code_point] in *.
      destruct (N.ltb_spec (N_of_ascii a) 128) as [Ha|Ha]; [|lia].
      rewrite ascii_N_embedding. cbn [count_char].
      destruct IH as [IH|IH]; [left; lia | right; lia].
    + assert (Hdot : count_char "." tok = 0%nat).
      { destruct Htok as [(a & ->)|[_ Hhigh]]; [|now apply Hhigh].
        cbn [count_char]. destruct (Ascii.eqb_spec a ".") as [->|_]; [|reflexivity].
        cbn [code_point] in Hn. simpl in Hn. lia. }
      rewrite Hdot.
      destruct (is_space (code_point tok)).
      * cbn [count_char]. destruct IH as [IH|IH]; [left; simpl in *; lia | right; simpl; lia].
      * destruct (to_decimal (code_point tok)) as [d|] eqn:Ed; [|left; simpl; lia].
        apply to_decimal_digit in Ed.
        assert (Hd : Ascii.eqb (ascii_of_N (48 + d)) "." = false /\
                     Ascii.eqb (ascii_of_N (48 + d)) "?" = false).
        { destruct (below_ten d Ed) as [E|[E|[E|[E|[E|[E|[E|[E|[E|E]]]]]]]]];
            subst d; split; reflexivity. }
        destruct Hd as [Hd1 Hd2]. cbn [count_char]. rewrite Hd1, Hd2.
        destruct IH as [IH|IH]; [left; lia | right; lia].
Qed.

Lemma of_string_two_dots (s : string) :
  (2 <= count_char "." s)%nat -> of_string s = Raise ValueError.
Proof.
  intros H. unfold of_string, to_ascii.
  destruct (is_ascii_text s); [now apply of_ascii_two_dots|].
  destruct (transform_points s) as [Hq|Hp].
  - now apply of_ascii_question.
  - apply of_ascii_two_dots. now rewrite Hp.
Qed.

Lemma count_replace_comma (s : string) :
  count_char "." (replace "," "." s) = (count_char "." s + count_char "," s)%nat.
Proof.
  induction s as [|x s IH]; [reflexivity|].
  cbn [replace count_char].
  destruct (Ascii.eqb_spec x ",") as [->|Hx].
  - cbn [append count_char]. rewrite IH. simpl. lia.
  - cbn [count_char]. rewrite IH. lia.
Qed.

Lemma count_comma_drop_dots (s : string) :
  count_char "," (replace "." "" s) = count_char "," s.
Proof.
  induction s as [|x s IH]; [reflexivity|].
  cbn [replace count_char].
  destruct (Ascii.eqb_spec x ".") as [->|Hx].
  - cbn [append]. rewrite IH. reflexivity.
  - cbn [count_char]. now rewrite IH.
Qed.

Lemma count_dot_drop_dots (s : string) :
  count_char "." (replace "." "" s) = 0%nat.
Proof.
  induction s as [|x s IH]; [reflexivity|].
  cbn [replace]. destruct (Ascii.eqb x ".") eqn:Hx; [exact IH|].
  cbn [count_char]. now rewrite Hx, IH.
Qed.

Lemma count_positive_nonempty (c : ascii) (s : string) :
  (1 <= count_char c s)%nat -> is_empty s = false.
Proof. destruct s; simpl; [lia | reflexivity]. Qed.

(** X2.  A numeric text holds one decimal mark at most, comma or point
    alike: on a text with two or more of them, as in a number written
    with group separators, [xml_float] and [br_money] raise
    [ValueError]. *)
Theorem separators_are_not_read (s : string) :
  (2 <= count_char "." s + count_char "," s)%nat ->
  xml_float (Some s) = Raise ValueError /\ br_money (inr s) = Raise ValueError.
Proof.
  intros H.
  assert (Hv : of_string (replace "," "." s) = Raise ValueError).
  { apply of_string_two_dots. rewrite count_replace_comma. exact H. }
  split.
  - unfold xml_float. destruct s as [|x s]; [simpl in H; lia|].
    cbn [is_empty]. exact Hv.
  - unfold br_money. rewrite Hv. reflexivity.
Qed.

Lemma separators_are_not_read_witness :
  xml_float (Some "1.234,56") = Raise ValueError /\
  br_money (inr "1.234,56") = Raise ValueError.
Proof. apply (separators_are_not_read "1.234,56"). simpl. lia. Defined.

Lemma replace_comma_twice (s : string) :
  replace "," "." (replace "." "," s) = replace "," "." s.
Proof.
  induction s as [|x s IH]; [reflexivity|].
  cbn [replace].
  destruct (Ascii.eqb_spec x ".") as [->|Hx].
  - cbn [append replace Ascii.eqb Bool.eqb]. now rewrite IH.
  - cbn [replace]. destruct (Ascii.eqb x ","); now rewrite IH.
Qed.

(** X3.  [xml_float] does not tell a decimal comma from a decimal
    point: the text with every point written as a comma reads the same.
    On a text that is not empty [br_money] reads as [xml_float] does;
    on the empty text [xml_float] gives zero and [br_money] raises
    [ValueError]. *)
Theorem comma_reads_as_point :
  (forall s, xml_float (Some (replace "." "," s)) = xml_float (Some s)) /\
  (forall s, s <> "" ->
     br_money (inr s) = (x <- xml_float (Some s) ;; br_money (inl x))) /\
  xml_float (Some "") = Ok float_zero /\
  br_money (inr "") = Raise ValueError.
Proof.
  split; [|split; [|split; reflexivity]].
  - intros s. unfold xml_float. rewrite replace_comma_twice.
    destruct s as [|x s]; [reflexivity|].
    cbn [replace]. destruct (Ascii.eqb x "."); reflexivity.
  - intros s Hs. destruct s as [|x s]; [congruence|].
    unfold br_money, xml_float. cbn [is_empty].
    destruct (of_string (replace "," "." (String x s))); reflexivity.
Qed.

Lemma comma_reads_as_point_witness :
  br_money (inr "12,5") = (x <- xml_float (Some "12,5") ;; br_money (inl x)).
Proof. apply (proj1 (proj2 comma_reads_as_point)). discriminate. Defined.

(** X4.  [str_to_float_br] drops a point wherever it stands, so that a
    text with a decimal point reads as the number without it; a text of
    points only raises [ValueError], unlike the empty text, which gives
    zero; two commas raise [ValueError]; and on a text without a point
    [str_to_float_br] reads as [xml_float] does. *)
Theorem str_to_float_br_drops_points :
  (forall a b, a ++ b <> "" ->
     str_to_float_br (a ++ String "." b) = str_to_float_br (a ++ b)) /\
  (forall s, s <> "" -> replace "." "" s = "" -> str_to_float_br s = Raise ValueError) /\
  (forall s, (2 <= count_char "," s)%nat -> str_to_float_br s = Raise ValueError) /\
  (forall s, count_char "." s = 0%nat -> str_to_float_br s = xml_float (Some s)).
Proof.
  split; [|split; [|split]].
  - intros a b Hne. unfold str_to_float_br.
    assert (E : replace "." "" (a ++ String "." b) = replace "." "" (a ++ b)).
    { rewrite !replace_app. reflexivity. }
    rewrite E.
    replace (is_empty (a ++ String "." b)) with false by (now destruct a).
    destruct (a ++ b); [congruence | reflexivity].
  - intros s Hne E. unfold str_to_float_br. rewrite E.
    destruct s; [congruence | reflexivity].
  - intros s H. unfold str_to_float_br.
    rewrite (count_positive_nonempty "," s) by lia.
    apply of_string_two_dots.
    rewrite count_replace_comma, count_comma_drop_dots, count_dot_drop_dots. exact H.
  - intros s H. unfold str_to_float_br, xml_float.
    rewrite (replace_avoids "." "" s) by now apply count_char_avoids.
    reflexivity.
Qed.

Lemma str_to_float_br_drops_points_witness :
  str_to_float_br ("1" ++ String "." "5") = str_to_float_br ("1" ++ "5") /\
  str_to_float_br ".." = Raise ValueError /\
  str_to_float_br "1,2,3" = Raise ValueError /\
  str_to_float_br "12,5" = xml_float (Some "12,5").
Proof.
  split; [|split; [|split]].
  - apply (proj1 str_to_float_br_drops_points). discriminate.
  - apply (proj1 (proj2 str_to_float_br_drops_points)); [discriminate | reflexivity].
  - apply (proj1 (proj2 (proj2 str_to_float_br_drops_points))). simpl. lia.
  - apply (proj2 (proj2 (proj2 str_to_float_br_drops_points))). reflexivity.
Defined.

(** ** Reading back the text of an amount *)

Lemma group3_short (sep : ascii) (s : string) :
  (String.length s <= 3)%nat -> group3 sep s = s.
Proof.
  destruct s as [|a [|b [|d [|x s]]]]; simpl; try reflexivity. lia.
Qed.

Lemma group3_long (sep : ascii) (s : string) :
  (4 <= String.length s)%nat -> (1 <= count_char sep (group3 sep s))%nat.
Proof.
  induction s as [|x s IH]; [simpl; lia|].
  intros H. cbn [group3].
  destruct (boundary (String.length s)) eqn:B.
  - cbn [count_char]. rewrite Ascii.eqb_refl. lia.
  - cbn [count_char].
    assert (String.length s <> 3%nat) by (intros E; rewrite E in B; discriminate).
    cbn [String.length] in H.
    assert (1 <= count_char sep (group3 sep s))%nat by (apply IH; lia). lia.
Qed.

Lemma digit_val_below_ten (x : ascii) : is_digit x = true -> (digit_val x < 10)%N.
Proof.
  unfold is_digit, digit_val. intros H.
  apply andb_true_iff in H as [H1 H2]. apply N.leb_le in H1, H2. lia.
Qed.

Lemma digits_val_bound (ds : string) (acc : N) :
  all_digits ds = true ->
  (digits_val acc ds < (acc + 1) * 10 ^ N.of_nat (String.length ds))%N.
Proof.
  revert acc. induction ds as [|x ds IH]; intros acc H.
  - simpl. lia.
  - cbn [all_digits] in H. apply andb_true_iff in H as [Hx Hds].
    cbn [digits_val String.length].
    specialize (IH (10 * acc + digit_val x)%N Hds).
    pose proof (digit_val_below_ten x Hx) as Hd.
    rewrite Nat2N.inj_succ, N.pow_succ_r'.
    remember (10 ^ N.of_nat (String.length ds))%N as P eqn:EP. clear EP.
    nia.
Qed.

(** The integer part of an amount has at most three digits exactly
    when it is below one thousand. *)
Lemma decimal_short (v : N) :
  (v < 1000)%N -> (String.length (decimal v) <= 3)%nat.
Proof.
  intros H.
  assert (A : forallb (fun i => (String.length (decimal (N.of_nat i)) <=? 3)%nat)
                      (seq 0 1000) = true) by (vm_compute; reflexivity).
  rewrite forallb_forall in A.
  specialize (A (N.to_nat v)). rewrite N2Nat.id in A.
  apply Nat.leb_le, A, in_seq. lia.
Qed.

Lemma decimal_long (v : N) :
  (1000 <= v)%N -> (4 <= String.length (decimal v))%nat.
Proof.
  intros H.
  destruct (le_lt_dec 4 (String.length (decimal v))) as [L|L]; [exact L|].
  pose proof (digits_val_bound (decimal v) 0 (all_digits_decimal v)) as B.
  rewrite digits_val_decimal in B.
  assert (10 ^ N.of_nat (String.length (decimal v)) <= 10 ^ 3)%N.
  { apply N.pow_le_mono_r; lia. }
  change (10 ^ 3)%N with 1000%N in *. lia.
Qed.

(** What [xml_float] and [br_money] hand to [float] on the text of an
    amount: the comma becomes a point, the group separators stay. *)
Lemma money_text_comma_to_point (s : bool) (k : N) :
  replace "," "." (money_text "." "," s k) = money_text "." "." s k.
Proof.
  unfold money_text.
  pose proof (all_digits_decimal (k / 100)) as HD.
  pose proof (two_digits_ok k) as HF.
  rewrite <- append_assoc.
  rewrite (replace_between "," "." (sign_text s ++ group3 "." (decimal (k / 100)))
             (two_digits (k mod 100))).
  - now rewrite append_assoc.
  - rewrite avoids_app, avoids_sign by reflexivity.
    apply avoids_group3; [reflexivity | now apply digits_avoid].
  - now apply digits_avoid.
Qed.

Lemma float_of_money_text (s : bool) (k : N) :
  of_string (replace "," "." (money_text "." "," s k)) =
  if (k <? 100000)%N then Ok (of_decimal s k (-2)) else Raise ValueError.
Proof.
  rewrite money_text_comma_to_point. unfold money_text.
  destruct (N.ltb_spec k 100000) as [H|H].
  - rewrite group3_short.
    + apply of_string_plain.
    + apply decimal_short. apply N.Div0.div_lt_upper_bound. lia.
  - apply of_string_two_dots.
    rewrite !count_char_app.
    assert (1 <= count_char "." (group3 "." (decimal (k / 100))))%nat.
    { apply group3_long, decimal_long. apply N.div_le_lower_bound; lia. }
    cbn [count_char]. rewrite Ascii.eqb_refl. lia.
Qed.

Lemma money_text_of_decimal (s : bool) (k : N) :
  (k < 2 ^ 52)%N ->
  br_money (inl (of_decimal s k (-2))) = Ok (money_text "." "," s k).
Proof.
  intros Hk. destruct k as [|p]; [destruct s; reflexivity|].
  destruct (cents_of_decimal s p) as (m & e & Ev & Ec).
  - change (2 ^ 52)%N with (Z.to_N (2 ^ 52)) in Hk. lia.
  - rewrite Ev, br_money_finite by reflexivity.
    cbn [signbit cents_of]. now rewrite Ec.
Qed.

(** X5.  The text that [br_money] writes for a finite number is read
    back by [xml_float] only below one thousand, where it has no group
    separator: it then gives the number rounded to two decimal places;
    from 1.000,00 up [xml_float] raises [ValueError]. *)
Theorem xml_float_reads_amounts_below_thousand (x : float) :
  is_finite x = true ->
  (t <- br_money (inl x) ;; xml_float (Some t)) =
  if (cents_of x <? 100000)%N then Ok (round2 x) else Raise ValueError.
Proof.
  intros H. rewrite (br_money_finite x H). cbn [bind].
  unfold xml_float. rewrite money_text_nonempty.
  apply float_of_money_text.
Qed.

Lemma xml_float_reads_amounts_below_thousand_witness :
  (t <- br_money (inl float_1234_5) ;; xml_float (Some t)) = Raise ValueError /\
  (t <- br_money (inl (of_Z 12)) ;; xml_float (Some t)) = Ok (round2 (of_Z 12)).
Proof.
  split.
  - exact (xml_float_reads_amounts_below_thousand float_1234_5 eq_refl).
  - exact (xml_float_reads_amounts_below_thousand (of_Z 12) eq_refl).
Defined.

(** X6.  [br_money] applied to a text that it wrote: below one
    thousand the text comes back unchanged; from 1.000,00 up the text
    has a group separator and [br_money] raises [ValueError]. *)
Theorem br_money_of_its_own_text (x : float) :
  is_finite x = true ->
  (t <- br_money (inl x) ;; br_money (inr t)) =
  if (cents_of x <? 100000)%N then br_money (inl x) else Raise ValueError.
Proof.
  intros H. rewrite (br_money_finite x H). cbn [bind].
  unfold br_money at 1. rewrite float_of_money_text.
  destruct (N.ltb_spec (cents_of x) 100000) as [Hk|Hk]; [|reflexivity].
  cbn [bind].
  change (Ok (swap_separators (format_comma_2f (of_decimal (signbit x) (cents_of x) (-2)))))
    with (br_money (inl (of_decimal (signbit x) (cents_of x) (-2)))).
  apply money_text_of_decimal.
  change (2 ^ 52)%N with 4503599627370496%N. lia.
Qed.

Lemma br_money_of_its_own_text_witness :
  (t <- br_money (inl float_1234_5) ;; br_money (inr t)) = Raise ValueError /\
  (t <- br_money (inl (of_Z 12)) ;; br_money (inr t)) = br_money (inl (of_Z 12)).
Proof.
  split.
  - exact (br_money_of_its_own_text float_1234_5 eq_refl).
  - exact (br_money_of_its_own_text (of_Z 12) eq_refl).
Defined.

(** X7.  The text that [br_weight] writes is read back by
    [str_to_float_br] for every float: a finite weight comes back
    rounded to two decimal places, an infinity and a NaN come back as
    they are. *)
Theorem str_to_float_br_reads_br_weight (x : float) :
  str_to_float_br (br_weight x) = Ok (if is_finite x then round2 x else x).
Proof.
  destruct (is_finite x) eqn:H.
  - unfold br_weight. rewrite (format_finite x H). unfold fixed2.
    rewrite swap_money_text. apply str_to_float_br_money_text.
  - destruct x as [s|s| |s m e]; try discriminate; [destruct s|]; reflexivity.
Qed.

(* ================================================================= *)
(** * Further properties of the extractors *)

(** ** Comprehensions that may raise *)

Lemma mapM_length {A B : Type} (f : A -> result B) (l : list A) (bs : list B) :
  mapM f l = Ok bs -> List.length bs = List.length l.
Proof.
  revert bs. induction l as [|a l IH]; intros bs; cbn [mapM].
  - intros H. now injection H as <-.
  - destruct (f a) as [b|e]; cbn [bind]; [|discriminate].
    destruct (mapM f l) as [bs'|e]; cbn [bind]; [|discriminate].
    intros H. injection H as <-. cbn [List.length]. now rewrite (IH bs').
Qed.

Lemma mapM_in {A B : Type} (f : A -> result B) (l : list A) (bs : list B) (b : B) :
  mapM f l = Ok bs -> In b bs -> exists a, In a l /\ f a = Ok b.
Proof.
  revert bs. induction l as [|a l IH]; intros bs; cbn [mapM].
  - intros H. injection H as <-. intros [].
  - destruct (f a) as [b0|e] eqn:Ea; cbn [bind]; [|discriminate].
    destruct (mapM f l) as [bs'|e]; cbn [bind]; [|discriminate].
    intros H. injection H as <-. intros [<-|Hb].
    + exists a. split; [now left | exact Ea].
    + destruct (IH bs' eq_refl Hb) as (a' & Ha' & Hf). exists a'. split; [now right | exact Hf].
Qed.

Lemma mapM_raise {A B : Type} (f : A -> result B) (l : list A) (e : exn) :
  mapM f l = Raise e -> exists a, In a l /\ f a = Raise e.
Proof.
  induction l as [|a l IH]; cbn [mapM]; [discriminate|].
  destruct (f a) as [b|e0] eqn:Ea; cbn [bind].
  - destruct (mapM f l) as [bs|e1]; cbn [bind]; [discriminate|].
    intros H. injection H as ->.
    destruct (IH eq_refl) as (a' & Ha' & Hf). exists a'. split; [now right | exact Hf].
  - intros H. injection H as ->. exists a. split; [now left | exact Ea].
Qed.

Lemma mapM_all_ok {A B : Type} (f : A -> result B) (l : list A) :
  (exists bs, mapM f l = Ok bs) <-> (forall a, In a l -> exists b, f a = Ok b).
Proof.
  split.
  - intros (bs & H) a Ha.
    destruct (f a) as [b|e] eqn:Ea; [now exists b|]. exfalso.
    revert bs H. induction l as [|a0 l IH]; [destruct Ha|].
    intros bs. cbn [mapM]. destruct Ha as [->|Ha].
    + rewrite Ea. discriminate.
    + destruct (f a0); cbn [bind]; [|discriminate].
      destruct (mapM f l) as [bs'|]; cbn [bind]; [|discriminate].
      intros _. exact (IH Ha bs' eq_refl).
  - induction l as [|a l IH]; intros H; [now exists []|].
    destruct (H a (or_introl eq_refl)) as (b & Hb).
    destruct IH as (bs & Hbs); [intros a' Ha'; apply H; now right|].
    exists (b :: bs). cbn [mapM]. now rewrite Hb, Hbs.
Qed.

Lemma mapM_post {A B : Type} (f g : A -> result B) (h : B -> B) (l : list A) :
  (forall a, g a = (b <- f a ;; Ok (h b))) ->
  mapM g l = (bs <- mapM f l ;; Ok (map h bs)).
Proof.
  intros H. induction l as [|a l IH]; [reflexivity|].
  cbn [mapM]. rewrite H, IH.
  destruct (f a) as [b|e]; cbn [bind]; [|reflexivity].
  destruct (mapM f l) as [bs|e]; reflexivity.
Qed.

(** ** What the extractors raise *)

Lemma of_string_raises (s : string) (e : exn) :
  of_string s = Raise e -> e = ValueError.
Proof.
  unfold of_string, of_ascii. destruct (read_sign _) as [neg body].
  destruct (_ || _); [discriminate|].
  destruct (String.eqb _ _); [discriminate|].
  destruct (read_number body) as [[m x]|]; [discriminate|].
  intros H. now injection H.
Qed.

Lemma xml_float_raises (t : option string) (e : exn) :
  xml_float t = Raise e -> e = ValueError.
Proof.
  destruct t as [s|]; [|discriminate]. unfold xml_float.
  destruct (is_empty s); [discriminate | apply of_string_raises].
Qed.

Lemma cte_peso_raises (L : Lib) (root : Element) (e : exn) :
  cte_peso L root = Raise e -> e = ValueError.
Proof.
  unfold cte_peso.
  destruct (mapM _ _) as [ws|e0] eqn:E; cbn [bind]; [discriminate|].
  intros H. injection H as ->.
  apply mapM_raise in E as (q & _ & Hq). now apply xml_float_raises in Hq.
Qed.

(** The value per ton raises only on a weight that is not zero while
    its thousandth is. *)
Lemma cte_r_ton_raises (frete peso : float) (e : exn) :
  cte_r_ton frete peso = Raise e ->
  e = ZeroDivisionError /\ PyFloat.truthy peso = true /\
  PyFloat.is_zero (SFdiv prec emax peso (of_Z 1000)) = true.
Proof.
  unfold cte_r_ton. destruct (PyFloat.truthy peso) eqn:Hp; [|discriminate].
  unfold truediv. change (PyFloat.is_zero (of_Z 1000)) with false. cbn [bind].
  destruct (PyFloat.is_zero (SFdiv prec emax peso (of_Z 1000))) eqn:Ht.
  - intros H. injection H as <-. auto.
  - discriminate.
Qed.

Lemma cte_linha_raises (L : Lib) (data n_cte emit uf_o uf_d cidade : string)
    (frete peso : float) (fname chave : string) (e : exn) :
  cte_linha L data n_cte emit uf_o uf_d cidade frete peso fname chave = Raise e ->
  e = ValueError \/
  (e = ZeroDivisionError /\ PyFloat.truthy peso = true /\
   PyFloat.is_zero (SFdiv prec emax peso (of_Z 1000)) = true).
Proof.
  unfold cte_linha. destruct (dmY_to_Ym L data); cbn [of_option bind].
  - rewrite br_money_float. cbn [bind].
    destruct (cte_r_ton frete peso) as [v|e0] eqn:E; cbn [bind]; [discriminate|].
    intros H. injection H as ->. right. now apply cte_r_ton_raises in E.
  - intros H. injection H as <-. now left.
Qed.

(** X8.  What [parse_cte] raises, and why: [AttributeError] exactly on
    a document without a root element; [ZeroDivisionError] only when
    the total weight is not zero while its thousandth is; otherwise
    [ValueError].  It raises nothing else. *)
Theorem parse_cte_exceptions (L : Lib) (raw : bytes) (fname : string) :
  (parse_cte L raw fname = Raise AttributeError <-> fromstring L raw = NoRoot) /\
  (parse_cte L raw fname = Raise ZeroDivisionError ->
     exists root peso,
       fromstring L raw = Root root /\ cte_peso L root = Ok peso /\
       PyFloat.truthy peso = true /\
       PyFloat.is_zero (SFdiv prec emax peso (of_Z 1000)) = true) /\
  (forall e, parse_cte L raw fname = Raise e ->
     e = AttributeError \/ e = ValueError \/ e = ZeroDivisionError).
Proof.
  assert (Hall : forall e, parse_cte L raw fname = Raise e ->
    (e = AttributeError /\ fromstring L raw = NoRoot) \/ e = ValueError \/
    (e = ZeroDivisionError /\ exists root peso,
       fromstring L raw = Root root /\ cte_peso L root = Ok peso /\
       PyFloat.truthy peso = true /\
       PyFloat.is_zero (SFdiv prec emax peso (of_Z 1000)) = true)).
  { intros e. unfold parse_cte.
    destruct (fromstring L raw) as [| |root]; [discriminate| |].
    - intros H. injection H as <-. now left.
    - destruct (find [Descendant (c "infCte")] root) as [inf|]; [|discriminate].
      destruct (iso_to_dmY L _) as [data|]; cbn [of_option bind];
        [|intros H; injection H as <-; right; now left].
      destruct (xml_float _) as [frete|e0] eqn:Ef; cbn [bind];
        [|intros H; injection H as ->; right; left; now apply xml_float_raises in Ef].
      destruct (cte_peso L root) as [peso|e0] eqn:Ep; cbn [bind];
        [|intros H; injection H as ->; right; left; now apply cte_peso_raises in Ep].
      intros H. apply mapM_raise in H as (chave & _ & H).
      apply cte_linha_raises in H as [->|(-> & Hp & Ht)]; [right; now left|].
      right; right. split; [reflexivity|]. exists root, peso. auto. }
  split; [|split].
  - split.
    + intros H. destruct (Hall _ H) as [[_ Hn]|[Hv|[Hz _]]]; [exact Hn | discriminate..].
    + intros H. unfold parse_cte. now rewrite H.
  - intros H. destruct (Hall _ H) as [[Ha _]|[Hv|[_ Hz]]]; [discriminate.. | exact Hz].
  - intros e H. destruct (Hall _ H) as [[Ha _]|[Hv|[Hz _]]]; auto.
Qed.

Lemma parse_cte_exceptions_witness :
  parse_cte (lib_of []) (Sample.b "<!-- -->") "a.xml" = Raise AttributeError.
Proof.
  apply (proj1 (parse_cte_exceptions (lib_of []) (Sample.b "<!-- -->") "a.xml")).
  reflexivity.
Defined.

Lemma cte_chaves_nonempty (root : Element) : cte_chaves root <> [].
Proof.
  unfold cte_chaves.
  destruct (map _ (findall [Descendant (c "infNFe")] root)); discriminate.
Qed.

(** X9.  [parse_cte] returns the empty list in the two guarded cases
    only: when the parser raises, and when the document has no
    manifest-info element.  Past the guards it raises or returns at
    least one row. *)
Theorem parse_cte_empty_iff_skipped (L : Lib) (raw : bytes) (fname : string) :
  parse_cte L raw fname = Ok [] <->
  fromstring L raw = Broken \/
  exists root, fromstring L raw = Root root /\
               find [Descendant (c "infCte")] root = None.
Proof.
  unfold parse_cte. split.
  - destruct (fromstring L raw) as [| |root]; [now left | discriminate|].
    destruct (find [Descendant (c "infCte")] root) as [inf|] eqn:Ef;
      [|intros _; right; exists root; split; [reflexivity | exact Ef]].
    destruct (of_option _ _); cbn [bind]; [|discriminate].
    destruct (xml_float _); cbn [bind]; [|discriminate].
    destruct (cte_peso L root); cbn [bind]; [|discriminate].
    intros H. apply mapM_length in H.
    pose proof (cte_chaves_nonempty root) as Hne.
    destruct (cte_chaves root); [congruence | discriminate].
  - intros [H|(root & H & Hf)]; rewrite H; [reflexivity | now rewrite Hf].
Qed.

Lemma cte_linha_fname (L : Lib) (data n_cte emit uf_o uf_d cidade : string)
    (frete peso : float) (f1 f2 chave : string) :
  cte_linha L data n_cte emit uf_o uf_d cidade frete peso f2 chave =
  (r <- cte_linha L data n_cte emit uf_o uf_d cidade frete peso f1 chave ;;
   Ok (cte_with_arquivo f2 r)).
Proof.
  unfold cte_linha. destruct (of_option _ _); cbn [bind]; [|reflexivity].
  destruct (br_money _); cbn [bind]; [|reflexivity].
  destruct (cte_r_ton frete peso); reflexivity.
Qed.

Lemma parse_cte_fname (L : Lib) (raw : bytes) (f1 f2 : string) :
  parse_cte L raw f2 =
  (rs <- parse_cte L raw f1 ;; Ok (map (cte_with_arquivo f2) rs)).
Proof.
  unfold parse_cte.
  destruct (fromstring L raw) as [| |root]; [reflexivity..|].
  destruct (find [Descendant (c "infCte")] root) as [inf|]; [|reflexivity].
  destruct (of_option _ _); cbn [bind]; [|reflexivity].
  destruct (xml_float _); cbn [bind]; [|reflexivity].
  destruct (cte_peso L root); cbn [bind]; [|reflexivity].
  apply mapM_post. intros chave. apply cte_linha_fname.
Qed.

Lemma parse_nfe_fname (L : Lib) (raw : bytes) (f1 f2 : string) :
  parse_nfe L raw f2 =
  (d <- parse_nfe L raw f1 ;; Ok (option_map (nfe_with_arquivo f2) d)).
Proof.
  unfold parse_nfe.
  destruct (fromstring L raw) as [| |root]; [reflexivity..|].
  cbv zeta.
  destruct (find [Descendant (n "infNFe")] (nfe_start root)) as [inf|]; [|reflexivity].
  destruct (deref (find [Child (n "ide")] inf)); cbn [bind]; [|reflexivity].
  destruct (of_option _ _); cbn [bind]; [|reflexivity].
  destruct (deref (find [Child (n "emit")] inf)); cbn [bind]; [|reflexivity].
  destruct (deref (find [Child (n "dest")] inf)); cbn [bind]; [|reflexivity].
  destruct (deref (find [Descendant (n "ICMSTot")] inf)); cbn [bind]; [|reflexivity].
  destruct (xml_float _); cbn [bind]; [|reflexivity].
  destruct (xml_float _); cbn [bind]; reflexivity.
Qed.

(** X10.  The file name is copied into the column [Arquivo] and plays
    no other part: under another name an extractor raises the same
    exception or returns the same rows with that name. *)
Theorem extractors_copy_the_file_name (L : Lib) (raw : bytes) (f1 f2 : string) :
  parse_cte L raw f2 =
    (rs <- parse_cte L raw f1 ;; Ok (map (cte_with_arquivo f2) rs)) /\
  parse_nfe L raw f2 =
    (d <- parse_nfe L raw f1 ;; Ok (option_map (nfe_with_arquivo f2) d)).
Proof. split; [apply parse_cte_fname | apply parse_nfe_fname]. Qed.

Lemma parse_cte_arquivo (L : Lib) (raw : bytes) (fname : string) (rs : list cte_row) :
  parse_cte L raw fname = Ok rs -> forall r, In r rs -> cte_Arquivo r = fname.
Proof.
  intros H r Hr.
  pose proof (parse_cte_fname L raw fname fname) as E.
  rewrite H in E. cbn [bind] in E. injection E as E. rewrite E in Hr.
  apply in_map_iff in Hr as (r' & <- & _). reflexivity.
Qed.

Lemma parse_nfe_arquivo (L : Lib) (raw : bytes) (fname : string) (r : nfe_row) :
  parse_nfe L raw fname = Ok (Some r) -> nfe_Arquivo r = fname.
Proof.
  intros H.
  pose proof (parse_nfe_fname L raw fname fname) as E.
  rewrite H in E. cbn [bind option_map] in E. injection E as E. now rewrite E.
Qed.

(** ** The invoice extractor *)







(** X13.  The wrapper of a processed invoice changes nothing: a
    document whose root is named [nfeProc] and whose first child is an
    [NFe] element that has children is read as the document whose root
    is that element. *)
Theorem parse_nfe_unwraps_nfeProc (L : Lib) (raw1 raw2 : bytes) (fname : string)
    (q : QName) (attrs : list (string * string)) (x : option string)
    (e : Element) (rest : list Element) :
  localname q = "nfeProc" ->
  tag e = n "NFe" -> children e <> [] ->
  fromstring L raw1 = Root (Elem q attrs x (e :: rest)) ->
  fromstring L raw2 = Root e ->
  parse_nfe L raw1 fname = parse_nfe L raw2 fname.
Proof.
  intros Hq Ht Hc H1 H2.
  assert (S1 : nfe_start (Elem q attrs x (e :: rest)) = e).
  { unfold nfe_start. cbn [tag]. rewrite Hq. cbn [String.eqb Ascii.eqb Bool.eqb].
    unfold find. rewrite findall_descendant. cbn [descendants flat_map app filter].
    unfold has_tag at 1. rewrite Ht.
    replace (qname_eqb (n "NFe") (n "NFe")) with true by reflexivity.
    cbn [hd_error]. unfold truthy. destruct (children e); [congruence | reflexivity]. }
  assert (S2 : nfe_start e = e).
  { unfold nfe_start. rewrite Ht. reflexivity. }
  unfold parse_nfe. rewrite H1, H2. cbv zeta. rewrite S1, S2. reflexivity.
Qed.

Lemma parse_nfe_unwraps_nfeProc_witness :
  parse_nfe (lib_of [Sample.nfe_official; first_child Sample.nfe_official])
            (Sample.raw_of Sample.nfe_official) "n.xml" =
  parse_nfe (lib_of [Sample.nfe_official; first_child Sample.nfe_official])
            (Sample.raw_of (first_child Sample.nfe_official)) "n.xml".
Proof.
  apply (parse_nfe_unwraps_nfeProc
           (lib_of [Sample.nfe_official; first_child Sample.nfe_official])
           (Sample.raw_of Sample.nfe_official)
           (Sample.raw_of (first_child Sample.nfe_official))
           "n.xml" (n "nfeProc") [] None
           (first_child Sample.nfe_official) []).
  - reflexivity.
  - reflexivity.
  - discriminate.
  - reflexivity.
  - reflexivity.
Defined.

(* ================================================================= *)
(** * Further properties of the loader and of the tables *)

Lemma in_concat_parts {A B : Type} (f : A -> result (list B)) (l : list A)
    (parts : list (list B)) (b : B) :
  mapM f l = Ok parts -> In b (List.concat parts) ->
  exists a bs, In a l /\ f a = Ok bs /\ In b bs.
Proof.
  intros H Hb. apply in_concat in Hb as (bs & Hbs & Hb).
  destruct (mapM_in f l parts bs H Hbs) as (a & Ha & Hf).
  exists a, bs. auto.
Qed.

(** X14.  The tables are gathered from all the files or not at all:
    the rows are there exactly when every file is extracted without an
    exception.  Every row then names one of the files in its column
    [Arquivo], and the invoice table has at most one row per file. *)
Theorem rows_need_every_file (L : Lib) (files : list (string * bytes)) :
  ((exists rs, rows_cte L files = Ok rs) <->
   (forall f, In f files -> exists rs, parse_cte L (snd f) (fst f) = Ok rs)) /\
  ((exists rs, rows_nfe L files = Ok rs) <->
   (forall f, In f files -> exists d, parse_nfe L (snd f) (fst f) = Ok d)) /\
  (forall rs, rows_cte L files = Ok rs ->
     forall r, In r rs -> In (cte_Arquivo r) (map fst files)) /\
  (forall rs, rows_nfe L files = Ok rs ->
     (forall r, In r rs -> In (nfe_Arquivo r) (map fst files)) /\
     (List.length rs <= List.length files)%nat).
Proof.
  split; [|split; [|split]].
  - rewrite <- mapM_all_ok. unfold rows_cte. split.
    + intros (rs & H). destruct (mapM _ files) as [parts|e]; [now exists parts | discriminate].
    + intros (parts & H). rewrite H. now eexists.
  - unfold rows_nfe. split.
    + intros (rs & H) f Hf.
      destruct (mapM _ files) as [parts|e] eqn:E; [|discriminate].
      assert (Hall : exists parts, mapM (fun f => d <- parse_nfe L (snd f) (fst f) ;;
                Ok match d with Some r => [r] | None => [] end) files = Ok parts)
        by now exists parts.
      rewrite mapM_all_ok in Hall. destruct (Hall f Hf) as (b & Hb).
      destruct (parse_nfe L (snd f) (fst f)) as [d|e]; [now exists d | discriminate].
    + intros H.
      assert (Hall : exists parts, mapM (fun f => d <- parse_nfe L (snd f) (fst f) ;;
                Ok match d with Some r => [r] | None => [] end) files = Ok parts).
      { apply mapM_all_ok. intros f Hf. destruct (H f Hf) as (d & Hd).
        rewrite Hd. now eexists. }
      destruct Hall as (parts & Hp). rewrite Hp. now eexists.
  - intros rs H r Hr. unfold rows_cte in H.
    destruct (mapM _ files) as [parts|e] eqn:E; [|discriminate].
    cbn [bind] in H. injection H as <-.
    destruct (in_concat_parts _ files parts r E Hr) as (f & bs & Hf & Hp & Hb).
    rewrite (parse_cte_arquivo L (snd f) (fst f) bs Hp r Hb). now apply in_map.
  - intros rs H. unfold rows_nfe in H.
    destruct (mapM _ files) as [parts|e] eqn:E; [|discriminate].
    cbn [bind] in H. injection H as <-. split.
    + intros r Hr.
      destruct (in_concat_parts _ files parts r E Hr) as (f & bs & Hf & Hp & Hb).
      destruct (parse_nfe L (snd f) (fst f)) as [[r'|]|e] eqn:Ep; cbn [bind] in Hp;
        [|injection Hp as <-; destruct Hb | discriminate].
      injection Hp as <-. destruct Hb as [<-|[]].
      rewrite (parse_nfe_arquivo L (snd f) (fst f) r' Ep). now apply in_map.
    + clear -E. revert parts E. induction files as [|f files IH]; intros parts; cbn [mapM].
      * intros H. injection H as <-. simpl. lia.
      * destruct (parse_nfe L (snd f) (fst f)) as [d|e]; cbn [bind]; [|discriminate].
        destruct (mapM _ files) as [ps|e]; cbn [bind]; [|discriminate].
        intros H. injection H as <-. specialize (IH ps eq_refl).
        cbn [List.concat List.length]. rewrite length_app.
        destruct d; cbn [List.length]; lia.
Qed.

Lemma rows_need_every_file_witness :
  exists rs,
    rows_cte Sample.lib [("a.xml", Sample.raw_of Sample.cte_two_keys);
                         ("b.xml", Sample.raw_of Sample.cte_no_key)] = Ok rs /\
    forall r, In r rs -> In (cte_Arquivo r) ["a.xml"; "b.xml"].
Proof.
  destruct (proj2 (proj1 (rows_need_every_file Sample.lib
              [("a.xml", Sample.raw_of Sample.cte_two_keys);
               ("b.xml", Sample.raw_of Sample.cte_no_key)]))) as (rs & Hrs).
  - intros f [<-|[<-|[]]]; eexists; vm_compute; reflexivity.
  - exists rs. split; [exact Hrs|].
    exact (proj1 (proj2 (proj2 (rows_need_every_file Sample.lib
              [("a.xml", Sample.raw_of Sample.cte_two_keys);
               ("b.xml", Sample.raw_of Sample.cte_no_key)]))) rs Hrs).
Defined.

(** ** The loader *)

Lemma zip_xml_members_names (members : list (string * result bytes))
    (pairs : list (string * bytes)) :
  zip_xml_members members = Ok pairs ->
  forall p, In p pairs -> is_xml_name (fst p) = true.
Proof.
  unfold zip_xml_members. intros H p Hp.
  destruct (mapM_in _ _ _ p H Hp) as (name & Hname & Hf).
  apply filter_In in Hname as [_ Hx].
  destruct (zf_read members name); cbn [bind] in Hf; [|discriminate].
  injection Hf as <-. exact Hx.
Qed.

Lemma zip_xml_members_all_ok (members : list (string * result bytes)) :
  (exists pairs, zip_xml_members members = Ok pairs) <->
  (forall name, In name (map fst members) -> is_xml_name name = true ->
     exists content, zf_read members name = Ok content).
Proof.
  unfold zip_xml_members. rewrite mapM_all_ok. split.
  - intros H name Hin Hx. destruct (H name) as (pr & Hpr); [apply filter_In; auto|].
    destruct (zf_read members name) as [ct|]; [now exists ct | discriminate].
  - intros H name Hn. apply filter_In in Hn as [Hin Hx].
    destruct (H name Hin Hx) as (ct & ->). now eexists.
Qed.

Lemma zip_xml_members_raises (members : list (string * result bytes)) (e : exn) :
  zip_xml_members members = Raise e ->
  exists name, In name (map fst members) /\ is_xml_name name = true /\
               zf_read members name = Raise e.
Proof.
  unfold zip_xml_members. intros H. apply mapM_raise in H as (name & Hn & Hf).
  apply filter_In in Hn as [Hin Hx]. exists name. split; [exact Hin|]. split; [exact Hx|].
  destruct (zf_read members name); cbn [bind] in Hf; [discriminate | congruence].
Qed.

Lemma expand_names (L : Lib) (f : upload) (pairs : list (string * bytes)) :
  expand L f = Ok pairs -> forall p, In p pairs -> is_xml_name (fst p) = true.
Proof.
  unfold expand. destruct (is_xml_name (up_name f)) eqn:Hx.
  - intros H. injection H as <-. intros p [<-|[]]. exact Hx.
  - destruct (ZipFile L (up_read f)) as [members|]; cbn [bind]; [|discriminate].
    apply zip_xml_members_names.
Qed.

Lemma expand_all_ok (L : Lib) (f : upload) :
  (exists pairs, expand L f = Ok pairs) <->
  (is_xml_name (up_name f) = false ->
   exists members,
     ZipFile L (up_read f) = Ok members /\
     forall name, In name (map fst members) -> is_xml_name name = true ->
       exists content, zf_read members name = Ok content).
Proof.
  unfold expand. destruct (is_xml_name (up_name f)).
  - split; [intros _ H; discriminate | intros _; now eexists].
  - destruct (ZipFile L (up_read f)) as [members|e]; cbn [bind].
    + rewrite zip_xml_members_all_ok. split.
      * intros H _. exists members. split; [reflexivity | exact H].
      * intros H. destruct (H eq_refl) as (members' & Hm & Hall).
        injection Hm as <-. exact Hall.
    + split; [intros (pairs & H); discriminate|].
      intros H. destruct (H eq_refl) as (members & Hm & _). discriminate.
Qed.

Lemma expand_raises (L : Lib) (f : upload) (e : exn) :
  expand L f = Raise e ->
  is_xml_name (up_name f) = false /\
  (ZipFile L (up_read f) = Raise e \/
   exists members name,
     ZipFile L (up_read f) = Ok members /\ In name (map fst members) /\
     is_xml_name name = true /\ zf_read members name = Raise e).
Proof.
  unfold expand. destruct (is_xml_name (up_name f)); [discriminate|].
  intros H. split; [reflexivity|].
  destruct (ZipFile L (up_read f)) as [members|e0]; cbn [bind] in H.
  - right. apply zip_xml_members_raises in H as (name & Hin & Hx & Hr).
    exists members, name. auto.
  - left. congruence.
Qed.

(** X15.  The loader returns pairs whose names end in [.xml] only.  It
    returns exactly when every upload that is not named [.xml] opens as
    an archive and each member of it that has an XML name is read.
    Otherwise it raises what the opening or the reading raised, such as
    [BadZipFile] on bytes that are no archive or [RuntimeError] on an
    encrypted member; one such upload is enough to lose the files of
    all the others. *)
Theorem load_files_names_and_failure (L : Lib) (up : list upload) :
  (forall files, load_files L up = Ok files ->
     forall p, In p files -> is_xml_name (fst p) = true) /\
  ((exists files, load_files L up = Ok files) <->
   (forall f, In f up -> is_xml_name (up_name f) = false ->
      exists members,
        ZipFile L (up_read f) = Ok members /\
        forall name, In name (map fst members) -> is_xml_name name = true ->
          exists content, zf_read members name = Ok content)) /\
  (forall e, load_files L up = Raise e ->
     exists f, In f up /\ is_xml_name (up_name f) = false /\
       (ZipFile L (up_read f) = Raise e \/
        exists members name,
          ZipFile L (up_read f) = Ok members /\ In name (map fst members) /\
          is_xml_name name = true /\ zf_read members name = Raise e)).
Proof.
  unfold load_files. split; [|split].
  - intros files H p Hp.
    destruct (mapM (expand L) up) as [parts|e] eqn:E; [|discriminate].
    cbn [bind] in H. injection H as <-.
    destruct (in_concat_parts _ up parts p E Hp) as (f & bs & _ & Hf & Hb).
    exact (expand_names L f bs Hf p Hb).
  - split.
    + intros (files & H) f Hin.
      destruct (mapM (expand L) up) as [parts|e] eqn:E; [|discriminate].
      assert (Hall : exists parts, mapM (expand L) up = Ok parts) by now exists parts.
      rewrite mapM_all_ok in Hall. now apply expand_all_ok, Hall.
    + intros H.
      assert (Hall : exists parts, mapM (expand L) up = Ok parts).
      { apply mapM_all_ok. intros f Hin. apply expand_all_ok. now apply H. }
      destruct Hall as (parts & Hp). rewrite Hp. now eexists.
  - intros e H.
    destruct (mapM (expand L) up) as [parts|e0] eqn:E; [discriminate|].
    cbn [bind] in H. injection H as ->.
    apply mapM_raise in E as (f & Hin & Hf). apply expand_raises in Hf as [Hx Hc].
    exists f. auto.
Qed.

Lemma load_files_names_and_failure_witness :
  exists f,
    In f [mk_upload "a.xml" Sample.empty_input; mk_upload "lote.zip" Sample.locked] /\
    is_xml_name (up_name f) = false /\
    (ZipFile Sample.lib (up_read f) = Raise RuntimeError \/
     exists members name,
       ZipFile Sample.lib (up_read f) = Ok members /\ In name (map fst members) /\
       is_xml_name name = true /\ zf_read members name = Raise RuntimeError).
Proof.
  apply (proj2 (proj2 (load_files_names_and_failure Sample.lib
           [mk_upload "a.xml" Sample.empty_input; mk_upload "lote.zip" Sample.locked]))).
  vm_compute. reflexivity.
Defined.

(** ** Names that end in [.xml] *)

Lemma length_lower (s : string) : String.length (lower s) = String.length s.
Proof. induction s as [|x s IH]; simpl; [reflexivity | now rewrite IH]. Qed.

Lemma lower_app (a b : string) : lower (a ++ b) = lower a ++ lower b.
Proof. induction a as [|x a IH]; simpl; [reflexivity | now rewrite IH]. Qed.

Lemma substring_all (s : string) : substring 0 (String.length s) s = s.
Proof. induction s as [|x s IH]; simpl; [reflexivity | now rewrite IH]. Qed.

Lemma substring_app_suffix (a b : string) :
  substring (String.length a) (String.length b) (a ++ b) = b.
Proof. induction a as [|x a IH]; simpl; [apply substring_all | exact IH]. Qed.

Lemma split_suffix (s : string) (k : nat) :
  (k <= String.length s)%nat -> exists a b, s = a ++ b /\ String.length b = k.
Proof.
  induction s as [|x s IH]; intros H.
  - exists "", "". simpl in *. split; [reflexivity | lia].
  - destruct (Nat.eq_dec k (String.length (String x s))) as [->|Hk].
    + exists "", (String x s). split; reflexivity.
    + destruct IH as (a & b & -> & Hb); [simpl in *; lia|].
      exists (String x a), b. split; [reflexivity | exact Hb].
Qed.

Lemma is_xml_name_suffix (stem ext : string) :
  String.length ext = 4%nat ->
  is_xml_name (stem ++ ext) = String.eqb (lower ext) ".xml".
Proof.
  intros H. unfold is_xml_name, endswith.
  rewrite lower_app, length_append, !length_lower, H.
  change (String.length ".xml") with 4%nat.
  replace (String.length stem + 4 - 4)%nat with (String.length (lower stem))
    by (rewrite length_lower; lia).
  replace (4 <=? String.length stem + 4)%nat with true
    by (symmetry; apply Nat.leb_le; lia).
  replace 4%nat with (String.length (lower ext)) at 1 by (now rewrite length_lower).
  now rewrite substring_app_suffix.
Qed.

Lemma is_xml_name_short (name : string) :
  (String.length name < 4)%nat -> is_xml_name name = false.
Proof.
  intros H. unfold is_xml_name, endswith. rewrite length_lower.
  change (String.length ".xml") with 4%nat.
  replace (4 <=? String.length name)%nat with false; [reflexivity|].
  symmetry. apply Nat.leb_gt. exact H.
Qed.

(** X16.  The loader takes a name for that of an XML file exactly when
    it ends in [.xml] written in any mix of upper and lower case: the
    last four characters decide, whatever stands before them, and a
    name of fewer than four characters is never one. *)
Theorem is_xml_name_last_four (name : string) :
  (is_xml_name name = true <->
   exists stem ext, name = stem ++ ext /\ lower ext = ".xml") /\
  (forall stem ext, name = stem ++ ext -> String.length ext = 4%nat ->
     is_xml_name name = String.eqb (lower ext) ".xml") /\
  ((String.length name < 4)%nat -> is_xml_name name = false).
Proof.
  split; [|split].
  - split.
    + intros H.
      destruct (le_lt_dec 4 (String.length name)) as [Hl|Hl];
        [|rewrite is_xml_name_short in H by exact Hl; discriminate].
      destruct (split_suffix name 4 Hl) as (stem & ext & -> & He).
      rewrite (is_xml_name_suffix stem ext He) in H.
      exists stem, ext. split; [reflexivity | now apply String.eqb_eq].
    + intros (stem & ext & -> & He).
      rewrite is_xml_name_suffix.
      * now apply String.eqb_eq.
      * rewrite <- length_lower, He. reflexivity.
  - intros stem ext -> He. now apply is_xml_name_suffix.
  - apply is_xml_name_short.
Qed.

Lemma is_xml_name_last_four_witness :
  is_xml_name "pasta/Nota.XmL" = true /\ is_xml_name "nota.xml.zip" = false.
Proof.
  split.
  - apply (proj1 (is_xml_name_last_four "pasta/Nota.XmL")).
    exists "pasta/Nota", ".XmL". split; reflexivity.
  - exact (proj1 (proj2 (is_xml_name_last_four "nota.xml.zip")) "nota.xml" ".zip"
             eq_refl eq_refl).
Defined.

(** ** The join *)

Lemma count_if_app {A : Type} (p : A -> bool) (l1 l2 : list A) :
  count_if p (l1 ++ l2)%list = (count_if p l1 + count_if p l2)%nat.
Proof. unfold count_if. now rewrite filter_app, length_app. Qed.

Lemma count_if_cons {A : Type} (p : A -> bool) (a : A) (l : list A) :
  count_if p (a :: l) = ((if p a then 1 else 0) + count_if p l)%nat.
Proof. unfold count_if. cbn [filter]. destruct (p a); reflexivity. Qed.

(** The rows that one manifest row gives in the join. *)
Lemma count_joined_with (l : cte_row) (nfe : list nfe_row) (k : string) :
  count_if (fun row => String.eqb (cell 10 row) k)
    (flat_map (fun r =>
       if String.eqb (cte_Chave_NF l) (nfe_Chave_NF r)
       then [(cte_cells l ++ drop_nth 2 (nfe_cells r))%list] else []) nfe) =
  if String.eqb (cte_Chave_NF l) k
  then count_if (fun r => String.eqb (nfe_Chave_NF r) k) nfe else 0%nat.
Proof.
  induction nfe as [|r nfe IH].
  - destruct (String.eqb (cte_Chave_NF l) k); reflexivity.
  - cbn [flat_map]. rewrite count_if_app, IH, count_if_cons.
    destruct (String.eqb_spec (cte_Chave_NF l) (nfe_Chave_NF r)) as [E|E].
    + rewrite count_if_cons. rewrite merged_row_cells. cbn [cell nth].
      change (count_if _ []) with 0%nat. rewrite <- E.
      destruct (String.eqb (cte_Chave_NF l) k); lia.
    + change (count_if _ []) with 0%nat.
      destruct (String.eqb_spec (cte_Chave_NF l) k) as [Ek|Ek]; [|reflexivity].
      destruct (String.eqb_spec (nfe_Chave_NF r) k) as [Er|Er]; [congruence | reflexivity].
Qed.

(** X17.  The join is a table: each of its rows has one cell per
    column, twenty-two.  Keys multiply: a key carried by [a] rows of
    the manifest table and [b] rows of the invoice table is carried by
    [a * b] rows of the join, so a manifest or an invoice loaded twice
    doubles its rows there. *)
Theorem tab_merge_multiplies_keys (cte : list cte_row) (nfe : list nfe_row) :
  exists m,
    tab_merge cte nfe = Ok m /\
    (forall row, In row (rows m) ->
       List.length row = List.length (columns m) /\ List.length row = 22%nat) /\
    (forall k,
       count_if (fun row => String.eqb (cell 10 row) k) (rows m) =
       (count_if (fun l => String.eqb (cte_Chave_NF l) k) cte *
        count_if (fun r => String.eqb (nfe_Chave_NF r) k) nfe)%nat).
Proof.
  eexists. split; [apply tab_merge_rows|]. cbn [columns rows]. split.
  - intros row H. apply in_flat_map in H as (l & _ & H).
    apply in_flat_map in H as (r & _ & H).
    destruct (String.eqb (cte_Chave_NF l) (nfe_Chave_NF r)); [|destruct H].
    destruct H as [<-|[]]. split; reflexivity.
  - intros k. induction cte as [|l cte IH]; [reflexivity|].
    cbn [flat_map]. rewrite count_if_app, IH, count_joined_with, count_if_cons.
    destruct (String.eqb (cte_Chave_NF l) k); lia.
Qed.

(* ================================================================= *)
(** * Properties of the page script *)

Lemma run_tab_cte_stores (L : Lib) (s s' : session) (up : list upload)
    (v : option DataFrame) :
  run_tab_cte L s up = Ok (s', v) ->
  st_df_nfe s' = st_df_nfe s /\
  match v with
  | Some d => st_df_cte s' = Some d /\ exists rs, rs <> [] /\ d = df_cte rs
  | None => st_df_cte s' = st_df_cte s
  end.
Proof.
  unfold run_tab_cte.
  destruct (load_files L up) as [files|e]; cbn [bind]; [|discriminate].
  destruct (rows_cte L files) as [[|r rs]|e]; cbn [bind]; [| |discriminate].
  - intros H. injection H as <- <-. split; reflexivity.
  - intros H. injection H as <- <-. split; [reflexivity|].
    split; [reflexivity|]. exists (r :: rs). split; [discriminate | reflexivity].
Qed.

Lemma run_tab_nfe_stores (L : Lib) (s s' : session) (up : list upload)
    (v : option DataFrame) :
  run_tab_nfe L s up = Ok (s', v) ->
  st_df_cte s' = st_df_cte s /\
  match v with
  | Some d => st_df_nfe s' = Some d /\ exists rs, rs <> [] /\ d = df_nfe rs
  | None => st_df_nfe s' = st_df_nfe s
  end.
Proof.
  unfold run_tab_nfe.
  destruct (load_files L up) as [files|e]; cbn [bind]; [|discriminate].
  destruct (rows_nfe L files) as [[|r rs]|e]; cbn [bind]; [| |discriminate].
  - intros H. injection H as <- <-. split; reflexivity.
  - intros H. injection H as <- <-. split; [reflexivity|].
    split; [reflexivity|]. exists (r :: rs). split; [discriminate | reflexivity].
Qed.

Lemma reachable_session_ok (L : Lib) (s : session) : reachable L s -> session_ok s.
Proof.
  induction 1 as [|s s' up v _ [IHc IHn] H|s s' up v _ [IHc IHn] H].
  - split; intros d H; discriminate.
  - apply run_tab_cte_stores in H as [Hn Hc]. split.
    + intros d Hd. destruct v as [d'|].
      * destruct Hc as [Hs Hrs]. rewrite Hs in Hd. injection Hd as <-. exact Hrs.
      * rewrite Hc in Hd. now apply IHc.
    + intros d Hd. rewrite Hn in Hd. now apply IHn.
  - apply run_tab_nfe_stores in H as [Hc Hn]. split.
    + intros d Hd. rewrite Hc in Hd. now apply IHc.
    + intros d Hd. destruct v as [d'|].
      * destruct Hn as [Hs Hrs]. rewrite Hs in Hd. injection Hd as <-. exact Hrs.
      * rewrite Hn in Hd. now apply IHn.
Qed.

(** X18.  In every session that runs of the script lead to, a stored
    table is the table of rows that were extracted, not empty and with
    the columns of its kind; so the join tab never raises for want of
    the key column: it asks for both tables while one is missing, and
    shows the join with the count of its rows once both are stored. *)
Theorem join_tab_never_raises (L : Lib) (s : session) :
  reachable L s ->
  session_ok s /\
  ((st_df_cte s = None \/ st_df_nfe s = None) /\ run_tab_merge s = Ok NeedBoth \/
   exists cte nfe m,
     st_df_cte s = Some (df_cte cte) /\ st_df_nfe s = Some (df_nfe nfe) /\
     cte <> [] /\ nfe <> [] /\
     tab_merge cte nfe = Ok m /\
     run_tab_merge s = Ok (Matched m (List.length (rows m)))).
Proof.
  intros H. pose proof (reachable_session_ok L s H) as Hok.
  split; [exact Hok|]. destruct Hok as [Hc Hn]. unfold run_tab_merge.
  destruct (st_df_cte s) as [dc|]; [|left; split; [now left | reflexivity]].
  destruct (st_df_nfe s) as [dn|]; [|left; split; [now right | reflexivity]].
  destruct (Hc dc eq_refl) as (cte & Hcte & ->).
  destruct (Hn dn eq_refl) as (nfe & Hnfe & ->).
  right. exists cte, nfe.
  fold (tab_merge cte nfe). rewrite tab_merge_rows.
  eexists. repeat (split; [reflexivity || assumption|]). reflexivity.
Qed.

Lemma join_tab_never_raises_witness :
  session_ok loaded_session /\
  exists cte nfe m,
    st_df_cte loaded_session = Some (df_cte cte) /\
    st_df_nfe loaded_session = Some (df_nfe nfe) /\
    run_tab_merge loaded_session = Ok (Matched m (List.length (rows m))).
Proof.
  destruct (join_tab_never_raises Sample.lib loaded_session)
    as [Hok [[[H|H] _]|(cte & nfe & m & Hc & Hn & _ & _ & _ & Hm)]].
  - eapply (reach_nfe Sample.lib _ _ [mk_upload "n.xml" (Sample.raw_of Sample.nfe_official)]).
    + eapply (reach_cte Sample.lib _ _
                [mk_upload "a.xml" (Sample.raw_of Sample.cte_two_keys)]).
      * apply reach_new.
      * vm_compute. reflexivity.
    + vm_compute. reflexivity.
  - vm_compute in H. discriminate.
  - vm_compute in H. discriminate.
  - split; [exact Hok|]. exists cte, nfe, m. auto.
Defined.

(** X19.  A run keeps what it does not replace.  After a run that
    raises nothing, each stored table is the one this run showed in
    its tab, or, when the files of the tab gave no row, the one that
    was stored before; the join shown is that of the tables stored at
    the end of the run.  A table once stored is never removed. *)
Theorem run_script_keeps_tables (L : Lib) (s s' : session) (up_cte up_nfe : list upload)
    (p : page) :
  run_script L s up_cte up_nfe = Ok (s', p) ->
  st_df_cte s' = match shown_cte p with Some d => Some d | None => st_df_cte s end /\
  st_df_nfe s' = match shown_nfe p with Some d => Some d | None => st_df_nfe s end /\
  run_tab_merge s' = Ok (shown_join p) /\
  (st_df_cte s <> None -> st_df_cte s' <> None) /\
  (st_df_nfe s <> None -> st_df_nfe s' <> None).
Proof.
  unfold run_script.
  destruct (run_tab_cte L s up_cte) as [[s1 v1]|e] eqn:E1; cbn [bind fst snd]; [|discriminate].
  destruct (run_tab_nfe L s1 up_nfe) as [[s2 v2]|e] eqn:E2; cbn [bind fst snd]; [|discriminate].
  destruct (run_tab_merge s2) as [v|e] eqn:E3; cbn [bind]; [|discriminate].
  intros H. injection H as <- <-. cbn [shown_cte shown_nfe shown_join].
  apply run_tab_cte_stores in E1 as [N1 C1].
  apply run_tab_nfe_stores in E2 as [C2 N2].
  assert (Hc : st_df_cte s2 = match v1 with Some d => Some d | None => st_df_cte s end).
  { rewrite C2. destruct v1; [apply C1 | exact C1]. }
  assert (Hn : st_df_nfe s2 = match v2 with Some d => Some d | None => st_df_nfe s end).
  { rewrite <- N1. destruct v2; [apply N2 | exact N2]. }
  split; [exact Hc|]. split; [exact Hn|]. split; [exact E3|]. split.
  - intros Hs. rewrite Hc. destruct v1; [discriminate | exact Hs].
  - intros Hs. rewrite Hn. destruct v2; [discriminate | exact Hs].
Qed.

(** X20.  A run whose files give no row at all, as a run with no
    upload does, shows no table in the two upload tabs, leaves the
    session as it was, and the join tab still shows the join of the
    tables stored by earlier runs. *)
Theorem run_without_rows_joins_stored_tables (L : Lib) (s : session)
    (up_cte up_nfe : list upload) (fc fn : list (string * bytes)) (v : join_view) :
  load_files L up_cte = Ok fc -> rows_cte L fc = Ok [] ->
  load_files L up_nfe = Ok fn -> rows_nfe L fn = Ok [] ->
  run_tab_merge s = Ok v ->
  run_script L s up_cte up_nfe = Ok (s, mk_page None None v).
Proof.
  intros Hfc Hrc Hfn Hrn Hv. unfold run_script, run_tab_cte, run_tab_nfe.
  rewrite Hfc. cbn [bind]. rewrite Hrc. cbn [bind fst snd].
  rewrite Hfn. cbn [bind]. rewrite Hrn. cbn [bind fst snd].
  rewrite Hv. reflexivity.
Qed.

Lemma run_script_keeps_tables_witness :
  exists s' p,
    run_script Sample.lib new_session
      [mk_upload "a.xml" (Sample.raw_of Sample.cte_two_keys)]
      [mk_upload "n.xml" (Sample.raw_of Sample.nfe_official)] = Ok (s', p) /\
    st_df_cte s' = shown_cte p /\ st_df_nfe s' = shown_nfe p /\
    run_tab_merge s' = Ok (shown_join p).
Proof.
  eexists. eexists. split; [vm_compute; reflexivity|].
  destruct (run_script_keeps_tables Sample.lib new_session _
              [mk_upload "a.xml" (Sample.raw_of Sample.cte_two_keys)]
              [mk_upload "n.xml" (Sample.raw_of Sample.nfe_official)] _
              ltac:(vm_compute; reflexivity)) as (Hc & Hn & Hj & _).
  split; [exact Hc|]. split; [exact Hn | exact Hj].
Defined.

Lemma run_without_rows_joins_stored_tables_witness :
  exists m,
    run_script Sample.lib (session_of [Sample.cte_row_of "B"] [Sample.nfe_row_of "B"])
      [mk_upload "x.xml" (Sample.raw_of Sample.other_kind)] [] =
    Ok (session_of [Sample.cte_row_of "B"] [Sample.nfe_row_of "B"],
        mk_page None None (Matched m 1)).
Proof.
  eexists.
  apply (run_without_rows_joins_stored_tables Sample.lib
           (session_of [Sample.cte_row_of "B"] [Sample.nfe_row_of "B"])
           [mk_upload "x.xml" (Sample.raw_of Sample.other_kind)] []
           [("x.xml", Sample.raw_of Sample.other_kind)] []).
  - reflexivity.
  - vm_compute. reflexivity.
  - reflexivity.
  - reflexivity.
  - vm_compute. reflexivity.
Defined.

(** ** Rows file by file, and an archive as its members *)

Lemma mapM_app {A B : Type} (f : A -> result B) (l1 l2 : list A) :
  mapM f (l1 ++ l2)%list =
  (b1 <- mapM f l1 ;; b2 <- mapM f l2 ;; Ok (b1 ++ b2)%list).
Proof.
  induction l1 as [|a l1 IH]; cbn [mapM app bind].
  - destruct (mapM f l2); reflexivity.
  - destruct (f a) as [b|e]; cbn [bind]; [|reflexivity].
    rewrite IH. destruct (mapM f l1) as [b1|e]; cbn [bind]; [|reflexivity].
    destruct (mapM f l2); reflexivity.
Qed.

(** X21.  The tables are gathered file by file and in the order of the
    files: the rows of a list of files followed by another are the rows
    of the first followed by those of the second, and what is raised is
    the exception of the first file that raises. *)
Theorem rows_follow_the_files (L : Lib) (files1 files2 : list (string * bytes)) :
  rows_cte L (files1 ++ files2)%list =
    (r1 <- rows_cte L files1 ;; r2 <- rows_cte L files2 ;; Ok (r1 ++ r2)%list) /\
  rows_nfe L (files1 ++ files2)%list =
    (r1 <- rows_nfe L files1 ;; r2 <- rows_nfe L files2 ;; Ok (r1 ++ r2)%list).
Proof.
  split.
  - unfold rows_cte. rewrite mapM_app.
    destruct (mapM _ files1) as [p1|e]; cbn [bind]; [|reflexivity].
    destruct (mapM _ files2) as [p2|e]; cbn [bind]; [|reflexivity].
    now rewrite concat_app.
  - unfold rows_nfe. rewrite mapM_app.
    destruct (mapM _ files1) as [p1|e]; cbn [bind]; [|reflexivity].
    destruct (mapM _ files2) as [p2|e]; cbn [bind]; [|reflexivity].
    now rewrite concat_app.
Qed.

Lemma zf_getinfo_unique (members : list (string * result bytes)) (name : string)
    (r : result bytes) :
  NoDup (map fst members) -> In (name, r) members -> zf_getinfo members name = Some r.
Proof.
  induction members as [|[k v] members IH]; [intros _ []|].
  cbn [map fst]. intros Hnd Hin. apply NoDup_cons_iff in Hnd as [Hk Hnd].
  cbn [zf_getinfo]. destruct Hin as [E|Hin].
  - injection E as -> ->.
    destruct (zf_getinfo members name) as [r'|] eqn:Er.
    + apply zf_getinfo_sound in Er. exfalso. apply Hk.
      change name with (fst (name, r')). now apply in_map.
    + now rewrite String.eqb_refl.
  - now rewrite (IH Hnd Hin).
Qed.

Lemma zip_loop_unique (members ms : list (string * result bytes)) :
  (forall m, In m ms -> zf_getinfo members (fst m) = Some (snd m)) ->
  xml_members_readable ms ->
  exists pairs,
    mapM (fun name => b <- zf_read members name ;; Ok (name, b))
         (filter is_xml_name (map fst ms)) = Ok pairs /\
    map (fun p => (fst p, Ok (snd p))) pairs = filter (fun m => is_xml_name (fst m)) ms.
Proof.
  induction ms as [|[k v] ms IH]; intros Hall Hread; [now exists []|].
  destruct IH as (pairs & Hp & Hm).
  { intros m Hm. apply Hall. now right. }
  { intros name r Hin. apply Hread. now right. }
  cbn [map fst filter]. destruct (is_xml_name k) eqn:Hx.
  - destruct (Hread k v (or_introl eq_refl) Hx) as (content & ->).
    pose proof (Hall (k, Ok content) (or_introl eq_refl)) as Hk. cbn [fst snd] in Hk.
    exists ((k, content) :: pairs). cbn [mapM]. unfold zf_read at 1. rewrite Hk.
    cbn [bind]. rewrite Hp. cbn [bind map fst snd]. now rewrite Hm.
  - now exists pairs.
Qed.

Lemma load_files_xml_uploads (L : Lib) (pairs : list (string * bytes)) :
  (forall m, In m pairs -> is_xml_name (fst m) = true) ->
  load_files L (as_uploads pairs) = Ok pairs.
Proof.
  intros H. unfold load_files, as_uploads.
  induction pairs as [|[k v] pairs IH]; [reflexivity|].
  cbn [map mapM fst snd]. unfold expand at 1. cbn [up_name up_read].
  pose proof (H (k, v) (or_introl eq_refl)) as Hk. cbn [fst] in Hk.
  rewrite Hk. cbn [bind].
  destruct (mapM (expand L) _) as [parts|e]; cbn [bind] in *.
  - specialize (IH (fun m Hm => H m (or_intror Hm))). injection IH as IH.
    cbn [List.concat app]. now rewrite IH.
  - specialize (IH (fun m Hm => H m (or_intror Hm))). discriminate.
Qed.

(** X22.  An archive whose members have distinct names and whose
    members with an XML name can be read is loaded as those members
    uploaded one by one would be: the pairs are the XML members with
    their contents, in the order of the archive, and uploading them as
    files gives the same list. *)
Theorem archive_loads_as_its_members (L : Lib) (f : upload)
    (members : list (string * result bytes)) :
  is_xml_name (up_name f) = false ->
  ZipFile L (up_read f) = Ok members ->
  NoDup (map fst members) ->
  xml_members_readable members ->
  exists pairs,
    load_files L [f] = Ok pairs /\
    map (fun p => (fst p, Ok (snd p))) pairs =
      filter (fun m => is_xml_name (fst m)) members /\
    load_files L [f] = load_files L (as_uploads pairs).
Proof.
  intros Hx Hz Hnd Hread.
  destruct (zip_loop_unique members members) as (pairs & Hp & Hm).
  { intros [k v] Hin. now apply zf_getinfo_unique. }
  { exact Hread. }
  assert (E : load_files L [f] = Ok pairs).
  { unfold load_files. cbn [mapM]. unfold expand. rewrite Hx, Hz. cbn [bind].
    unfold zip_xml_members. rewrite Hp. cbn [bind List.concat].
    now rewrite app_nil_r. }
  exists pairs. split; [exact E|]. split; [exact Hm|].
  rewrite E. symmetry. apply load_files_xml_uploads.
  intros m Hin.
  assert (Hin' : In (fst m, @Ok bytes (snd m)) (map (fun p => (fst p, Ok (snd p))) pairs)).
  { apply in_map_iff. now exists m. }
  rewrite Hm in Hin'. now apply filter_In in Hin' as [_ Hin'].
Qed.

Lemma archive_loads_as_its_members_witness :
  exists pairs,
    load_files Sample.lib [mk_upload "lote.zip" Sample.archive] = Ok pairs /\
    map (fun p => (fst p, Ok (snd p))) pairs =
      [ ("a.xml", Ok (Sample.raw_of Sample.cte_two_keys));
        ("pasta/B.XML", Ok (Sample.raw_of Sample.cte_no_key)) ] /\
    load_files Sample.lib [mk_upload "lote.zip" Sample.archive] =
    load_files Sample.lib (as_uploads pairs).
Proof.
  apply (archive_loads_as_its_members Sample.lib (mk_upload "lote.zip" Sample.archive)
           Sample.archive_members).
  - reflexivity.
  - reflexivity.
  - repeat constructor; simpl; intuition discriminate.
  - intros name r [H|[H|[H|[]]]] _; injection H as _ <-; eexists; reflexivity.
Defined.

(** ** Values that a manifest does not declare *)

Lemma cte_linha_fields (L : Lib) (data n_cte emit uf_o uf_d cidade : string)
    (frete peso : float) (fname chave : string) (r : cte_row) :
  cte_linha L data n_cte emit uf_o uf_d cidade frete peso fname chave = Ok r ->
  br_money (inl frete) = Ok (cte_Frete r) /\
  cte_Peso r = br_weight peso /\
  cte_r_ton frete peso = Ok (cte_R_ton r).
Proof.
  unfold cte_linha. destruct (of_option _ _); cbn [bind]; [|discriminate].
  rewrite br_money_float. cbn [bind].
  destruct (cte_r_ton frete peso); cbn [bind]; [|discriminate].
  intros H. injection H as <-. repeat split.
Qed.

(** X23.  Values that a manifest does not declare count as zero.  In
    the rows of a manifest without a freight value the freight is
    [0,00]; in the rows of a manifest without a weight declaration the
    weight is [0,00] and the value per ton is empty. *)
Theorem parse_cte_undeclared_values (L : Lib) (raw : bytes) (fname : string)
    (root inf : Element) (rs : list cte_row) :
  (forall s, Permutation (set_order L s) s) ->
  fromstring L raw = Root root ->
  find [Descendant (c "infCte")] root = Some inf ->
  parse_cte L raw fname = Ok rs ->
  (find [Descendant (c "vTPrest")] inf = None ->
     forall r, In r rs -> cte_Frete r = "0,00") /\
  (findall [Descendant (c "qCarga")] root = [] ->
     forall r, In r rs -> cte_Peso r = "0,00" /\ cte_R_ton r = "").
Proof.
  intros Hperm Hroot Hinf. unfold parse_cte. rewrite Hroot, Hinf.
  destruct (of_option _ _) as [data|]; cbn [bind]; [|discriminate].
  destruct (xml_float _) as [frete|] eqn:Ef; cbn [bind]; [|discriminate].
  destruct (cte_peso L root) as [peso|] eqn:Ep; cbn [bind]; [|discriminate].
  intros H. split.
  - intros Hnone r Hr.
    destruct (mapM_in _ _ _ r H Hr) as (chave & _ & Hl).
    apply cte_linha_fields in Hl as (Hfr & _ & _).
    unfold findtext in Ef. rewrite Hnone in Ef.
    assert (frete = S754_zero false) as -> by (vm_compute in Ef; congruence).
    change (br_money (inl (S754_zero false))) with (@Ok string "0,00") in Hfr.
    congruence.
  - intros Hnone r Hr.
    destruct (mapM_in _ _ _ r H Hr) as (chave & _ & Hl).
    apply cte_linha_fields in Hl as (_ & Hp & Ht).
    unfold cte_peso in Ep. rewrite Hnone in Ep. cbn [mapM bind] in Ep.
    change (py_set []) with (@nil float) in Ep.
    rewrite (Permutation_nil (Permutation_sym (Hperm []))) in Ep.
    injection Ep as <-. split; [rewrite Hp; reflexivity|].
    rewrite cte_r_ton_zero in Ht by reflexivity. congruence.
Qed.

Lemma parse_cte_undeclared_values_witness :
  exists r,
    parse_cte (lib_of [cte_bare]) (Sample.raw_of cte_bare) "c.xml" = Ok [r] /\
    cte_Frete r = "0,00" /\ cte_Peso r = "0,00" /\ cte_R_ton r = "".
Proof.
  eexists. split; [vm_compute; reflexivity|].
  destruct (parse_cte_undeclared_values (lib_of [cte_bare]) (Sample.raw_of cte_bare) "c.xml"
              cte_bare (first_child cte_bare) _
              (fun s => Permutation_refl s) eq_refl eq_refl
              ltac:(vm_compute; reflexivity)) as [Hf Hp].
  split; [exact (Hf eq_refl _ (or_introl eq_refl))|].
  exact (Hp eq_refl _ (or_introl eq_refl)).
Defined.

(** ** The key of an invoice made of digits *)

Lemma lstrip_chars_digits (key : string) :
  all_digits key = true -> lstrip_chars "NFe" key = key.
Proof.
  destruct key as [|a key]; [reflexivity|].
  cbn [all_digits]. intros H. apply andb_true_iff in H as [Ha _].
  cbn [lstrip_chars mem].
  rewrite (digit_neq a "N" Ha eq_refl), (digit_neq a "F" Ha eq_refl),
          (digit_neq a "e" Ha eq_refl).
  reflexivity.
Qed.

(** X24.  For a key made of digits, as the 44 digits of an access key
    are, the invoice key is the identifier without its prefix [NFe],
    and an identifier that has no prefix is the key as it stands; an
    invoice-info element without the attribute [Id] has the empty
    key. *)
Theorem nfe_chave_of_digit_key (q : QName) (attrs : list (string * string))
    (x : option string) (cs : list Element) :
  (forall key, all_digits key = true ->
     dict_get attrs "Id" "" = "NFe" ++ key \/ dict_get attrs "Id" "" = key ->
     nfe_chave (Elem q attrs x cs) = key) /\
  ((forall v, ~ In ("Id", v) attrs) -> nfe_chave (Elem q attrs x cs) = "").
Proof.
  unfold nfe_chave, get. cbn [attrib]. split.
  - intros key Hd [H|H]; rewrite H.
    + cbn [append lstrip_chars mem Ascii.eqb Bool.eqb orb].
      now apply lstrip_chars_digits.
    + now apply lstrip_chars_digits.
  - intros H. now rewrite dict_get_absent.
Qed.

Lemma nfe_chave_of_digit_key_witness :
  nfe_chave (Elem (n "infNFe")
               [("Id", "NFe35240312345678000190550010000000771000000779")] None []) =
  "35240312345678000190550010000000771000000779".
Proof.
  apply (proj1 (nfe_chave_of_digit_key (n "infNFe")
                  [("Id", "NFe35240312345678000190550010000000771000000779")] None [])
           "35240312345678000190550010000000771000000779").
  - reflexivity.
  - left. reflexivity.
Defined.

(* ================================================================= *)
(** * From the uploads to the join *)





(* ================================================================= *)
(** * The money text against the words of the specification *)














